(** * Moonshot: object storage layer, session routes and progress webhook

    A shallow embedding of
      - moonshot/src/storage/storage.py               (class [Storage]),
      - moonshot/integrations/web_api/routes/redteam.py,
      - moonshot/integrations/web_api/status_updater/moonshot_ui_webhook.py
    and the properties of the storage specification proved about it.

    Python code runs against a mutable world and may raise.  A computation of
    the source is a function from the world to an outcome (a returned value or
    a raised exception) and the world it leaves behind; a raised exception
    keeps the effects performed before it. *)

From stdpp Require Import gmap strings list fin_maps pretty.
From Stdlib Require Import ZArith Ascii Floats.SpecFloat.

Set Warnings "-register-all".

Open Scope Z_scope.

(** ** Python: exceptions, outcomes, sequencing *)

Module Py.

(** The exception classes the three source files raise, catch or let
    through.  [FileNotFoundError], [NotADirectoryError] and
    [IsADirectoryError] are the [OSError]s of the errors ENOENT, ENOTDIR and
    EISDIR; an [OSError] of another error number has no class of its own.
    [JSONDecodeError] is what [json.load] raises on text that is not a JSON
    document and [UnicodeDecodeError] what it raises on bytes that are not
    text; both are [ValueError]s. *)
Inductive exn : Type :=
| AttributeError (name : string)
| FileNotFoundError (filename : string)
| NotADirectoryError (filename : string)
| IsADirectoryError (filename : string)
| OSError (errno : Z) (filename : string)
| JSONDecodeError (doc : string)
| UnicodeDecodeError (object : string)
| ValueError (info : string)
| RuntimeError (msg : string)
| SessionException (error_code : string) (msg : string)
| HTTPException (status_code : Z) (detail : string)
| RequestException (info : string).

#[global] Instance exn_eq_dec : EqDecision exn.
Proof. solve_decision. Defined.

Inductive outcome (A : Type) : Type :=
| Return (a : A)
| Raise (e : exn).
Arguments Return {A} a.
Arguments Raise {A} e.

(** A computation over a world of type [W]. *)
Definition io (W A : Type) : Type := W -> outcome A * W.

Definition ret {W A} (a : A) : io W A := fun w => (Return a, w).
Definition raise {W A} (e : exn) : io W A := fun w => (Raise e, w).
Definition bind {W A B} (c : io W A) (k : A -> io W B) : io W B :=
  fun w => match c w with
           | (Return a, w') => k a w'
           | (Raise e, w') => (Raise e, w')
           end.

(** [try: body except: handler]: the handler sees every exception; a handler
    that only treats one class re-raises the others. *)
Definition try_except {W A} (body : io W A) (handler : exn -> io W A) : io W A :=
  fun w => match body w with
           | (Return a, w') => (Return a, w')
           | (Raise e, w') => handler e w'
           end.

Definition returns {A} (o : outcome A) : bool :=
  match o with Return _ => true | Raise _ => false end.

End Py.

Export Py.

(** Sequencing is written with stdpp's monad notations: [x ← c; k] and
    [c;; k]. *)
#[global] Instance io_ret {W} : MRet (io W) := fun A => @ret W A.
#[global] Instance io_bind {W} : MBind (io W) := fun A B k c => @bind W A B c k.

(** ** Python values and the [json] module *)

Module Json.

(** Dictionary keys and values that [json.dump] accepts.  A float is given
    by its binary64 form: a zero, an infinity, NaN, or sign, mantissa and
    exponent.  Keys that are neither strings nor integers are left out. *)
Inductive key : Type :=
| KStr (s : string)
| KInt (n : Z).

Inductive value : Type :=
| PNone
| PBool (b : bool)
| PInt (n : Z)
| PFloat (x : spec_float)
| PStr (s : string)
| PList (items : list value)
| PTuple (items : list value)
| PDict (entries : list (key * value)).

(** A JSON document, as the text in a file denotes it. *)
Inductive json : Type :=
| JNull
| JBool (b : bool)
| JNumber (n : Z)
| JFloat (x : spec_float)
| JString (s : string)
| JArray (items : list json)
| JObject (members : list (string * json)).

#[global] Instance key_eq_dec : EqDecision key.
Proof. solve_decision. Defined.

(** [json.dump]: a key that is not a string is written as its decimal
    text; lists and tuples are both written as arrays. *)
Definition key_text (k : key) : string :=
  match k with
  | KStr s => s
  | KInt n => pretty n
  end.

Fixpoint dump (v : value) : json :=
  match v with
  | PNone => JNull
  | PBool b => JBool b
  | PInt n => JNumber n
  | PFloat x => JFloat x
  | PStr s => JString s
  | PList items => JArray (map dump items)
  | PTuple items => JArray (map dump items)
  | PDict entries => JObject (map (fun kv => (key_text kv.1, dump kv.2)) entries)
  end.

(** [d[k] = v] on a dictionary kept in insertion order: an existing key keeps
    its place and takes the new value. *)
Fixpoint dict_set (k : key) (v : value) (d : list (key * value)) : list (key * value) :=
  match d with
  | [] => [(k, v)]
  | (k', v') :: d' => if decide (k' = k) then (k, v) :: d' else (k', v') :: dict_set k v d'
  end.

Definition dict_of_pairs (pairs : list (key * value)) : list (key * value) :=
  fold_left (fun d kv => dict_set kv.1 kv.2 d) pairs [].

(** [json.load]: arrays become lists, objects become dictionaries with
    string keys (of a repeated member name the last value is kept). *)
Fixpoint load (j : json) : value :=
  match j with
  | JNull => PNone
  | JBool b => PBool b
  | JNumber n => PInt n
  | JFloat x => PFloat x
  | JString s => PStr s
  | JArray items => PList (map load items)
  | JObject members =>
      PDict (dict_of_pairs (map (fun m => (KStr m.1, load m.2)) members))
  end.

(** Python's [==] on these values: between an integer or a boolean and a
    float it compares the numbers; NaN is equal to nothing. *)
Definition key_eqb (a b : key) : bool := bool_decide (a = b).

Definition float_int_value (x : spec_float) : option Z :=
  match x with
  | S754_zero _ => Some 0
  | S754_finite s m e =>
      let v := if s then Z.neg m else Z.pos m in
      if 0 <=? e then Some (v * 2 ^ e)
      else if Z.pos m mod 2 ^ (- e) =? 0 then Some (v / 2 ^ (- e))
      else None
  | S754_infinity _ | S754_nan => None
  end.

Fixpoint dict_get (k : key) (d : list (key * value)) : option value :=
  match d with
  | [] => None
  | (k', v) :: d' => if key_eqb k' k then Some v else dict_get k d'
  end.

Fixpoint py_eq (a b : value) {struct a} : bool :=
  let fix seq_eq (xs ys : list value) {struct xs} : bool :=
    match xs, ys with
    | [], [] => true
    | x :: xs', y :: ys' => py_eq x y && seq_eq xs' ys'
    | _, _ => false
    end in
  match a, b with
  | PNone, PNone => true
  | PBool x, PBool y => bool_decide (x = y)
  | PBool x, PInt n | PInt n, PBool x => bool_decide (n = if x then 1 else 0)
  | PInt n, PInt m => bool_decide (n = m)
  | PFloat x, PFloat y => SFeqb x y
  | PInt n, PFloat x | PFloat x, PInt n => bool_decide (float_int_value x = Some n)
  | PBool b, PFloat x | PFloat x, PBool b =>
      bool_decide (float_int_value x = Some (if b then 1 else 0))
  | PStr s, PStr t => bool_decide (s = t)
  | PList xs, PList ys => seq_eq xs ys
  | PTuple xs, PTuple ys => seq_eq xs ys
  | PDict d, PDict e =>
      bool_decide (length d = length e) &&
      (fix all_in (d : list (key * value)) : bool :=
         match d with
         | [] => true
         | (k, v) :: d' =>
             match dict_get k e with
             | Some v' => py_eq v v' && all_in d'
             | None => false
             end
         end) d
  | _, _ => false
  end.

(** Values that JSON has a form of its own for: no tuple, and dictionaries
    keyed by pairwise distinct strings.  (Python's [json] writes and reads
    the floats that JSON lacks, the infinities and NaN, as well.) *)
Definition is_str_key (k : key) : bool :=
  match k with KStr _ => true | KInt _ => false end.

Fixpoint json_native (v : value) : bool :=
  match v with
  | PNone | PBool _ | PInt _ | PFloat _ | PStr _ => true
  | PList items => forallb json_native items
  | PTuple _ => false
  | PDict entries =>
      forallb (fun kv => is_str_key kv.1) entries
      && bool_decide (NoDup (map fst entries))
      && forallb (fun kv => json_native kv.2) entries
  end.

(** Values without NaN, the one float that is not equal to itself. *)
Definition is_nan (x : spec_float) : bool :=
  match x with S754_nan => true | _ => false end.

Fixpoint nan_free (v : value) : bool :=
  match v with
  | PNone | PBool _ | PInt _ | PStr _ => true
  | PFloat x => negb (is_nan x)
  | PList items => forallb nan_free items
  | PTuple items => forallb nan_free items
  | PDict entries => forallb (fun kv => nan_free kv.2) entries
  end.

(** Induction on values, through the lists that nest them. *)
Section value_induction.
Variable P : value -> Prop.
Hypothesis HNone : P PNone.
Hypothesis HBool : forall b, P (PBool b).
Hypothesis HInt : forall n, P (PInt n).
Hypothesis HFloat : forall x, P (PFloat x).
Hypothesis HStr : forall s, P (PStr s).
Hypothesis HList : forall items, Forall P items -> P (PList items).
Hypothesis HTuple : forall items, Forall P items -> P (PTuple items).
Hypothesis HDict : forall entries, Forall (fun kv => P kv.2) entries -> P (PDict entries).

Fixpoint value_nested_ind (v : value) : P v :=
  match v with
  | PNone => HNone
  | PBool b => HBool b
  | PInt n => HInt n
  | PFloat x => HFloat x
  | PStr s => HStr s
  | PList items =>
      HList items
        ((fix go (l : list value) : Forall P l :=
            match l with
            | [] => Forall_nil_2 P
            | x :: l' => Forall_cons_2 P x l' (value_nested_ind x) (go l')
            end) items)
  | PTuple items =>
      HTuple items
        ((fix go (l : list value) : Forall P l :=
            match l with
            | [] => Forall_nil_2 P
            | x :: l' => Forall_cons_2 P x l' (value_nested_ind x) (go l')
            end) items)
  | PDict entries =>
      HDict entries
        ((fix go (l : list (key * value)) : Forall (fun kv => P kv.2) l :=
            match l with
            | [] => Forall_nil_2 _
            | kv :: l' => Forall_cons_2 (fun kv => P kv.2) kv l' (value_nested_ind kv.2) (go l')
            end) entries)
  end.
End value_induction.

(** What is read back from a written value: [load] after [dump]. *)
Definition reload (v : value) : value := load (dump v).

End Json.

(** ** Path strings: [os.path] and [fnmatch] *)

Module Path.

Definition is_slash (c : ascii) : bool := bool_decide (c = "/"%char).

(** [glob.has_magic]: one of the characters [*], [?], [[] occurs. *)
Definition is_magic (c : ascii) : bool :=
  bool_decide (c = "*"%char) || bool_decide (c = "?"%char) || bool_decide (c = "["%char).

Fixpoint has_char (f : ascii -> bool) (s : string) : bool :=
  match s with
  | EmptyString => false
  | String c s' => f c || has_char f s'
  end.

Definition has_magic (s : string) : bool := has_char is_magic s.
Definition has_slash (s : string) : bool := has_char is_slash s.
Definition has_bracket (s : string) : bool := has_char (fun c => bool_decide (c = "["%char)) s.
Definition has_dot (s : string) : bool := has_char (fun c => bool_decide (c = "."%char)) s.

(** The path of an object: what the f-string
    [f"{root}/{obj_id}.{obj_extension}"] evaluates to. *)
Definition filepath (root obj_id obj_extension : string) : string :=
  root +:+ "/" +:+ obj_id +:+ "." +:+ obj_extension.

Fixpoint ends_with_slash (s : string) : bool :=
  match s with
  | EmptyString => false
  | String c EmptyString => is_slash c
  | String _ s' => ends_with_slash s'
  end.

(** [s.rstrip("/")]. *)
Fixpoint rstrip_slash (s : string) : string :=
  match s with
  | EmptyString => EmptyString
  | String c s' =>
      match rstrip_slash s' with
      | EmptyString => if is_slash c then EmptyString else String c EmptyString
      | r => String c r
      end
  end.

(** Cut at the last slash: the part up to and including it, and the rest. *)
Fixpoint rsplit_slash (p : string) : option (string * string) :=
  match p with
  | EmptyString => None
  | String c p' =>
      match rsplit_slash p' with
      | Some (h, t) => Some (String c h, t)
      | None => if is_slash c then Some (String c EmptyString, p') else None
      end
  end.

(** [os.path.split] of [posixpath]: trailing slashes are stripped from the
    head unless the head consists of slashes only. *)
Definition os_path_split (p : string) : string * string :=
  match rsplit_slash p with
  | None => (EmptyString, p)
  | Some (head, tail) =>
      match rstrip_slash head with
      | EmptyString => (head, tail)
      | stripped => (stripped, tail)
      end
  end.

(** [os.path.join] of a directory and a name that does not start with a slash. *)
Definition os_path_join (dirname name : string) : string :=
  match dirname with
  | EmptyString => name
  | _ => if ends_with_slash dirname then dirname +:+ name else dirname +:+ "/" +:+ name
  end.

Fixpoint strip_prefix (pre s : string) : option string :=
  match pre with
  | EmptyString => Some s
  | String c pre' =>
      match s with
      | EmptyString => None
      | String d s' => if bool_decide (c = d) then strip_prefix pre' s' else None
      end
  end.

Fixpoint is_suffix (suf s : string) : bool :=
  bool_decide (s = suf) ||
  match s with
  | EmptyString => false
  | String _ s' => is_suffix suf s'
  end.

(** [glob._ishidden]. *)
Definition ishidden (name : string) : bool :=
  match name with
  | String c _ => bool_decide (c = "."%char)
  | EmptyString => false
  end.

(** [fnmatch.fnmatchcase] for a pattern without a character class: [*]
    matches any run of characters, [?] any one character, and every other
    character itself. *)
Fixpoint fnmatch_plain (pat name : string) : bool :=
  match pat with
  | EmptyString => bool_decide (name = EmptyString)
  | String c pat' =>
      if bool_decide (c = "*"%char) then
        (fix star (name : string) : bool :=
           fnmatch_plain pat' name ||
           match name with
           | EmptyString => false
           | String _ name' => star name'
           end) name
      else
        match name with
        | EmptyString => false
        | String d name' =>
            (bool_decide (c = "?"%char) || bool_decide (c = d)) && fnmatch_plain pat' name'
        end
  end.

End Path.

(** ** storage.py *)

Module Storage.

Import Json Path.

(** What a file holds: the text of a JSON document, given by the document it
    denotes, or text that [json.load] rejects (an empty file is of the second
    kind). *)
Inductive content : Type :=
| JsonText (doc : json)
| Garbled (text : string).

Record file : Type := File { file_content : content; st_ctime : Z }.

(** The file system is a finite map from path strings, as the code builds
    them, to regular files.  The directories of the configuration exist and
    are writable; faults of the operating system other than the absence of a
    path are not part of the model.  A path string stands for the one file
    of that name: the model is that of ids and extensions which make an
    ordinary file name in the directory of their type.  How any other path
    is resolved, and what the operations on a single object do then, is the
    subject of [Posix] and [DocumentStore] below.  [engine] is the state of
    the database engine and [clock] the time of the system. *)
Record os_state (engine : Type) : Type := OsState {
  files : gmap string file;
  clock : Z;
  db : engine
}.
Arguments OsState {engine} files clock db.
Arguments files {engine} _.
Arguments clock {engine} _.
Arguments db {engine} _.

Section storage.

(** [moonshot.src.configs.env_variables.EnvironmentVars]: the attributes of
    the configuration class, each with the text an f-string renders it as.
    A recognised object type is the name of one of them. *)
Variable EnvironmentVars : gmap string string.

(** [moonshot.src.storage.db]: the accessor class and the manager's
    [create_connection], which returns an accessor or [None]. *)
Context {engine : Type}.
Variable DBAccessor : Type.
Variable DatabaseManager_create_connection : string -> io (os_state engine) (option DBAccessor).
Variable close_connection : DBAccessor -> io (os_state engine) unit.
Variable create_table : DBAccessor -> string -> io (os_state engine) unit.
Variable create_record : DBAccessor -> list value -> string -> io (os_state engine) unit.
Variable update_record : DBAccessor -> list value -> string -> io (os_state engine) unit.

(** Library functions left uninterpreted: [str(Path(p))],
    [datetime.datetime.fromtimestamp], [fnmatch] on a pattern with a
    character class, and [glob] on a pattern whose directory part has a
    wildcard or whose last component has none. *)
Variable pathlib_str : string -> string.
Variable datetime : Type.
Variable fromtimestamp : Z -> datetime.
Variable fnmatch_class : string -> string -> bool.
Variable glob_other : os_state engine -> string -> list string.

Abbreviation world := (os_state engine).

(** *** Builtins and library calls *)

(** [getattr(EnvironmentVars, name)] *)
Definition getattr (name : string) : io world string :=
  match EnvironmentVars !! name with
  | Some v => mret v
  | None => raise (AttributeError name)
  end.

Definition set_files (fs : gmap string file) (w : world) : world :=
  OsState fs (clock w) (db w).

(** [Path(p).exists()] *)
Definition path_exists (p : string) : io world bool :=
  fun w => (Return (bool_decide (is_Some (files w !! p))), w).

(** [open(p, "w")]: the file is created or truncated. *)
Definition open_w (p : string) : io world unit :=
  fun w => (Return (), set_files (<[p := File (Garbled EmptyString) (clock w)]> (files w)) w).

(** [json.dump(obj, fp, indent=2)] on the file opened at [p]. *)
Definition json_dump (obj : value) (p : string) : io world unit :=
  fun w => (Return (), set_files (<[p := File (JsonText (dump obj)) (clock w)]> (files w)) w).

(** [open(p, "r", encoding="utf-8")] and the text it gives. *)
Definition open_r (p : string) : io world content :=
  fun w => match files w !! p with
           | Some f => (Return (file_content f), w)
           | None => (Raise (FileNotFoundError p), w)
           end.

(** [json.load(fp)] *)
Definition json_load (c : content) : io world value :=
  match c with
  | JsonText doc => mret (load doc)
  | Garbled text => raise (JSONDecodeError text)
  end.

(** [Path(p).unlink()] *)
Definition unlink (p : string) : io world unit :=
  fun w => match files w !! p with
           | Some _ => (Return (), set_files (delete p (files w)) w)
           | None => (Raise (FileNotFoundError p), w)
           end.

(** [os.path.getctime(p)] *)
Definition getctime (p : string) : io world Z :=
  fun w => match files w !! p with
           | Some f => (Return (st_ctime f), w)
           | None => (Raise (FileNotFoundError p), w)
           end.

(** The names in a directory: the files whose path is the directory, a
    slash and a name without a slash. *)
Definition dir_prefix (dirname : string) : string :=
  if ends_with_slash dirname then dirname else dirname +:+ "/".

Definition entry_name (dirname p : string) : option string :=
  match strip_prefix (dir_prefix dirname) p with
  | Some name =>
      if negb (has_slash name) && negb (bool_decide (name = EmptyString)) then Some name else None
  | None => None
  end.

Definition listdir (w : world) (dirname : string) : list string :=
  omap (entry_name dirname) (map_to_list (files w)).*1.

Definition fnmatchcase (pat name : string) : bool :=
  if has_bracket pat then fnmatch_class pat name else fnmatch_plain pat name.

(** [glob._glob1]: hidden names are skipped unless the pattern starts with
    a dot. *)
Definition glob1 (w : world) (dirname pattern : string) : list string :=
  let names := listdir w dirname in
  let names := if ishidden pattern then names else filter (fun x => ishidden x = false) names in
  filter (fun x => fnmatchcase pattern x = true) names.

(** [glob.iglob] returns a generator: nothing is read until it is advanced,
    and then it reads the file system as it is at that moment. *)
Definition iterator (A : Type) : Type := world -> list A.

(** [list(it)] on a generator that has not been advanced.  (It exhausts
    the generator; a second [list] of the same generator, which is empty, is
    not modelled.) *)
Definition consume {A} (it : iterator A) : io world (list A) :=
  fun w => (Return (it w), w).

Definition iglob (pathname : string) : iterator string := fun w =>
  let '(dirname, basename) := os_path_split pathname in
  if has_magic basename && negb (has_magic dirname) && negb (bool_decide (dirname = EmptyString)) then
    os_path_join dirname <$> glob1 w dirname basename
  else glob_other w pathname.

(** *** class Storage *)

Definition create_object (obj_type obj_id : string) (obj_info : value)
    (obj_extension : string) : io world unit :=
  root ← getattr obj_type;
  let obj_filepath := root +:+ "/" +:+ obj_id +:+ "." +:+ obj_extension in
  open_w obj_filepath;;
  json_dump obj_info obj_filepath.

Definition read_object (obj_type obj_id obj_extension : string) : io world value :=
  root ← getattr obj_type;
  let obj_filepath := root +:+ "/" +:+ obj_id +:+ "." +:+ obj_extension in
  json_file ← open_r obj_filepath;
  obj_info ← json_load json_file;
  mret obj_info.

Definition delete_object (obj_type obj_id obj_extension : string) : io world unit :=
  root ← getattr obj_type;
  let obj_filepath := root +:+ "/" +:+ obj_id +:+ "." +:+ obj_extension in
  present ← path_exists obj_filepath;
  if present : bool then unlink obj_filepath
  else raise (RuntimeError ("No " +:+ obj_type +:+ " found with ID: " +:+ obj_id)).

Definition get_objects (obj_type obj_extension : string) : io world (iterator string) :=
  root ← getattr obj_type;
  mret (iglob (root +:+ "/*." +:+ obj_extension)).

Definition get_creation_datetime (obj_type obj_id obj_extension : string)
    : io world datetime :=
  root ← getattr obj_type;
  let obj_filepath := root +:+ "/" +:+ obj_id +:+ "." +:+ obj_extension in
  creation_timestamp ← getctime obj_filepath;
  let creation_datetime := fromtimestamp creation_timestamp in
  mret creation_datetime.

Definition get_filepath (obj_type obj_id obj_extension : string) : io world string :=
  root ← getattr obj_type;
  mret (root +:+ "/" +:+ obj_id +:+ "." +:+ obj_extension).

Definition is_object_exists (obj_type obj_id obj_extension : string) : io world bool :=
  root ← getattr obj_type;
  let obj_filepath := root +:+ "/" +:+ obj_id +:+ "." +:+ obj_extension in
  path_exists obj_filepath.

(** An accessor reference is an accessor or [None]; [if database_instance:]
    holds of an accessor. *)
Definition create_database_connection (obj_type obj_id obj_extension : string)
    : io world DBAccessor :=
  database_file ← get_filepath obj_type obj_id obj_extension;
  database_instance ← DatabaseManager_create_connection (pathlib_str database_file);
  match database_instance with
  | None => raise (RuntimeError "db instance is not initialised.")
  | Some accessor => mret accessor
  end.

Definition close_database_connection (database_instance : option DBAccessor)
    : io world unit :=
  match database_instance with
  | Some accessor => close_connection accessor
  | None => raise (RuntimeError "Database instance is not initialised.")
  end.

Definition create_database_table (database_instance : option DBAccessor)
    (sql_create_table : string) : io world unit :=
  match database_instance with
  | Some accessor => create_table accessor sql_create_table
  | None => raise (RuntimeError "Database instance is not initialised.")
  end.

Definition create_database_record (database_instance : option DBAccessor)
    (data : list value) (sql_create_record : string) : io world unit :=
  match database_instance with
  | Some accessor => create_record accessor data sql_create_record
  | None => raise (RuntimeError "Database instance is not initialised.")
  end.

Definition update_database_record (database_instance : option DBAccessor)
    (data : list value) (sql_update_record : string) : io world unit :=
  match database_instance with
  | Some accessor => update_record accessor data sql_update_record
  | None => raise (RuntimeError "Database instance is not initialised.")
  end.

End storage.

End Storage.

(** ** routes/redteam.py *)

Module Redteam.

Import Json.

(** [schemas/session_prompt_dto.py]: the field the route reads. *)
Record SessionPromptDTO : Type := { prompt_text : string }.

Section routes.

(** The session service ([services/session_service.py]) and the schemas the
    routes exchange with it.  [service] is the state the service works on;
    each of its methods may raise, a [SessionException] among others. *)
Context {service : Type}.
Variable SessionMetadataModel : Type.
Variable ChatHistory : Type.
Variable SessionCreateDTO : Type.
Variable PromptResponseModel : Type.
Variable PromptTemplate : Type.
Variable SessionResponseModel : Type.

(** [session.session_id], [session_data.chat_history = history] (the
    assignment is modelled by the value the name is bound to afterwards) and
    the constructor [SessionResponseModel(session=...)], whose validation
    may raise. *)
Variable session_id_of : SessionMetadataModel -> string.
Variable set_chat_history : SessionMetadataModel -> ChatHistory -> SessionMetadataModel.
Variable new_SessionResponseModel : option SessionMetadataModel -> io service SessionResponseModel.

Variable get_sessions : io service (list (option SessionMetadataModel)).
Variable get_session : string -> io service (option SessionMetadataModel).
Variable get_session_chat_history : string -> io service ChatHistory.
Variable create_session : SessionCreateDTO -> io service SessionMetadataModel.
Variable send_prompt : string -> string -> io service PromptResponseModel.
Variable get_prompt_templates : io service (list (option PromptTemplate)).
Variable select_prompt_template : string -> string -> io service bool.

(** The clause every route ends with:
    [except SessionException as e:] and its three branches.  An exception of
    another class is not caught. *)
Definition except_SessionException {A} (e : exn) : io service A :=
  match e with
  | SessionException error_code msg =>
      if bool_decide (error_code = "FileNotFound") then raise (HTTPException 404 msg)
      else if bool_decide (error_code = "ValidationError") then raise (HTTPException 400 msg)
      else raise (HTTPException 500 msg)
  | _ => raise e
  end.

(** In the words of the specification: the error kind "not found" is
    answered with 404, "validation" with 400, anything else with 500; what a
    route answers when its body ends with outcome [r]. *)
Definition spec_status (error_kind : string) : Z :=
  if decide (error_kind = "FileNotFound") then 404
  else if decide (error_kind = "ValidationError") then 400
  else 500.

Definition translate (e : exn) : exn :=
  match e with
  | SessionException error_code msg => HTTPException (spec_status error_code) msg
  | _ => e
  end.

Definition answer {A} (r : outcome A * service) : outcome A * service :=
  match r with
  | (Return a, s) => (Return a, s)
  | (Raise e, s) => (Raise (translate e), s)
  end.

Definition get_all_sessions : io service (list (option SessionMetadataModel)) :=
  try_except get_sessions except_SessionException.

Definition get_session_by_session_id (session_id : string) (include_history : bool)
    : io service SessionResponseModel :=
  try_except
    (session_data ← get_session session_id;
     session_data ←
       (if include_history then
          history ← get_session_chat_history session_id;
          match session_data with
          | Some data => mret (Some (set_chat_history data history))
          | None => mret None
          end
        else mret session_data);
     match session_data with
     | Some data => new_SessionResponseModel (Some data)
     | None => raise (HTTPException 404 "Session not found")
     end)
    except_SessionException.

Definition create (session_dto : SessionCreateDTO) : io service SessionResponseModel :=
  try_except
    (new_session ← create_session session_dto;
     updated_with_chat_ids ← get_session (session_id_of new_session);
     new_SessionResponseModel updated_with_chat_ids)
    except_SessionException.

Definition prompt (session_id : string) (user_prompt : SessionPromptDTO)
    : io service PromptResponseModel :=
  try_except
    (result ← send_prompt session_id (prompt_text user_prompt);
     mret result)
    except_SessionException.

Definition get_all_prompt_templates : io service (list (option PromptTemplate)) :=
  try_except get_prompt_templates except_SessionException.

Definition set_prompt_template (session_id prompt_template_name : string)
    : io service (gmap string bool) :=
  try_except
    (result ← select_prompt_template session_id prompt_template_name;
     mret {[ "success" := result ]})
    except_SessionException.

Definition unset_prompt_template (session_id prompt_template_name : string)
    : io service (gmap string bool) :=
  try_except
    (result ← select_prompt_template session_id EmptyString;
     mret {[ "success" := result ]})
    except_SessionException.

End routes.

End Redteam.

(** ** status_updater/moonshot_ui_webhook.py *)

Module Webhook.

Import Json.

Inductive level : Type := DEBUG | INFO | CRITICAL.

(** What a logging call is given: text, the text of a JSON document, or an
    object. *)
Inductive message : Type :=
| Text (s : string)
| JsonDump (doc : json)
| Object (v : value).

(** A [requests.Response]: status line, URL, and the body as [json()]
    decodes it ([None] when the body is not JSON). *)
Record Response : Type := {
  status_code : Z;
  reason : string;
  response_url : string;
  body : option value
}.

(** The world of the webhook: the injected [BenchmarkTestState] object, the
    calls made to the root logger, the network, and the file system of the
    storage layer. *)
Record world (state net disk : Type) : Type := World {
  benchmark_test_state : state;
  log : list (level * message);
  network : net;
  storage : disk
}.
Arguments World {state net disk}.
Arguments benchmark_test_state {state net disk}.
Arguments log {state net disk}.
Arguments network {state net disk}.
Arguments storage {state net disk}.

(** [class MoonshotUIWebhook]: [self.benchmark_test_state] is the object in
    the world, [self.url] the callback URL read at construction. *)
Record MoonshotUIWebhook : Type := { url : string }.

Section webhook.

Context {state net disk : Type}.

(** [BenchmarkTestState.update_progress_status] ([services/benchmark_test_state.py]). *)
Variable update_progress_status : value -> state -> state.

(** [requests.post(url, json=...)]: a response, or an exception (a
    [RequestException] when the network fails). *)
Variable requests_post : string -> value -> net -> outcome Response * net.

(** The exception [Response.json()] raises on a body that is not JSON: a
    [RequestException] from requests 2.27 on, a [ValueError] before. *)
Variable json_error : exn.

Abbreviation W := (world state net disk).

Definition logger_log (lvl : level) (msg : message) : io W unit :=
  fun w => (Return (),
            World (benchmark_test_state w) (log w ++ [(lvl, msg)]) (network w) (storage w)).

Definition benchmark_test_state_update (updates : value) : io W unit :=
  fun w => (Return (),
            World (update_progress_status updates (benchmark_test_state w))
                  (log w) (network w) (storage w)).

Definition post (target : string) (payload : value) : io W Response :=
  fun w => let '(o, n) := requests_post target payload (network w) in
           (o, World (benchmark_test_state w) (log w) n (storage w)).

(** [Response.raise_for_status] *)
Definition raise_for_status (r : Response) : io W unit :=
  if bool_decide (400 ≤ status_code r < 500) then
    raise (RequestException (pretty (status_code r) +:+ " Client Error: " +:+ reason r
                             +:+ " for url: " +:+ response_url r))
  else if bool_decide (500 ≤ status_code r < 600) then
    raise (RequestException (pretty (status_code r) +:+ " Server Error: " +:+ reason r
                             +:+ " for url: " +:+ response_url r))
  else mret ().

(** [Response.json] *)
Definition response_json (r : Response) : io W value :=
  match body r with
  | Some v => mret v
  | None => raise json_error
  end.

Definition on_progress_update (self : MoonshotUIWebhook) (progress_data : value)
    : io W unit :=
  logger_log DEBUG (JsonDump (dump progress_data));;
  benchmark_test_state_update progress_data;;
  try_except
    (response ← post (url self) progress_data;
     raise_for_status response;;
     decoded ← response_json response;
     logger_log DEBUG (Object decoded);;
     logger_log INFO (Text "Progress data successfully sent to the server."))
    (fun e =>
       match e with
       | RequestException info =>
           logger_log CRITICAL (Text ("Failed to send progress data: " +:+ info))
       | _ => raise e
       end).

End webhook.

End Webhook.

(** ** A configuration and worlds to run the model on *)

Module Scenario.

Import Json Storage.

Definition EnvironmentVars : gmap string string :=
  {[ "recipe" := "data/recipes"; "cookbook" := "data/cookbooks" ]}.

(** An empty file system, and one that holds a recipe file cut short. *)
Definition fresh : os_state unit := OsState ∅ 0 ().

Definition cut_short : os_state unit :=
  OsState {[ "data/recipes/r1.json" := File (Garbled "{") 0 ]} 7 ().

(** A recipe stored as YAML and a cookbook, and nothing else. *)
Definition others_only : os_state unit :=
  OsState {[ "data/recipes/d.yaml" := File (Garbled "name: d") 0;
             "data/cookbooks/a.json" := File (JsonText (JObject [])) 0 ]} 7 ().

Definition named : value := PDict [(KStr "name", PStr "test")].

(** A database manager that never connects. *)
Definition no_connection : string -> io (os_state unit) (option nat) :=
  fun _ => mret None.
Definition close_connection : nat -> io (os_state unit) unit := fun _ => mret ().
Definition create_table : nat -> string -> io (os_state unit) unit := fun _ _ => mret ().
Definition write_record : nat -> list value -> string -> io (os_state unit) unit :=
  fun _ _ _ => mret ().

Definition no_class : string -> string -> bool := fun _ _ => false.
Definition no_other : os_state unit -> string -> list string := fun _ _ => [].

(** A session service whose state tells whether the one session exists. *)
Definition get_session : string -> io bool (option string) :=
  fun _ s => (Return (if s then Some "session-1" else None), s).
Definition get_session_chat_history : string -> io bool (list string) :=
  fun _ => mret [].
Definition set_chat_history : string -> list string -> string := fun data _ => data.
Definition new_SessionResponseModel : option string -> io bool (option string) :=
  fun session => mret session.
Definition select_prompt_template : string -> string -> io bool bool :=
  fun _ _ => mret true.
Definition create_session : unit -> io bool string := fun _ => mret "session-1".

(** A network that refuses every connection. *)
Definition refused : string -> value -> unit -> outcome Webhook.Response * unit :=
  fun _ _ n => (Raise (RequestException "Connection refused"), n).

End Scenario.

(** ** Induction on documents *)

Module JsonDoc.

Import Json.

Section json_induction.
Variable P : json -> Prop.
Hypothesis HNull : P JNull.
Hypothesis HBool : forall b, P (JBool b).
Hypothesis HNumber : forall n, P (JNumber n).
Hypothesis HFloat : forall x, P (JFloat x).
Hypothesis HString : forall s, P (JString s).
Hypothesis HArray : forall items, Forall P items -> P (JArray items).
Hypothesis HObject : forall members, Forall (fun m => P m.2) members -> P (JObject members).

Fixpoint json_nested_ind (j : json) : P j :=
  match j with
  | JNull => HNull
  | JBool b => HBool b
  | JNumber n => HNumber n
  | JFloat x => HFloat x
  | JString s => HString s
  | JArray items =>
      HArray items
        ((fix go (l : list json) : Forall P l :=
            match l with
            | [] => Forall_nil_2 P
            | x :: l' => Forall_cons_2 P x l' (json_nested_ind x) (go l')
            end) items)
  | JObject members =>
      HObject members
        ((fix go (l : list (string * json)) : Forall (fun m => P m.2) l :=
            match l with
            | [] => Forall_nil_2 _
            | m :: l' => Forall_cons_2 (fun m => P m.2) m l' (json_nested_ind m.2) (go l')
            end) members)
  end.
End json_induction.

End JsonDoc.

(** ** moonshot_ui_webhook.py: construction *)

Module WebhookSetup.

Import Webhook.

(** [str(x)] of a string or [None]. *)
Definition str_of (x : option string) : string :=
  match x with
  | Some s => s
  | None => "None"
  end.

(** [MoonshotUIWebhook.__init__]: [dotenv_values()] is the mapping read from
    the [.env] file, in which a key written without a value is bound to
    [None]; [dict.get(key, default)] gives the default only when the key is
    absent. *)
Definition MoonshotUIWebhook_init (dotenv_values : gmap string (option string))
    : MoonshotUIWebhook :=
  {| url :=
       str_of
         (match dotenv_values !! "MOONSHOT_UI_CALLBACK_URL" with
          | Some configured => configured
          | None => Some "http://localhost:3000/api/v1/benchmarks/status"
          end) |}.

End WebhookSetup.

(** ** More services and networks to run the model on *)

Module Scenario2.

Import Json Storage.

(** A recipe file with a repeated member name, as another program may have
    written it. *)
Definition repeated_member : os_state unit :=
  OsState {[ "data/recipes/r1.json" :=
               File (JsonText (JObject [("name", JString "old"); ("name", JString "new")])) 0 ]}
          7 ().

(** A session service out of order: every method raises the same error. *)
Definition broken {A} : io nat A := fun s => (Raise (ValueError "service is down"), S s).

(** A session service without sessions whose history store fails. *)
Definition no_session : string -> io nat (option string) :=
  fun _ s => (Return None, S s).
Definition found_session : string -> io nat (option string) :=
  fun session_id s => (Return (Some session_id), S s).
Definition history_fails : string -> io nat (list string) :=
  fun _ s => (Raise (SessionException "ValidationError" "history is corrupt"), S s).
Definition history_of : string -> io nat (list string) :=
  fun session_id s => (Return ["hello"; session_id], S s).
(** A history store that fails in every even state. *)
Definition history_flaky : string -> io nat (list string) :=
  fun session_id s =>
    if Nat.even s then history_fails session_id s else history_of session_id s.
Definition attach : string -> list string -> string :=
  fun data history => data +:+ " with history".
Definition respond : option string -> io nat (option string) :=
  fun session s => (Return session, S s).
(** Creation of a session from its name, which must not be empty. *)
Definition creates : string -> io nat string :=
  fun session_dto s =>
    if bool_decide (session_dto = EmptyString)
    then (Raise (SessionException "ValidationError" "name is required"), S s)
    else (Return ("session-" +:+ session_dto), S s).

(** Networks: one that answers every post with the same response, one whose
    client fails before anything is sent. *)
Definition answers (r : Webhook.Response) : string -> value -> nat -> outcome Webhook.Response * nat :=
  fun _ _ n => (Return r, S n).
Definition misused : string -> value -> nat -> outcome Webhook.Response * nat :=
  fun _ _ n => (Raise (ValueError "Invalid URL"), S n).
(** A network that records the URL it was last asked to post to. *)
Definition recording : string -> value -> string -> outcome Webhook.Response * string :=
  fun target _ _ => (Raise (RequestException "Connection refused"), target).

Definition server_error : Webhook.Response :=
  {| Webhook.status_code := 503; Webhook.reason := "Service Unavailable";
     Webhook.response_url := "http://localhost:3000/api/v1/benchmarks/status";
     Webhook.body := None |}.
Definition accepted : Webhook.Response :=
  {| Webhook.status_code := 200; Webhook.reason := "OK";
     Webhook.response_url := "http://localhost:3000/api/v1/benchmarks/status";
     Webhook.body := Some (PDict [(KStr "ok", PBool true)]) |}.
Definition accepted_as_page : Webhook.Response :=
  {| Webhook.status_code := 200; Webhook.reason := "OK";
     Webhook.response_url := "http://localhost:3000/api/v1/benchmarks/status";
     Webhook.body := None |}.

(** The webhook of the local server, in a world where nothing has happened. *)
Definition callback : Webhook.MoonshotUIWebhook :=
  {| Webhook.url := "http://localhost:3000/api/v1/benchmarks/status" |}.
Definition idle : Webhook.world (list value) nat unit := Webhook.World [] [] 0%nat ().

End Scenario2.

(** ** The file system of the operating system *)

(** A second, closer model of the file system, for the operations of the
    document store whose outcome depends on how a path is resolved: a tree
    of directories and regular files on a Linux system, without symbolic
    links and with every access permitted.  A path is a string of bytes. *)

Module Posix.

Import Json Path.

Inductive errno : Type := ENOENT | ENOTDIR | EISDIR | ENAMETOOLONG.

Definition NAME_MAX : nat := 255.
Definition PATH_MAX : nat := 4096.

(** [OSError(errno, strerror, filename)] and the class Python gives it. *)
Definition os_error (e : errno) (filename : string) : exn :=
  match e with
  | ENOENT => FileNotFoundError filename
  | ENOTDIR => NotADirectoryError filename
  | EISDIR => IsADirectoryError filename
  | ENAMETOOLONG => OSError 36 filename
  end.

(** What a regular file holds: the bytes [json.dump] wrote for a document,
    given by the document, or any bytes. *)
Inductive contents : Type :=
| Dumped (doc : json)
| Bytes (raw : string).

Inductive node : Type :=
| Directory (st_ctime : Z)
| Regular (data : contents) (st_ctime : Z).

(** The tree maps the place of a file, the names from the root directory
    down to it, to the file; the root directory is always there.  [cwd] is
    the working directory of the process and [clock] the time. *)
Record disk : Type := Disk {
  tree : gmap (list string) node;
  root_ctime : Z;
  cwd : list string;
  clock : Z
}.

Definition node_at (d : disk) (place : list string) : option node :=
  match place with
  | [] => Some (Directory (root_ctime d))
  | _ => tree d !! place
  end.

Definition is_directory (d : disk) (place : list string) : bool :=
  match node_at d place with
  | Some (Directory _) => true
  | _ => false
  end.

Definition node_ctime (n : node) : Z :=
  match n with
  | Directory t => t
  | Regular _ t => t
  end.

(** The components of a path: [path.split("/")]. *)
Fixpoint split_slash (s : string) : list string :=
  match s with
  | EmptyString => [EmptyString]
  | String c s' =>
      if is_slash c then EmptyString :: split_slash s'
      else match split_slash s' with
           | h :: t => String c h :: t
           | [] => [String c EmptyString]
           end
  end.

Fixpoint join_slash (parts : list string) : string :=
  match parts with
  | [] => EmptyString
  | [p] => p
  | p :: rest => p +:+ "/" +:+ join_slash rest
  end.

(** The length of a path, counted on its components. *)
Fixpoint slen (comps : list string) : nat :=
  match comps with
  | [] => O
  | c :: rest => S (String.length c + slen rest)
  end.

Definition has_nul (s : string) : bool :=
  has_char (fun c => bool_decide (c = "000"%char)) s.

Definition is_absolute (path : string) : bool :=
  match path with
  | String c _ => is_slash c
  | EmptyString => false
  end.

Definition start (d : disk) (path : string) : list string :=
  if is_absolute path then [] else cwd d.

(** One step of path resolution: from a place, which must be a directory,
    by one component.  An empty component (of a doubled or final slash) and
    [.] stay, [..] goes up, a name goes down. *)
Definition enter (d : disk) (place : list string) (c : string) : errno + list string :=
  match node_at d place with
  | None => inl ENOENT
  | Some (Regular _ _) => inl ENOTDIR
  | Some (Directory _) =>
      if bool_decide (c = EmptyString \/ c = ".") then inr place
      else if bool_decide (c = "..") then inr (removelast place)
      else if (NAME_MAX <? String.length c)%nat then inl ENAMETOOLONG
      else inr (place ++ [c])
  end.

Fixpoint walk (d : disk) (place : list string) (comps : list string) : errno + list string :=
  match comps with
  | [] => inr place
  | c :: rest =>
      match enter d place c with
      | inl e => inl e
      | inr place' => walk d place' rest
      end
  end.

(** Resolution up to the last component that is not empty: the place of the
    directory reached, that component, and whether slashes follow it. *)
Fixpoint walk_to_last (d : disk) (place : list string) (comps : list string)
    : errno + (list string * string * bool) :=
  match comps with
  | [] => inl ENOENT
  | c :: rest =>
      if forallb (fun x => bool_decide (x = EmptyString)) rest
      then inr (place, c, negb (bool_decide (rest = [])))
      else match enter d place c with
           | inl e => inl e
           | inr place' => walk_to_last d place' rest
           end
  end.

Definition too_long (path : string) : bool := (PATH_MAX <=? String.length path)%nat.

(** The place a path names, which may hold nothing. *)
Definition resolve (d : disk) (path : string) : errno + list string :=
  if bool_decide (path = EmptyString) then inl ENOENT
  else if too_long path then inl ENAMETOOLONG
  else walk d (start d path) (split_slash path).

(** [stat(2)] *)
Definition stat (d : disk) (path : string) : errno + node :=
  match resolve d path with
  | inl e => inl e
  | inr place =>
      match node_at d place with
      | Some n => inr n
      | None => inl ENOENT
      end
  end.

Definition is_dots (c : string) : bool :=
  bool_decide (c = EmptyString \/ c = "." \/ c = "..").

(** A path that names the entry [last] of the directory at [parent]: it
    can be given to the system, and resolution of what precedes its last
    component, which is a name, ends in that directory. *)
Definition names_entry (d : disk) (path : string) (parent : list string) (last : string)
    : Prop :=
  path <> EmptyString /\ too_long path = false /\ has_nul path = false
  /\ is_dots last = false /\ (String.length last <= NAME_MAX)%nat
  /\ is_directory d parent = true
  /\ exists init, split_slash path = init ++ [last]
                  /\ walk d (start d path) init = inr parent.

(** [open(2)] with [O_WRONLY|O_CREAT|O_TRUNC]: the place of the regular
    file that is opened, there already or not. *)
Definition creat (d : disk) (path : string) : errno + list string :=
  if bool_decide (path = EmptyString) then inl ENOENT
  else if too_long path then inl ENAMETOOLONG
  else
    match walk_to_last d (start d path) (split_slash path) with
    | inl e => inl e
    | inr (parent, last, trailing) =>
        match node_at d parent with
        | None => inl ENOENT
        | Some (Regular _ _) => inl ENOTDIR
        | Some (Directory _) =>
            if is_dots last then inl EISDIR
            else if trailing then inl EISDIR
            else if (NAME_MAX <? String.length last)%nat then inl ENAMETOOLONG
            else match node_at d (parent ++ [last]) with
                 | Some (Directory _) => inl EISDIR
                 | _ => inr (parent ++ [last])
                 end
        end
    end.

(** [unlink(2)]: the place of the regular file that is removed. *)
Definition unlink_place (d : disk) (path : string) : errno + list string :=
  if bool_decide (path = EmptyString) then inl ENOENT
  else if too_long path then inl ENAMETOOLONG
  else
    match walk_to_last d (start d path) (split_slash path) with
    | inl e => inl e
    | inr (parent, last, trailing) =>
        match node_at d parent with
        | None => inl ENOENT
        | Some (Regular _ _) => inl ENOTDIR
        | Some (Directory _) =>
            if is_dots last then inl EISDIR
            else if (NAME_MAX <? String.length last)%nat then inl ENAMETOOLONG
            else match node_at d (parent ++ [last]) with
                 | None => inl ENOENT
                 | Some (Directory _) => inl EISDIR
                 | Some (Regular _ _) =>
                     if trailing then inl ENOTDIR else inr (parent ++ [last])
                 end
        end
    end.

Definition set_tree (t : gmap (list string) node) (d : disk) : disk :=
  Disk t (root_ctime d) (cwd d) (clock d).

(** A directory whose entries change has its times set. *)
Definition touch (place : list string) (d : disk) : disk :=
  match place with
  | [] => Disk (tree d) (clock d) (cwd d) (clock d)
  | _ => set_tree (<[place := Directory (clock d)]> (tree d)) d
  end.

Definition put (place : list string) (data : contents) (d : disk) : disk :=
  set_tree (<[place := Regular data (clock d)]> (tree d)) d.

(** *** Python over it *)

(** [open(path, "w")]: the file object, given by the place of the file. *)
Definition open_w (path : string) : io disk (list string) := fun d =>
  if has_nul path then (Raise (ValueError "embedded null byte"), d)
  else match creat d path with
       | inl e => (Raise (os_error e path), d)
       | inr place =>
           match node_at d place with
           | None => (Return place, put place (Bytes EmptyString) (touch (removelast place) d))
           | Some _ => (Return place, put place (Bytes EmptyString) d)
           end
       end.

(** [json.dump(obj, fp, indent=2)] *)
Definition json_dump (obj : value) (fp : list string) : io disk unit := fun d =>
  (Return (), put fp (Dumped (dump obj)) d).

(** [open(path, "r", encoding="utf-8")]: what the file holds. *)
Definition open_r (path : string) : io disk contents := fun d =>
  if has_nul path then (Raise (ValueError "embedded null byte"), d)
  else match stat d path with
       | inl e => (Raise (os_error e path), d)
       | inr (Directory _) => (Raise (IsADirectoryError path), d)
       | inr (Regular data _) => (Return data, d)
       end.

(** Strict UTF-8, as the codec of Python decodes it. *)
Definition byte_in (lo hi : nat) (c : ascii) : bool :=
  (lo <=? nat_of_ascii c)%nat && (nat_of_ascii c <=? hi)%nat.

Fixpoint is_utf8 (s : string) : bool :=
  match s with
  | EmptyString => true
  | String c s1 =>
      if byte_in 0 127 c then is_utf8 s1
      else
        match s1 with
        | EmptyString => false
        | String c1 s2 =>
            if byte_in 194 223 c && byte_in 128 191 c1 then is_utf8 s2
            else
              match s2 with
              | EmptyString => false
              | String c2 s3 =>
                  if (byte_in 224 224 c && byte_in 160 191 c1
                      || byte_in 225 236 c && byte_in 128 191 c1
                      || byte_in 237 237 c && byte_in 128 159 c1
                      || byte_in 238 239 c && byte_in 128 191 c1)
                     && byte_in 128 191 c2
                  then is_utf8 s3
                  else
                    match s3 with
                    | EmptyString => false
                    | String c3 s4 =>
                        if (byte_in 240 240 c && byte_in 144 191 c1
                            || byte_in 241 243 c && byte_in 128 191 c1
                            || byte_in 244 244 c && byte_in 128 143 c1)
                           && byte_in 128 191 c2 && byte_in 128 191 c3
                        then is_utf8 s4
                        else false
                    end
              end
        end
  end.

(** [str(Path(path))] of [pathlib]: empty components and [.] are dropped,
    and so is a final slash; of the leading slashes one is kept, or two when
    there are exactly two. *)
Fixpoint leading_slashes (s : string) : nat :=
  match s with
  | String c s' => if is_slash c then S (leading_slashes s') else O
  | EmptyString => O
  end.

Definition pathlib_parts (path : string) : list string :=
  filter (fun x => x <> EmptyString /\ x <> ".") (split_slash path).

Definition pathlib_root (path : string) : string :=
  match leading_slashes path with
  | O => EmptyString
  | 2%nat => "//"
  | _ => "/"
  end.

Definition Path (path : string) : string :=
  match pathlib_root path +:+ join_slash (pathlib_parts path) with
  | EmptyString => "."
  | s => s
  end.

(** [Path.exists]: the errors ENOENT and ENOTDIR of [stat] mean that the
    path is not there, and so does a path that cannot be given to the
    system; any other error is raised. *)
Definition path_exists (p : string) : io disk bool := fun d =>
  if has_nul p then (Return false, d)
  else match stat d p with
       | inr _ => (Return true, d)
       | inl ENOENT | inl ENOTDIR => (Return false, d)
       | inl e => (Raise (os_error e p), d)
       end.

(** [Path.unlink] *)
Definition path_unlink (p : string) : io disk unit := fun d =>
  if has_nul p then (Raise (ValueError "embedded null byte"), d)
  else match unlink_place d p with
       | inl e => (Raise (os_error e p), d)
       | inr place =>
           (Return (), touch (removelast place) (set_tree (delete place (tree d)) d))
       end.

(** [os.path.getctime] *)
Definition getctime (path : string) : io disk Z := fun d =>
  if has_nul path then (Raise (ValueError "embedded null byte"), d)
  else match stat d path with
       | inl e => (Raise (os_error e path), d)
       | inr n => (Return (node_ctime n), d)
       end.

(** A name that is one entry of a directory. *)
Definition ordinary_name (name : string) : bool :=
  negb (has_slash name) && negb (has_nul name) && negb (is_dots name)
  && (String.length name <=? NAME_MAX)%nat.

End Posix.

(** ** storage.py over the file system of the operating system *)

Module DocumentStore.

Import Json Path Posix.

Section store.

Variable EnvironmentVars : gmap string string.

(** Library functions left uninterpreted: the JSON document that a text
    is, if any, as [json.load] reads it, and
    [datetime.datetime.fromtimestamp]. *)
Variable json_document : string -> option json.
Variable datetime : Type.
Variable fromtimestamp : Z -> datetime.

Definition getattr (name : string) : io disk string :=
  match EnvironmentVars !! name with
  | Some v => mret v
  | None => raise (AttributeError name)
  end.

(** [json.load(fp)] on what the file holds. *)
Definition json_load (data : contents) : io disk value :=
  match data with
  | Dumped doc => mret (load doc)
  | Bytes raw =>
      if is_utf8 raw then
        match json_document raw with
        | Some doc => mret (load doc)
        | None => raise (JSONDecodeError raw)
        end
      else raise (UnicodeDecodeError raw)
  end.

Definition create_object (obj_type obj_id : string) (obj_info : value)
    (obj_extension : string) : io disk unit :=
  root ← getattr obj_type;
  let obj_filepath := root +:+ "/" +:+ obj_id +:+ "." +:+ obj_extension in
  json_file ← open_w obj_filepath;
  json_dump obj_info json_file.

Definition read_object (obj_type obj_id obj_extension : string) : io disk value :=
  root ← getattr obj_type;
  let obj_filepath := root +:+ "/" +:+ obj_id +:+ "." +:+ obj_extension in
  json_file ← open_r obj_filepath;
  obj_info ← json_load json_file;
  mret obj_info.

Definition delete_object (obj_type obj_id obj_extension : string) : io disk unit :=
  root ← getattr obj_type;
  let obj_filepath := Path (root +:+ "/" +:+ obj_id +:+ "." +:+ obj_extension) in
  present ← path_exists obj_filepath;
  if present : bool then path_unlink obj_filepath
  else raise (RuntimeError ("No " +:+ obj_type +:+ " found with ID: " +:+ obj_id)).

Definition get_creation_datetime (obj_type obj_id obj_extension : string)
    : io disk datetime :=
  root ← getattr obj_type;
  let obj_filepath := root +:+ "/" +:+ obj_id +:+ "." +:+ obj_extension in
  creation_timestamp ← getctime obj_filepath;
  let creation_datetime := fromtimestamp creation_timestamp in
  mret creation_datetime.

Definition is_object_exists (obj_type obj_id obj_extension : string) : io disk bool :=
  root ← getattr obj_type;
  let obj_filepath := Path (root +:+ "/" +:+ obj_id +:+ "." +:+ obj_extension) in
  path_exists obj_filepath.

End store.

End DocumentStore.

(** ** A served directory *)

(** A process working in [/srv], with the directory [data/recipes] under
    it and nothing in it; the document reader knows one text. *)

Module Scenario3.

Import Json Posix.

Definition environment : gmap string string :=
  {[ "recipe" := "data/recipes"; "cookbook" := "data/cookbooks" ]}.

Definition recipes : list string := ["srv"; "data"; "recipes"].

Definition served : disk :=
  Disk {[ ["srv"] := Directory 1;
          ["srv"; "data"] := Directory 1;
          recipes := Directory 1 ]} 0 ["srv"] 7.

(** The same with a regular file in the directory. *)
Definition served_with (name : string) (data : contents) : disk :=
  put (recipes ++ [name]) data served.

Definition json_document (text : string) : option json :=
  if bool_decide (text = "{}") then Some (JObject []) else None.

Fixpoint repeat_char (c : ascii) (n : nat) : string :=
  match n with
  | O => EmptyString
  | S n' => String c (repeat_char c n')
  end.

Definition long_id : string := repeat_char "a" 300.

Definition r1 : value := PDict [(KStr "name", PStr "r1"); (KStr "ratio", PFloat (S754_finite false 3 (-1)))].

Definition with_tuple : value := PDict [(KStr "name", PTuple [PInt 1; PInt 2])].

End Scenario3.

(** * Properties *)

(** ** Facts about [json] values *)

Module JsonFacts.

Import Json.

Lemma dict_set_fresh k v d :
  k ∉ map fst d -> dict_set k v d = d ++ [(k, v)].
Proof.
  induction d as [|[k' v'] d IH]; simpl; intros Hk; [done|].
  apply not_elem_of_cons in Hk as [Hne Hk].
  destruct (decide (k' = k)) as [->|_]; [done|].
  by rewrite IH.
Qed.

Lemma dict_of_pairs_acc pairs acc :
  NoDup (map fst (acc ++ pairs)) ->
  fold_left (fun d kv => dict_set kv.1 kv.2 d) pairs acc = acc ++ pairs.
Proof.
  revert acc. induction pairs as [|[k v] pairs IH]; intros acc Hnd; simpl.
  - by rewrite app_nil_r.
  - rewrite dict_set_fresh.
    + rewrite IH; rewrite <- app_assoc; done.
    + rewrite map_app in Hnd. apply NoDup_app in Hnd as (_ & Hdisj & _).
      intros Hin. apply (Hdisj k Hin). simpl. left.
Qed.

Lemma dict_of_pairs_NoDup pairs :
  NoDup (map fst pairs) -> dict_of_pairs pairs = pairs.
Proof. intros Hnd. unfold dict_of_pairs. by rewrite dict_of_pairs_acc. Qed.

(** A value of JSON's own forms is read back as it was written. *)
Lemma reload_native v : json_native v = true -> reload v = v.
Proof.
  unfold reload. induction v as [| | | | |items IH|items IH|entries IH]
    using value_nested_ind; simpl; intros Hn; try done.
  - f_equal. rewrite map_map.
    induction IH as [|x l Hx Hl IHl]; simpl in *; [done|].
    apply andb_true_iff in Hn as [Hx' Hl'].
    rewrite Hx by done. f_equal. by apply IHl.
  - apply andb_true_iff in Hn as [Hn Hvals].
    apply andb_true_iff in Hn as [Hkeys Hnd].
    apply bool_decide_eq_true in Hnd.
    rewrite map_map. simpl.
    assert (Hid : map (fun kv : key * value => (KStr (key_text kv.1), load (dump kv.2))) entries
                  = entries).
    { clear Hnd. induction IH as [|[k x] l Hx Hl IHl]; simpl in *; [done|].
      apply andb_true_iff in Hkeys as [Hk Hkeys].
      apply andb_true_iff in Hvals as [Hv Hvals].
      rewrite Hx by done. destruct k; [|done]. simpl. f_equal. by apply IHl. }
    rewrite Hid. by rewrite dict_of_pairs_NoDup.
Qed.

Example dump_int_key :
  dump (PDict [(KInt 42, PNone)]) = JObject [("42", JNull)].
Proof. vm_compute. reflexivity. Qed.

Example tuple_not_reloaded :
  let m := PDict [(KStr "a", PTuple [PInt 1; PInt 2])] in
  reload m = PDict [(KStr "a", PList [PInt 1; PInt 2])]
  /\ py_eq (reload m) m = false.
Proof. vm_compute. done. Qed.

Example int_key_not_reloaded :
  reload (PDict [(KStr "a", PDict [(KInt 1, PNone)])])
  = PDict [(KStr "a", PDict [(KStr "1", PNone)])].
Proof. vm_compute. done. Qed.

End JsonFacts.

(** ** Facts about path strings *)

Module PathFacts.

Import Path.

#[local] Arguments String.append : simpl nomatch.

Lemma app_nil_r_str s : s +:+ EmptyString = s.
Proof. induction s as [|c s IH]; simpl; [done | by rewrite IH]. Qed.

Lemma app_assoc_str a b c : (a +:+ b) +:+ c = a +:+ b +:+ c.
Proof. induction a as [|d a IH]; simpl; [done | by rewrite IH]. Qed.

Lemma has_char_app f a b : has_char f (a +:+ b) = has_char f a || has_char f b.
Proof. induction a as [|c a IH]; simpl; [done|]. by rewrite IH, orb_assoc. Qed.

(** Two strings cut at a separator that occurs in neither tail are cut at
    the same place. *)
Lemma app_sep_inj c a b x y :
  has_char (fun d => bool_decide (d = c)) x = false ->
  has_char (fun d => bool_decide (d = c)) y = false ->
  a +:+ String c x = b +:+ String c y -> a = b /\ x = y.
Proof.
  intros Hx Hy. revert b. induction a as [|e a IH]; intros [|d b] Heq; simpl in *.
  - by injection Heq.
  - injection Heq as -> ->. rewrite has_char_app in Hx. simpl in Hx.
    rewrite bool_decide_eq_true_2 in Hx by done. by rewrite orb_true_r in Hx.
  - injection Heq as -> <-. rewrite has_char_app in Hy. simpl in Hy.
    rewrite bool_decide_eq_true_2 in Hy by done. by rewrite orb_true_r in Hy.
  - injection Heq as -> Heq. destruct (IH _ Heq) as [-> ->]. done.
Qed.

Lemma strip_prefix_Some pre s r : strip_prefix pre s = Some r <-> s = pre +:+ r.
Proof.
  revert s. induction pre as [|c pre IH]; intros s; simpl.
  - split; congruence.
  - destruct s as [|d s]; [split; discriminate|].
    case_bool_decide as Hcd.
    + subst d. rewrite IH. split; [by intros ->|by intros [= ->]].
    + split; [discriminate|]. intros [= -> _]. done.
Qed.



Lemma rsplit_slash_None t : has_slash t = false -> rsplit_slash t = None.
Proof.
  induction t as [|c t IH]; simpl; [done|]. intros H.
  apply orb_false_iff in H as [Hc Ht]. by rewrite IH, Hc.
Qed.

Lemma rsplit_slash_last a t :
  has_slash t = false -> rsplit_slash (a +:+ "/" +:+ t) = Some (a +:+ "/", t).
Proof.
  intros Ht. induction a as [|c a IH]; simpl in *.
  - by rewrite rsplit_slash_None.
  - by rewrite IH.
Qed.

Lemma rstrip_slash_id s : ends_with_slash s = false -> rstrip_slash s = s.
Proof.
  induction s as [|c s IH]; simpl; [done|]. destruct s as [|d s].
  - simpl. by intros ->.
  - intros H. rewrite (IH H). done.
Qed.

Lemma rstrip_slash_snoc s : rstrip_slash (s +:+ "/") = rstrip_slash s.
Proof. induction s as [|c s IH]; simpl; [done|]. by rewrite IH. Qed.

(** The pattern [get_objects] builds is cut into the root directory and
    the pattern of the file names. *)
Lemma os_path_split_pattern root ext :
  ends_with_slash root = false -> has_slash ext = false ->
  os_path_split (root +:+ "/*." +:+ ext)
  = (match root with EmptyString => "/" | _ => root end, "*." +:+ ext).
Proof.
  intros Hroot Hext. unfold os_path_split.
  change (root +:+ "/*." +:+ ext) with (root +:+ "/" +:+ ("*." +:+ ext)).
  rewrite rsplit_slash_last by done.
  rewrite rstrip_slash_snoc, rstrip_slash_id by done.
  by destruct root.
Qed.

Lemma os_path_join_root root name :
  ends_with_slash root = false ->
  os_path_join (match root with EmptyString => "/" | _ => root end) name
  = root +:+ "/" +:+ name.
Proof.
  intros Hroot. destruct root as [|c root]; [done|].
  unfold os_path_join. by rewrite Hroot.
Qed.

Lemma fnmatch_plain_literal lit name :
  has_magic lit = false -> fnmatch_plain lit name = bool_decide (name = lit).
Proof.
  revert name. induction lit as [|c lit IH]; intros name; simpl; [done|].
  intros H. apply orb_false_iff in H as [Hc Hlit].
  unfold is_magic in Hc. apply orb_false_iff in Hc as [Hc Hbr].
  apply orb_false_iff in Hc as [Hstar Hq].
  rewrite Hstar. destruct name as [|d name].
  - by rewrite bool_decide_eq_false_2.
  - rewrite Hq, IH by done. simpl.
    apply bool_decide_eq_false in Hq.
    repeat case_bool_decide; simplify_eq; done.
Qed.

(** For an extension without wildcards, [*.ext] matches the names that end
    in [.ext]. *)
Lemma fnmatch_plain_star lit name :
  has_magic lit = false ->
  fnmatch_plain (String "*" lit) name = is_suffix lit name.
Proof.
  intros Hlit. simpl.
  induction name as [|d name IH]; simpl; rewrite fnmatch_plain_literal by done.
  - done.
  - by rewrite IH.
Qed.

Example split_pattern : os_path_split "data/recipes/*.json" = ("data/recipes", "*.json").
Proof. reflexivity. Qed.
Example split_trailing : os_path_split "data//*.json" = ("data", "*.json").
Proof. reflexivity. Qed.
Example split_root : os_path_split "/*.json" = ("/", "*.json").
Proof. reflexivity. Qed.
Example fnmatch_json : fnmatch_plain "*.json" "d.x.json" = true.
Proof. reflexivity. Qed.
Example fnmatch_other : fnmatch_plain "*.json" "d.yaml" = false.
Proof. reflexivity. Qed.
Example fnmatch_question : fnmatch_plain "*.j?on" "a.jxon" = true.
Proof. reflexivity. Qed.

End PathFacts.

(** ** Facts about storage.py *)

Module StorageFacts.

Import Json Path Storage JsonFacts PathFacts.

Section facts.

Variable EnvironmentVars : gmap string string.
Context {engine : Type}.

Abbreviation world := (os_state engine).

Ltac io_unfold :=
  unfold mbind, io_bind, mret, io_ret, bind, ret, raise, try_except.

Lemma getattr_Some t root (w : world) :
  EnvironmentVars !! t = Some root -> getattr EnvironmentVars t w = (Return root, w).
Proof. intros H. unfold getattr. by rewrite H. Qed.

Lemma getattr_None t (w : world) :
  EnvironmentVars !! t = None ->
  getattr EnvironmentVars t w = (Raise (AttributeError t), w).
Proof. intros H. unfold getattr. by rewrite H. Qed.

(** What each operation does on a recognised type. *)
Lemma create_object_run t root id m ext (w : world) :
  EnvironmentVars !! t = Some root ->
  create_object EnvironmentVars t id m ext w
  = (Return (),
     set_files (<[filepath root id ext := File (JsonText (dump m)) (clock w)]> (files w)) w).
Proof.
  intros H. unfold create_object. io_unfold. rewrite (getattr_Some _ _ _ H).
  unfold open_w, json_dump, set_files. simpl. by rewrite insert_insert_eq.
Qed.

Lemma read_object_run t root id ext (w : world) :
  EnvironmentVars !! t = Some root ->
  read_object EnvironmentVars t id ext w
  = match files w !! filepath root id ext with
    | Some (File (JsonText doc) _) => (Return (load doc), w)
    | Some (File (Garbled text) _) => (Raise (JSONDecodeError text), w)
    | None => (Raise (FileNotFoundError (filepath root id ext)), w)
    end.
Proof.
  intros H. unfold read_object. io_unfold. rewrite (getattr_Some _ _ _ H).
  unfold open_r. fold (filepath root id ext).
  destruct (files w !! filepath root id ext) as [[[doc|text] ct]|]; done.
Qed.

Lemma delete_object_run t root id ext (w : world) :
  EnvironmentVars !! t = Some root ->
  delete_object EnvironmentVars t id ext w
  = match files w !! filepath root id ext with
    | Some _ => (Return (), set_files (delete (filepath root id ext) (files w)) w)
    | None => (Raise (RuntimeError ("No " +:+ t +:+ " found with ID: " +:+ id)), w)
    end.
Proof.
  intros H. unfold delete_object. io_unfold. rewrite (getattr_Some _ _ _ H).
  unfold path_exists, unlink. fold (filepath root id ext).
  destruct (files w !! filepath root id ext) as [f|] eqn:Hf; simpl; [|done].
  by rewrite Hf.
Qed.

Lemma is_object_exists_run t root id ext (w : world) :
  EnvironmentVars !! t = Some root ->
  is_object_exists EnvironmentVars t id ext w
  = (Return (bool_decide (is_Some (files w !! filepath root id ext))), w).
Proof.
  intros H. unfold is_object_exists. io_unfold. by rewrite (getattr_Some _ _ _ H).
Qed.

Lemma get_filepath_run t root id ext (w : world) :
  EnvironmentVars !! t = Some root ->
  get_filepath EnvironmentVars t id ext w = (Return (filepath root id ext), w).
Proof.
  intros H. unfold get_filepath. io_unfold. by rewrite (getattr_Some _ _ _ H).
Qed.

Lemma get_creation_datetime_run {datetime} (fromtimestamp : Z -> datetime)
    t root id ext (w : world) :
  EnvironmentVars !! t = Some root ->
  get_creation_datetime EnvironmentVars datetime fromtimestamp t id ext w
  = match files w !! filepath root id ext with
    | Some f => (Return (fromtimestamp (st_ctime f)), w)
    | None => (Raise (FileNotFoundError (filepath root id ext)), w)
    end.
Proof.
  intros H. unfold get_creation_datetime. io_unfold. rewrite (getattr_Some _ _ _ H).
  unfold getctime. fold (filepath root id ext).
  by destruct (files w !! filepath root id ext).
Qed.

(** *** Document store *)

(** C3: on a recognised type the resolver returns the root, a slash, the
    id, a dot and the extension, as they are, whatever the world and without
    changing it; on an unrecognised type it raises [AttributeError], and so
    does every operation that resolves a path, before any effect. *)
Theorem get_filepath_exact {datetime} (fromtimestamp : Z -> datetime)
    (fnmatch_class : string -> string -> bool)
    (glob_other : world -> string -> list string)
    t root t' id ext (m : value) (w : world) :
  EnvironmentVars !! t = Some root ->
  EnvironmentVars !! t' = None ->
  get_filepath EnvironmentVars t id ext w
    = (Return (root +:+ "/" +:+ id +:+ "." +:+ ext), w)
  /\ get_filepath EnvironmentVars t' id ext w = (Raise (AttributeError t'), w)
  /\ create_object EnvironmentVars t' id m ext w = (Raise (AttributeError t'), w)
  /\ read_object EnvironmentVars t' id ext w = (Raise (AttributeError t'), w)
  /\ delete_object EnvironmentVars t' id ext w = (Raise (AttributeError t'), w)
  /\ is_object_exists EnvironmentVars t' id ext w = (Raise (AttributeError t'), w)
  /\ get_objects EnvironmentVars fnmatch_class glob_other t' ext w
     = (Raise (AttributeError t'), w)
  /\ get_creation_datetime EnvironmentVars datetime fromtimestamp t' id ext w
     = (Raise (AttributeError t'), w).
Proof.
  intros Ht Ht'. split; [by rewrite (get_filepath_run _ _ _ _ _ Ht)|].
  unfold get_filepath, create_object, read_object, delete_object, is_object_exists,
    get_objects, get_creation_datetime.
  io_unfold. rewrite !(getattr_None _ _ Ht'). repeat split; done.
Qed.

(** *** Listing *)

Lemma NoDup_omap_inj {A B} (f : A -> option B) (l : list A) :
  (forall x y z, f x = Some z -> f y = Some z -> x = y) ->
  NoDup l -> NoDup (omap f l).
Proof.
  intros Hinj. induction 1 as [|x l Hx Hl IH]; simpl; [constructor|].
  destruct (f x) as [z|] eqn:Hfx; [|done].
  constructor; [|done].
  intros Hz. apply list_elem_of_omap in Hz as (y & Hy & Hfy).
  by rewrite (Hinj _ _ _ Hfx Hfy) in Hx.
Qed.

Lemma entry_name_Some dirname p name :
  entry_name dirname p = Some name
  <-> p = dir_prefix dirname +:+ name /\ has_slash name = false /\ name <> EmptyString.
Proof.
  unfold entry_name.
  destruct (strip_prefix (dir_prefix dirname) p) as [r|] eqn:Hr.
  - apply strip_prefix_Some in Hr. subst p.
    destruct (has_slash r) eqn:Hs; simpl.
    + split; [done|]. intros (Heq & Hn & _).
      apply (inj (String.app _)) in Heq. congruence.
    + case_bool_decide as He; simpl.
      * split; [done|]. intros (Heq & _ & Hne).
        apply (inj (String.app _)) in Heq. congruence.
      * split.
        -- by intros [= <-].
        -- intros (Heq & _ & _). apply (inj (String.app _)) in Heq. congruence.
  - split; [done|]. intros (Heq & _ & _).
    apply strip_prefix_Some in Heq. congruence.
Qed.

Lemma elem_of_listdir (w : world) dirname name :
  name ∈ listdir w dirname
  <-> is_Some (files w !! (dir_prefix dirname +:+ name))
      /\ has_slash name = false /\ name <> EmptyString.
Proof.
  unfold listdir. rewrite list_elem_of_omap. split.
  - intros (p & Hp & Hname). apply entry_name_Some in Hname as (-> & Hs & Hne).
    apply list_elem_of_fmap in Hp as ([p' f] & -> & Hpf).
    apply elem_of_map_to_list in Hpf. simpl. eauto.
  - intros ([f Hf] & Hs & Hne). exists (dir_prefix dirname +:+ name). split.
    + apply list_elem_of_fmap. exists (dir_prefix dirname +:+ name, f).
      split; [done|]. by apply elem_of_map_to_list.
    + by apply entry_name_Some.
Qed.

Lemma NoDup_listdir (w : world) dirname : NoDup (listdir w dirname).
Proof.
  unfold listdir. apply NoDup_omap_inj; [|apply NoDup_fst_map_to_list].
  intros p q name Hp Hq.
  apply entry_name_Some in Hp as (-> & _). by apply entry_name_Some in Hq as (-> & _).
Qed.

Lemma has_magic_no_bracket s : has_magic s = false -> has_bracket s = false.
Proof.
  unfold has_magic, has_bracket. induction s as [|c s IH]; simpl; [done|].
  intros H. apply orb_false_iff in H as [Hc Hs]. rewrite (IH Hs).
  unfold is_magic in Hc. apply orb_false_iff in Hc as [_ ->]. done.
Qed.

Section listing.

Variable fnmatch_class : string -> string -> bool.
Variable glob_other : world -> string -> list string.

Abbreviation listing_of root ext :=
  (iglob fnmatch_class glob_other (root +:+ "/*." +:+ ext)).

(** The iterator of a plain root and a plain extension lists the files
    directly under the root whose name is not hidden and ends in [.ext]. *)
Lemma iglob_plain root ext (w : world) :
  has_magic root = false -> ends_with_slash root = false ->
  has_magic ext = false -> has_slash ext = false ->
  listing_of root ext w
  = (String.app (root +:+ "/")) <$>
      filter (fun x => is_suffix ("." +:+ ext) x = true)
        (filter (fun x => ishidden x = false)
           (listdir w (match root with EmptyString => "/" | _ => root end))).
Proof.
  intros Hroot Hslash Hext Hes. unfold iglob.
  rewrite os_path_split_pattern by done.
  assert (Hdir : has_magic (match root with EmptyString => "/" | _ => root end) = false)
    by (by destruct root).
  rewrite Hdir. simpl andb.
  rewrite bool_decide_eq_false_2 by (by destruct root). simpl negb. cbv iota.
  unfold glob1. simpl ishidden. cbv iota.
  rewrite (list_fmap_ext (os_path_join _) (String.app (root +:+ "/"))).
  2:{ intros _ name _. rewrite os_path_join_root by done. by rewrite app_assoc_str. }
  f_equal. apply list_filter_iff. intros name. unfold fnmatchcase.
  assert (Hm : has_magic ("." +:+ ext) = false) by done.
  change ("*." +:+ ext) with (String "*" ("." +:+ ext)).
  replace (has_bracket (String "*" ("." +:+ ext))) with false
    by (symmetry; apply (has_magic_no_bracket ("." +:+ ext) Hm)).
  by rewrite fnmatch_plain_star.
Qed.

Lemma elem_of_iglob_plain root ext (w : world) p :
  has_magic root = false -> ends_with_slash root = false ->
  has_magic ext = false -> has_slash ext = false ->
  p ∈ listing_of root ext w
  <-> exists name, p = root +:+ "/" +:+ name
        /\ is_Some (files w !! p)
        /\ has_slash name = false /\ ishidden name = false
        /\ is_suffix ("." +:+ ext) name = true.
Proof.
  intros Hroot Hslash Hext Hes. rewrite iglob_plain by done.
  rewrite list_elem_of_fmap.
  assert (Hpre : dir_prefix (match root with EmptyString => "/" | _ => root end)
                 = root +:+ "/").
  { destruct root as [|c r]; [done|]. unfold dir_prefix. by rewrite Hslash. }
  split.
  - intros (name & -> & Hin).
    apply list_elem_of_filter in Hin as [Hsuf Hin].
    apply list_elem_of_filter in Hin as [Hhid Hin].
    apply elem_of_listdir in Hin as (Hf & Hs & _). rewrite Hpre in Hf.
    exists name. by rewrite <- app_assoc_str.
  - intros (name & -> & Hf & Hs & Hhid & Hsuf). exists name.
    split; [by rewrite app_assoc_str|].
    apply list_elem_of_filter. split; [done|].
    apply list_elem_of_filter. split; [done|].
    apply elem_of_listdir. rewrite Hpre, app_assoc_str. split; [done|].
    split; [done|]. intros ->. done.
Qed.

Lemma NoDup_iglob_plain root ext (w : world) :
  has_magic root = false -> ends_with_slash root = false ->
  has_magic ext = false -> has_slash ext = false ->
  NoDup (listing_of root ext w).
Proof.
  intros. rewrite iglob_plain by done.
  apply NoDup_fmap_2; [apply _|]. do 2 apply NoDup_filter. apply NoDup_listdir.
Qed.






End listing.

(** *** Relational accessor factory *)

Section accessor.

Variable DBAccessor : Type.
Variable DatabaseManager_create_connection : string -> io world (option DBAccessor).
Variable close_connection : DBAccessor -> io world unit.
Variable create_table : DBAccessor -> string -> io world unit.
Variable create_record : DBAccessor -> list value -> string -> io world unit.
Variable update_record : DBAccessor -> list value -> string -> io world unit.
Variable pathlib_str : string -> string.

(** C7: on the reference [None], [close], [createTable], [createRecord] and
    [updateRecord] each raise [RuntimeError] and do nothing else; [open]
    raises [RuntimeError] when the connect step returns [None], and returns
    an accessor only when the connect step returned that accessor. *)
Theorem uninitialised_accessor_raises t root id ext sql (data : list value)
    (w w' : world) :
  EnvironmentVars !! t = Some root ->
  DatabaseManager_create_connection (pathlib_str (filepath root id ext)) w
    = (Return None, w') ->
  close_database_connection DBAccessor close_connection None w
    = (Raise (RuntimeError "Database instance is not initialised."), w)
  /\ create_database_table DBAccessor create_table None sql w
     = (Raise (RuntimeError "Database instance is not initialised."), w)
  /\ create_database_record DBAccessor create_record None data sql w
     = (Raise (RuntimeError "Database instance is not initialised."), w)
  /\ update_database_record DBAccessor update_record None data sql w
     = (Raise (RuntimeError "Database instance is not initialised."), w)
  /\ create_database_connection EnvironmentVars DBAccessor
       DatabaseManager_create_connection pathlib_str t id ext w
     = (Raise (RuntimeError "db instance is not initialised."), w')
  /\ forall w0 : world,
       create_database_connection EnvironmentVars DBAccessor
         DatabaseManager_create_connection pathlib_str t id ext w0
       = match DatabaseManager_create_connection (pathlib_str (filepath root id ext)) w0 with
         | (Return (Some accessor), w1) => (Return accessor, w1)
         | (Return None, w1) => (Raise (RuntimeError "db instance is not initialised."), w1)
         | (Raise e, w1) => (Raise e, w1)
         end.
Proof.
  intros Ht Hconn.
  assert (Hopen : forall w0 : world,
    create_database_connection EnvironmentVars DBAccessor
      DatabaseManager_create_connection pathlib_str t id ext w0
    = match DatabaseManager_create_connection (pathlib_str (filepath root id ext)) w0 with
      | (Return (Some accessor), w1) => (Return accessor, w1)
      | (Return None, w1) => (Raise (RuntimeError "db instance is not initialised."), w1)
      | (Raise e, w1) => (Raise e, w1)
      end).
  { intros w0. unfold create_database_connection. io_unfold.
    rewrite (get_filepath_run _ _ _ _ _ Ht).
    destruct (DatabaseManager_create_connection _ w0) as [[[a|]|e] w1]; done. }
  repeat split; try done.
  by rewrite Hopen, Hconn.
Qed.

End accessor.

End facts.

End StorageFacts.

(** ** Facts about routes/redteam.py *)

Module RedteamFacts.

Import Redteam.

Section facts.

Context {service : Type}.
Variable SessionMetadataModel : Type.
Variable ChatHistory : Type.
Variable SessionCreateDTO : Type.
Variable PromptResponseModel : Type.
Variable PromptTemplate : Type.
Variable SessionResponseModel : Type.
Variable session_id_of : SessionMetadataModel -> string.
Variable set_chat_history : SessionMetadataModel -> ChatHistory -> SessionMetadataModel.
Variable new_SessionResponseModel : option SessionMetadataModel -> io service SessionResponseModel.
Variable get_sessions : io service (list (option SessionMetadataModel)).
Variable get_session : string -> io service (option SessionMetadataModel).
Variable get_session_chat_history : string -> io service ChatHistory.
Variable create_session : SessionCreateDTO -> io service SessionMetadataModel.
Variable send_prompt : string -> string -> io service PromptResponseModel.
Variable get_prompt_templates : io service (list (option PromptTemplate)).
Variable select_prompt_template : string -> string -> io service bool.

(** The clause of the source answers as the specification words it. *)
Lemma except_SessionException_translate {A} (e : exn) (s : service) :
  except_SessionException (A := A) e s = (Raise (translate e), s).
Proof.
  destruct e; try done. unfold except_SessionException, translate, spec_status.
  repeat case_bool_decide; repeat case_decide; done.
Qed.

Lemma try_except_answer {A} (body : io service A) (s : service) :
  try_except body except_SessionException s = answer (body s).
Proof.
  unfold try_except, answer. destruct (body s) as [[a|e] s']; [done|].
  apply except_SessionException_translate.
Qed.

(** C8 (amended): every route answers a [SessionException] of its body
    with status 404 for [FileNotFound], 400 for [ValidationError] and 500
    for any other code, the detail being the message.  Without an exception
    [get_all_sessions], [prompt] and [get_all_prompt_templates] return what
    the service returned; [get_session_by_session_id] returns the response
    model built from the session, and answers a session that is [None] with
    404; the other routes wrap the result. *)
Theorem routes_answer_session_exception
    (session_id name : string) (include_history : bool) (user_prompt : SessionPromptDTO)
    (session_dto : SessionCreateDTO) (s s1 s' s1' s2' : service)
    (data : SessionMetadataModel) (response : SessionResponseModel) :
  get_session session_id s = (Return None, s1) ->
  get_session session_id s' = (Return (Some data), s1') ->
  new_SessionResponseModel (Some data) s1' = (Return response, s2') ->
  (forall code msg, translate (SessionException code msg) = HTTPException (spec_status code) msg)
  /\ (forall msg, translate (SessionException "FileNotFound" msg) = HTTPException 404 msg)
  /\ (forall msg, translate (SessionException "ValidationError" msg) = HTTPException 400 msg)
  /\ (forall code msg, code <> "FileNotFound" -> code <> "ValidationError" ->
        translate (SessionException code msg) = HTTPException 500 msg)
  /\ get_all_sessions SessionMetadataModel get_sessions s = answer (get_sessions s)
  /\ prompt PromptResponseModel send_prompt session_id user_prompt s
     = answer (send_prompt session_id (prompt_text user_prompt) s)
  /\ get_all_prompt_templates PromptTemplate get_prompt_templates s
     = answer (get_prompt_templates s)
  /\ set_prompt_template select_prompt_template session_id name s
     = answer ((result ← select_prompt_template session_id name;
                mret ({[ "success" := result ]} : gmap string bool)) s)
  /\ create SessionMetadataModel SessionCreateDTO SessionResponseModel session_id_of
       new_SessionResponseModel get_session create_session session_dto s
     = answer ((new_session ← create_session session_dto;
                updated ← get_session (session_id_of new_session);
                new_SessionResponseModel updated) s)
  /\ get_session_by_session_id SessionMetadataModel ChatHistory SessionResponseModel
       set_chat_history new_SessionResponseModel get_session get_session_chat_history
       session_id false s
     = (Raise (HTTPException 404 "Session not found"), s1)
  /\ get_session_by_session_id SessionMetadataModel ChatHistory SessionResponseModel
       set_chat_history new_SessionResponseModel get_session get_session_chat_history
       session_id false s'
     = (Return response, s2')
  /\ (forall s0 : service,
        get_session_by_session_id SessionMetadataModel ChatHistory SessionResponseModel
          set_chat_history new_SessionResponseModel get_session get_session_chat_history
          session_id include_history s0
        = answer
            ((session_data ← get_session session_id;
              session_data ←
                (if include_history then
                   history ← get_session_chat_history session_id;
                   mret (flip set_chat_history history <$> session_data)
                 else mret session_data);
              match session_data with
              | Some d => new_SessionResponseModel (Some d)
              | None => raise (HTTPException 404 "Session not found")
              end) s0)).
Proof.
  intros Hnone Hsome Hresp.
  split; [done|]. split; [done|]. split; [done|]. split.
  { intros code msg H1 H2. unfold translate, spec_status. by repeat case_decide. }
  split; [apply try_except_answer|].
  split.
  { unfold prompt. rewrite try_except_answer. f_equal.
    unfold mbind, io_bind, bind, mret, io_ret, ret.
    by destruct (send_prompt _ _ s) as [[?|?] ?]. }
  split; [apply try_except_answer|].
  split; [apply try_except_answer|].
  split; [apply try_except_answer|].
  split.
  { unfold get_session_by_session_id. rewrite try_except_answer.
    unfold mbind, io_bind, bind, mret, io_ret, ret, raise. rewrite Hnone. reflexivity. }
  split.
  { unfold get_session_by_session_id. rewrite try_except_answer.
    unfold mbind, io_bind, bind, mret, io_ret, ret, raise. rewrite Hsome, Hresp. reflexivity. }
  intros s0. unfold get_session_by_session_id. rewrite try_except_answer. f_equal.
  unfold mbind, io_bind, bind, mret, io_ret, ret, raise.
  destruct (get_session session_id s0) as [[[d|]|e] s3]; [| |done];
    (destruct include_history; [|done]);
    by destruct (get_session_chat_history session_id s3) as [[h|e] s4].
Qed.

(** C10: the DELETE route does not look at the template name of the URL:
    it answers as the selection of the empty name does, the same for every
    name. *)
Theorem unset_prompt_template_ignores_name (session_id name1 name2 : string) (s : service) :
  unset_prompt_template select_prompt_template session_id name1 s
  = unset_prompt_template select_prompt_template session_id name2 s
  /\ unset_prompt_template select_prompt_template session_id name1 s
     = set_prompt_template select_prompt_template session_id EmptyString s
  /\ unset_prompt_template select_prompt_template session_id name1 s
     = answer (match select_prompt_template session_id EmptyString s with
               | (Return result, s') => (Return {[ "success" := result ]}, s')
               | (Raise e, s') => (Raise e, s')
               end).
Proof.
  split; [done|]. split; [done|].
  unfold unset_prompt_template. rewrite try_except_answer. done.
Qed.

End facts.

End RedteamFacts.

(** ** Facts about status_updater/moonshot_ui_webhook.py *)

Module WebhookFacts.

Import Json Webhook.

Section facts.

Context {state net disk : Type}.
Variable update_progress_status : value -> state -> state.
Variable requests_post : string -> value -> net -> outcome Response * net.
Variable json_error : exn.

Abbreviation on_update :=
  (on_progress_update update_progress_status requests_post json_error).

(** C9: every call of [on_progress_update] leaves the progress state
    updated with the data, whatever the post does, and leaves the file
    system of the storage layer as it was; when the post raises a
    [RequestException] the call logs the failure at level CRITICAL and
    returns. *)
Theorem on_progress_update_nonfatal (self : MoonshotUIWebhook) (progress_data : value)
    (w : world state net disk) (info : string) (n' : net) :
  requests_post (url self) progress_data (network w) = (Raise (RequestException info), n') ->
  on_update self progress_data w
  = (Return (),
     World (update_progress_status progress_data (benchmark_test_state w))
           (log w ++ [(DEBUG, JsonDump (dump progress_data));
                      (CRITICAL, Text ("Failed to send progress data: " +:+ info))])
           n' (storage w))
  /\ forall w0 : world state net disk,
       benchmark_test_state (on_update self progress_data w0).2
       = update_progress_status progress_data (benchmark_test_state w0)
       /\ storage (on_update self progress_data w0).2 = storage w0.
Proof.
  intros Hpost. split.
  - unfold on_progress_update, mbind, io_bind, bind, try_except, logger_log,
      benchmark_test_state_update, post. simpl. rewrite Hpost. simpl.
    by rewrite <- app_assoc.
  - intros w0.
    unfold on_progress_update, mbind, io_bind, bind, try_except, logger_log,
      benchmark_test_state_update, post, raise_for_status, response_json,
      mret, io_ret, ret, raise. simpl.
    destruct (requests_post (url self) progress_data (network w0)) as [[r|e] n0]; simpl.
    + repeat case_bool_decide; simpl; try done.
      destruct (body r); simpl; [done|]. by destruct json_error.
    + by destruct e.
Qed.

End facts.

End WebhookFacts.

(** ** The properties at work on a configuration *)

Module Runs.

Import Json Path Storage Scenario.

(** The scenario of the specification. *)
Example recipe_lifecycle :
  ((create_object EnvironmentVars "recipe" "r1" named "json";;
    read_object EnvironmentVars "recipe" "r1" "json") fresh).1 = Return named
  /\ ((create_object EnvironmentVars "recipe" "r1" named "json";;
       is_object_exists EnvironmentVars "recipe" "r1" "json") fresh).1 = Return true
  /\ ((create_object EnvironmentVars "recipe" "r1" named "json";;
       delete_object EnvironmentVars "recipe" "r1" "json";;
       is_object_exists EnvironmentVars "recipe" "r1" "json") fresh).1 = Return false.
Proof. vm_compute. done. Qed.

Lemma get_filepath_exact_witness :
  EnvironmentVars !! "recipe" = Some "data/recipes"
  /\ EnvironmentVars !! "dataset" = None
  /\ get_filepath EnvironmentVars "recipe" "../r 1" "tar.gz" fresh
     = (Return "data/recipes/../r 1.tar.gz", fresh)
  /\ get_filepath EnvironmentVars "dataset" "../r 1" "tar.gz" fresh
     = (Raise (AttributeError "dataset"), fresh).
Proof.
  split; [reflexivity|]. split; [reflexivity|].
  destruct (StorageFacts.get_filepath_exact EnvironmentVars (fun z : Z => z) no_class no_other
              "recipe" "data/recipes" "dataset" "../r 1" "tar.gz" named fresh
              eq_refl eq_refl) as (H1 & H2 & _).
  split; [exact H1|exact H2].
Defined.

Lemma uninitialised_accessor_raises_witness :
  EnvironmentVars !! "recipe" = Some "data/recipes"
  /\ no_connection (String.rev (filepath "data/recipes" "s1" "db")) fresh = (Return None, fresh)
  /\ close_database_connection nat close_connection None fresh
     = (Raise (RuntimeError "Database instance is not initialised."), fresh)
  /\ create_database_connection EnvironmentVars nat no_connection String.rev
       "recipe" "s1" "db" fresh
     = (Raise (RuntimeError "db instance is not initialised."), fresh).
Proof.
  split; [reflexivity|]. split; [reflexivity|].
  destruct (StorageFacts.uninitialised_accessor_raises EnvironmentVars nat no_connection
              close_connection create_table write_record write_record String.rev
              "recipe" "data/recipes" "s1" "db" "CREATE TABLE t (x)" [PInt 1] fresh fresh
              eq_refl eq_refl) as (H1 & _ & _ & _ & H5 & _).
  split; [exact H1|exact H5].
Defined.



Lemma routes_answer_session_exception_witness :
  get_session "s1" false = (Return None, false)
  /\ get_session "s1" true = (Return (Some "session-1"), true)
  /\ new_SessionResponseModel (Some "session-1") true = (Return (Some "session-1"), true)
  /\ Redteam.get_session_by_session_id string (list string) (option string)
       set_chat_history new_SessionResponseModel get_session get_session_chat_history
       "s1" false false
     = (Raise (HTTPException 404 "Session not found"), false)
  /\ Redteam.get_session_by_session_id string (list string) (option string)
       set_chat_history new_SessionResponseModel get_session get_session_chat_history
       "s1" false true
     = (Return (Some "session-1"), true).
Proof.
  split; [reflexivity|]. split; [reflexivity|]. split; [reflexivity|].
  destruct (RedteamFacts.routes_answer_session_exception string (list string) unit
              string string (option string) (fun d => d) set_chat_history
              new_SessionResponseModel (mret []) get_session get_session_chat_history
              create_session (fun _ _ => mret "ok") (mret []) select_prompt_template
              "s1" "t1" true {| Redteam.prompt_text := "hello" |} () false false true true true
              "session-1" (Some "session-1") eq_refl eq_refl eq_refl)
    as (_ & _ & _ & _ & _ & _ & _ & _ & _ & H404 & Hok & _).
  split; [exact H404|exact Hok].
Defined.

(** C8, as stated, fails: the service returns, without raising, that there
    is no such session, and the route answers 404 instead of passing that
    on. *)
Lemma absent_session_not_passed_through :
  get_session "s1" false = (Return None, false)
  /\ Redteam.get_session_by_session_id string (list string) (option string)
       set_chat_history new_SessionResponseModel get_session get_session_chat_history
       "s1" false false
     = (Raise (HTTPException 404 "Session not found"), false)
  /\ returns (Redteam.get_session_by_session_id string (list string) (option string)
       set_chat_history new_SessionResponseModel get_session get_session_chat_history
       "s1" false false).1 = false.
Proof. repeat split. Qed.

Lemma on_progress_update_nonfatal_witness :
  let w := Webhook.World ([] : list value) [] () fresh in
  let self := {| Webhook.url := "http://localhost:3000/api/v1/benchmarks/status" |} in
  refused (Webhook.url self) named (Webhook.network w)
    = (Raise (RequestException "Connection refused"), ())
  /\ Webhook.on_progress_update cons refused (ValueError "body is not JSON") self named w
     = (Return (),
        Webhook.World [named]
          [(Webhook.DEBUG, Webhook.JsonDump (dump named));
           (Webhook.CRITICAL,
            Webhook.Text "Failed to send progress data: Connection refused")]
          () fresh).
Proof.
  intros w self. split; [reflexivity|].
  exact (proj1 (WebhookFacts.on_progress_update_nonfatal cons refused (ValueError "body is not JSON")
                  self named w "Connection refused" () eq_refl)).
Defined.

End Runs.

(** ** More about storage.py: how the operations compose *)

Module StorageMore.

Import Json Path Storage JsonDoc JsonFacts PathFacts StorageFacts.

(** What [json.load] returns is made of JSON's own forms. *)
Lemma dict_set_keys k v d :
  map fst (dict_set k v d)
  = if bool_decide (k ∈ map fst d) then map fst d else map fst d ++ [k].
Proof.
  induction d as [|[k' v'] d IH]; simpl; [done|].
  destruct (decide (k' = k)) as [->|Hne]; simpl.
  - rewrite bool_decide_eq_true_2; [done|]. left.
  - rewrite IH. case_bool_decide as Hin.
    + rewrite bool_decide_eq_true_2; [done|]. by right.
    + rewrite bool_decide_eq_false_2; [done|].
      intros Hin'. apply elem_of_cons in Hin' as [->|Hin']; done.
Qed.

Lemma dict_set_Forall (Q : key * value -> Prop) k v d :
  Q (k, v) -> Forall Q d -> Forall Q (dict_set k v d).
Proof.
  intros Hkv. induction 1 as [|[k' v'] d Hx Hd IH]; simpl.
  - by constructor.
  - destruct (decide (k' = k)); constructor; done.
Qed.

Lemma dict_set_NoDup k v d : NoDup (map fst d) -> NoDup (map fst (dict_set k v d)).
Proof.
  intros Hnd. rewrite dict_set_keys. case_bool_decide as Hin; [done|].
  apply NoDup_app. split; [done|]. split; [|apply NoDup_singleton].
  intros x Hx Hx'. apply list_elem_of_singleton in Hx'. by subst x.
Qed.

Lemma dict_of_pairs_inv (Q : key * value -> Prop) pairs acc :
  Forall Q pairs -> Forall Q acc -> NoDup (map fst acc) ->
  Forall Q (fold_left (fun d kv => dict_set kv.1 kv.2 d) pairs acc)
  /\ NoDup (map fst (fold_left (fun d kv => dict_set kv.1 kv.2 d) pairs acc)).
Proof.
  intros Hp. revert acc. induction Hp as [|[k v] pairs Hkv Hp IH]; intros acc Hacc Hnd; simpl.
  - done.
  - apply IH; [by apply dict_set_Forall|by apply dict_set_NoDup].
Qed.

Lemma load_native j : json_native (load j) = true.
Proof.
  induction j as [| | | | |items IH|members IH] using json_nested_ind; simpl; try done.
  - induction IH as [|x l Hx Hl IHl]; simpl; [done|]. by rewrite Hx, IHl.
  - destruct (dict_of_pairs_inv
                (fun kv => is_str_key kv.1 = true /\ json_native kv.2 = true)
                (map (fun m : string * json => (KStr m.1, load m.2)) members) [])
      as [Hall Hnd].
    + induction IH as [|m l Hm Hl IHl]; simpl; constructor; done.
    + constructor.
    + constructor.
    + fold (dict_of_pairs (map (fun m : string * json => (KStr m.1, load m.2)) members))
        in Hall, Hnd.
      rewrite bool_decide_eq_true_2 by done. rewrite andb_true_r.
      apply andb_true_iff. split; apply forallb_forall; intros kv Hkv;
        apply (proj1 (Forall_forall _ _) Hall kv); by apply list_elem_of_In.
Qed.

Section more.

Variable EnvironmentVars : gmap string string.
Context {engine : Type}.

Abbreviation world := (os_state engine).

Ltac io_unfold :=
  unfold mbind, io_bind, mret, io_ret, bind, ret, raise, try_except.

(** Two objects of one type with dot-free extensions have different paths
    unless they have the same id and extension. *)
Lemma filepath_inj_dot_free root id ext id2 ext2 :
  has_dot ext = false -> has_dot ext2 = false ->
  filepath root id ext = filepath root id2 ext2 -> id = id2 /\ ext = ext2.
Proof.
  intros Hd Hd2 Heq. unfold filepath in Heq.
  apply (inj (String.app root)) in Heq. apply (inj (String.app "/")) in Heq.
  by apply (app_sep_inj ".") in Heq.
Qed.

(** X1: creating or deleting an object leaves every other object of its
    type as it was, ids and extensions being free of slashes and the
    extensions free of dots: reading the other object and asking whether it
    exists give what they gave before. *)
Theorem other_objects_untouched t root id ext (m : value) id2 ext2 (w : world) :
  EnvironmentVars !! t = Some root ->
  has_slash id = false -> has_slash id2 = false ->
  has_slash ext = false -> has_slash ext2 = false ->
  has_dot ext = false -> has_dot ext2 = false ->
  (id, ext) <> (id2, ext2) ->
  (read_object EnvironmentVars t id2 ext2 (create_object EnvironmentVars t id m ext w).2).1
    = (read_object EnvironmentVars t id2 ext2 w).1
  /\ (is_object_exists EnvironmentVars t id2 ext2 (create_object EnvironmentVars t id m ext w).2).1
     = (is_object_exists EnvironmentVars t id2 ext2 w).1
  /\ (read_object EnvironmentVars t id2 ext2 (delete_object EnvironmentVars t id ext w).2).1
     = (read_object EnvironmentVars t id2 ext2 w).1
  /\ (is_object_exists EnvironmentVars t id2 ext2 (delete_object EnvironmentVars t id ext w).2).1
     = (is_object_exists EnvironmentVars t id2 ext2 w).1.
Proof.
  intros Ht _ _ _ _ Hd Hd2 Hne.
  assert (Hp : filepath root id ext <> filepath root id2 ext2).
  { intros Heq. apply filepath_inj_dot_free in Heq as [-> ->]; done. }
  rewrite (create_object_run _ _ _ _ _ _ _ Ht), (delete_object_run _ _ _ _ _ _ Ht).
  rewrite !(read_object_run _ _ _ _ _ _ Ht), !(is_object_exists_run _ _ _ _ _ _ Ht).
  assert (Hdel : files (match files w !! filepath root id ext with
                        | Some _ => (Return (), set_files (delete (filepath root id ext) (files w)) w)
                        | None => (Raise (RuntimeError ("No " +:+ t +:+ " found with ID: " +:+ id)), w)
                        end).2 !! filepath root id2 ext2
                 = files w !! filepath root id2 ext2).
  { destruct (files w !! filepath root id ext); simpl; [|done]. by rewrite lookup_delete_ne. }
  simpl. rewrite lookup_insert_ne by done. rewrite Hdel.
  repeat split; by destruct (files w !! filepath root id2 ext2) as [[[doc|text] ct]|].
Qed.

(** X5: reading, asking for existence, the path or the creation time, and
    listing never change the world, whatever the type, the id and the
    extension; neither does a [delete()] that raises. *)
Theorem queries_change_nothing {datetime} (fromtimestamp : Z -> datetime)
    (fnmatch_class : string -> string -> bool)
    (glob_other : world -> string -> list string)
    t id ext (w : world) :
  (read_object EnvironmentVars t id ext w).2 = w
  /\ (is_object_exists EnvironmentVars t id ext w).2 = w
  /\ (get_filepath EnvironmentVars t id ext w).2 = w
  /\ (get_creation_datetime EnvironmentVars datetime fromtimestamp t id ext w).2 = w
  /\ ((it ← get_objects EnvironmentVars fnmatch_class glob_other t ext; consume it) w).2 = w
  /\ (returns (delete_object EnvironmentVars t id ext w).1 = false ->
      (delete_object EnvironmentVars t id ext w).2 = w).
Proof.
  destruct (EnvironmentVars !! t) as [root|] eqn:Ht.
  - rewrite (read_object_run _ _ _ _ _ _ Ht), (is_object_exists_run _ _ _ _ _ _ Ht),
      (get_filepath_run _ _ _ _ _ _ Ht), (get_creation_datetime_run _ _ _ _ _ _ _ Ht),
      (delete_object_run _ _ _ _ _ _ Ht).
    unfold get_objects. io_unfold. rewrite (getattr_Some _ _ _ _ Ht).
    destruct (files w !! filepath root id ext) as [[[doc|text] ct]|]; simpl;
      repeat split; done.
  - unfold read_object, is_object_exists, get_filepath, get_creation_datetime,
      get_objects, delete_object.
    io_unfold. rewrite !(getattr_None _ _ _ Ht). repeat split; done.
Qed.

(** X10: what [read()] returns is made of JSON's own forms, so that
    creating the object anew from it and reading again returns it
    unchanged, whoever wrote the file. *)
Theorem read_back_is_stable t root id ext (v : value) (w w' : world) :
  EnvironmentVars !! t = Some root ->
  read_object EnvironmentVars t id ext w = (Return v, w') ->
  json_native v = true
  /\ ((create_object EnvironmentVars t id v ext;;
       read_object EnvironmentVars t id ext) w).1 = Return v.
Proof.
  intros Ht Hread. rewrite (read_object_run _ _ _ _ _ _ Ht) in Hread.
  assert (Hv : json_native v = true).
  { destruct (files w !! filepath root id ext) as [[[doc|text] ct]|]; try done.
    injection Hread as <- _. apply load_native. }
  split; [done|].
  io_unfold. rewrite (create_object_run _ _ _ _ _ _ _ Ht), (read_object_run _ _ _ _ _ _ Ht).
  simpl. rewrite lookup_insert_eq. fold (reload v). by rewrite (reload_native _ Hv).
Qed.

(** X22: opening a database for an unrecognised type raises
    [AttributeError] before the manager is asked for a connection: whatever
    the manager would do, the world is as it was. *)
Theorem open_needs_a_recognised_type (DBAccessor : Type)
    (DatabaseManager_create_connection : string -> io world (option DBAccessor))
    (pathlib_str : string -> string) t id ext (w : world) :
  EnvironmentVars !! t = None ->
  create_database_connection EnvironmentVars DBAccessor
    DatabaseManager_create_connection pathlib_str t id ext w
  = (Raise (AttributeError t), w).
Proof.
  intros Ht. unfold create_database_connection, get_filepath. io_unfold.
  by rewrite (getattr_None _ _ _ Ht).
Qed.

Section listing.

Variable fnmatch_class : string -> string -> bool.
Variable glob_other : world -> string -> list string.

Abbreviation list_objects t ext :=
  (it ← get_objects EnvironmentVars fnmatch_class glob_other t ext; consume it).

(** The names [list] accepts under a root, for an extension. *)
Abbreviation listed_name ext name :=
  (has_slash name = false /\ ishidden name = false /\ is_suffix ("." +:+ ext) name = true).

Lemma list_objects_run t root ext (w : world) :
  EnvironmentVars !! t = Some root ->
  list_objects t ext w
  = (Return (iglob fnmatch_class glob_other (root +:+ "/*." +:+ ext) w), w).
Proof.
  intros Ht. unfold get_objects, consume. io_unfold. by rewrite (getattr_Some _ _ _ _ Ht).
Qed.

Lemma elem_of_list_objects root ext (w : world) p :
  has_magic root = false -> ends_with_slash root = false ->
  has_magic ext = false -> has_slash ext = false ->
  p ∈ iglob fnmatch_class glob_other (root +:+ "/*." +:+ ext) w
  <-> exists name, p = root +:+ "/" +:+ name /\ is_Some (files w !! p) /\ listed_name ext name.
Proof.
  intros. by rewrite elem_of_iglob_plain.
Qed.


Lemma object_name_not_listed id ext :
  id = EmptyString \/ (exists rest, id = String "." rest) \/ has_slash id = true ->
  ~ listed_name ext (id +:+ "." +:+ ext).
Proof.
  intros Hid (Hs & Hhid & _). destruct Hid as [->|[[rest ->]|Hid]]; [done..|].
  unfold has_slash in Hs. rewrite has_char_app in Hs. fold (has_slash id) in Hs.
  by rewrite Hid in Hs.
Qed.

Lemma filepath_name root id ext name :
  filepath root id ext = root +:+ "/" +:+ name -> name = id +:+ "." +:+ ext.
Proof.
  unfold filepath. intros H. apply (inj (String.app root)) in H.
  by apply (inj (String.app "/")) in H.
Qed.

(** X6: on a recognised type whose root has no wildcard and no trailing
    slash, and for an extension without wildcard or slash, [list] yields,
    each once, exactly the paths of the files directly under the root whose
    name does not start with a dot and ends in a dot and the extension. *)
Theorem list_yields_exactly t root ext (w : world) :
  EnvironmentVars !! t = Some root ->
  has_magic root = false -> ends_with_slash root = false ->
  has_magic ext = false -> has_slash ext = false ->
  exists l : list string,
    list_objects t ext w = (Return l, w)
    /\ NoDup l
    /\ forall p, p ∈ l
         <-> exists name, p = root +:+ "/" +:+ name
               /\ is_Some (files w !! p)
               /\ has_slash name = false /\ ishidden name = false
               /\ is_suffix ("." +:+ ext) name = true.
Proof.
  intros Ht Hroot Hslash Hext Hes. eexists. split; [by apply list_objects_run|].
  split; [by apply NoDup_iglob_plain|].
  intros p. by apply elem_of_iglob_plain.
Qed.


(** X8: an object whose id is empty or starts with a dot, and makes with
    the extension an ordinary file name (no slash, not [.] nor [..], within
    the lengths the system allows), is stored and exists, and yet [list] of
    its type and extension does not yield its path: it yields what it
    yielded before. *)
Theorem hidden_object_not_listed t root id ext (m : value) (w : world) :
  EnvironmentVars !! t = Some root ->
  has_magic root = false -> ends_with_slash root = false ->
  has_magic ext = false -> has_slash ext = false ->
  has_slash id = false ->
  Posix.ordinary_name (id +:+ "." +:+ ext) = true ->
  (String.length (filepath root id ext) < Posix.PATH_MAX)%nat ->
  id = EmptyString \/ (exists rest, id = String "." rest) ->
  exists (before after : list string) (w1 : world),
    list_objects t ext w = (Return before, w)
    /\ (create_object EnvironmentVars t id m ext;; list_objects t ext) w = (Return after, w1)
    /\ is_object_exists EnvironmentVars t id ext w1 = (Return true, w1)
    /\ (filepath root id ext ∉ after)
    /\ forall p, p ∈ after <-> p ∈ before.
Proof.
  intros Ht Hroot Hslash Hext Hes _ _ _ Hid. do 3 eexists.
  assert (Hid' : id = EmptyString \/ (exists rest, id = String "." rest) \/ has_slash id = true)
    by tauto.
  split; [by apply list_objects_run|]. split.
  { unfold mbind at 1. unfold io_bind at 1. unfold bind at 1.
    rewrite (create_object_run _ _ _ _ _ _ _ Ht). by apply list_objects_run. }
  assert (Hnot : forall fs : world,
            filepath root id ext ∉ iglob fnmatch_class glob_other (root +:+ "/*." +:+ ext) fs).
  { intros fs Hin. apply elem_of_list_objects in Hin as (name & Heq & _ & Hn); [|done..].
    apply filepath_name in Heq. subst name. by apply (object_name_not_listed id ext). }
  split.
  { rewrite (is_object_exists_run _ _ _ _ _ _ Ht). simpl. by rewrite lookup_insert_eq. }
  split; [apply Hnot|].
  intros p. rewrite !elem_of_list_objects by done. simpl.
  split; intros (name & -> & Hf & Hn); exists name; (split; [done|]); (split; [|done]).
  - destruct (decide (filepath root id ext = root +:+ "/" +:+ name)) as [Heq|Hne].
    + apply filepath_name in Heq. subst name. by apply object_name_not_listed in Hn.
    + by rewrite lookup_insert_ne in Hf.
  - rewrite lookup_insert. case_decide; eauto.
Qed.

(** X9: deleting an object that exists, its id and extension being free
    of slashes, removes its path from what [list] of its type yields, for
    whatever extension, and nothing else. *)
Theorem delete_removes_from_list t root ext id2 ext2 (w : world) :
  EnvironmentVars !! t = Some root ->
  has_magic root = false -> ends_with_slash root = false ->
  has_magic ext = false -> has_slash ext = false ->
  has_slash id2 = false -> has_slash ext2 = false ->
  is_Some (files w !! filepath root id2 ext2) ->
  exists (before after : list string) (w1 : world),
    list_objects t ext w = (Return before, w)
    /\ (delete_object EnvironmentVars t id2 ext2;; list_objects t ext) w = (Return after, w1)
    /\ forall p, p ∈ after <-> p ∈ before /\ p <> filepath root id2 ext2.
Proof.
  intros Ht Hroot Hslash Hext Hes _ _ [f Hf]. do 3 eexists.
  split; [by apply list_objects_run|]. split.
  { unfold mbind at 1. unfold io_bind at 1. unfold bind at 1.
    rewrite (delete_object_run _ _ _ _ _ _ Ht), Hf. by apply list_objects_run. }
  intros p. rewrite !elem_of_list_objects by done. simpl. split.
  - intros (name & -> & Hp & Hn).
    destruct (decide (filepath root id2 ext2 = root +:+ "/" +:+ name)) as [Heq|Hne].
    + rewrite Heq, lookup_delete_eq in Hp. by destruct Hp.
    + rewrite lookup_delete_ne in Hp by done. split; [by exists name|done].
  - intros [(name & -> & Hp & Hn) Hne]. exists name. split; [done|]. split; [|done].
    by rewrite lookup_delete_ne.
Qed.

End listing.

End more.

End StorageMore.

(** ** More about routes/redteam.py *)

Module RedteamMore.

Import Redteam RedteamFacts.

Section more.

Context {service : Type}.
Variable SessionMetadataModel : Type.
Variable ChatHistory : Type.
Variable SessionCreateDTO : Type.
Variable PromptResponseModel : Type.
Variable PromptTemplate : Type.
Variable SessionResponseModel : Type.
Variable session_id_of : SessionMetadataModel -> string.
Variable set_chat_history : SessionMetadataModel -> ChatHistory -> SessionMetadataModel.
Variable new_SessionResponseModel : option SessionMetadataModel -> io service SessionResponseModel.
Variable get_sessions : io service (list (option SessionMetadataModel)).
Variable get_session : string -> io service (option SessionMetadataModel).
Variable get_session_chat_history : string -> io service ChatHistory.
Variable create_session : SessionCreateDTO -> io service SessionMetadataModel.
Variable send_prompt : string -> string -> io service PromptResponseModel.
Variable get_prompt_templates : io service (list (option PromptTemplate)).
Variable select_prompt_template : string -> string -> io service bool.

Abbreviation session_route :=
  (get_session_by_session_id SessionMetadataModel ChatHistory SessionResponseModel
     set_chat_history new_SessionResponseModel get_session get_session_chat_history).

Abbreviation create_route :=
  (create SessionMetadataModel SessionCreateDTO SessionResponseModel session_id_of
     new_SessionResponseModel get_session create_session).

Ltac io_unfold :=
  unfold mbind, io_bind, mret, io_ret, bind, ret, raise.

Lemma answer_other {A} (e : exn) (s : service) :
  (forall code msg, e <> SessionException code msg) ->
  answer (A := A) (Raise e, s) = (Raise e, s).
Proof. intros He. destruct e; try done. by destruct (He error_code msg). Qed.

(** X11: a route that makes one call to the session service returns
    exactly when that call returns, and leaves the service in the state the
    call left it in: no exception is turned into an answer. *)
Theorem routes_return_with_the_service (session_id name : string)
    (user_prompt : SessionPromptDTO) (s : service) :
  (returns (get_all_sessions SessionMetadataModel get_sessions s).1
     = returns (get_sessions s).1
   /\ (get_all_sessions SessionMetadataModel get_sessions s).2 = (get_sessions s).2)
  /\ (returns (prompt PromptResponseModel send_prompt session_id user_prompt s).1
        = returns (send_prompt session_id (prompt_text user_prompt) s).1
      /\ (prompt PromptResponseModel send_prompt session_id user_prompt s).2
         = (send_prompt session_id (prompt_text user_prompt) s).2)
  /\ (returns (get_all_prompt_templates PromptTemplate get_prompt_templates s).1
        = returns (get_prompt_templates s).1
      /\ (get_all_prompt_templates PromptTemplate get_prompt_templates s).2
         = (get_prompt_templates s).2)
  /\ (returns (set_prompt_template select_prompt_template session_id name s).1
        = returns (select_prompt_template session_id name s).1
      /\ (set_prompt_template select_prompt_template session_id name s).2
         = (select_prompt_template session_id name s).2)
  /\ (returns (unset_prompt_template select_prompt_template session_id name s).1
        = returns (select_prompt_template session_id EmptyString s).1
      /\ (unset_prompt_template select_prompt_template session_id name s).2
         = (select_prompt_template session_id EmptyString s).2).
Proof.
  unfold get_all_sessions, prompt, get_all_prompt_templates, set_prompt_template,
    unset_prompt_template.
  rewrite !try_except_answer. io_unfold. unfold answer.
  destruct (get_sessions s) as [[?|?] ?],
    (send_prompt session_id (prompt_text user_prompt) s) as [[?|?] ?],
    (get_prompt_templates s) as [[?|?] ?],
    (select_prompt_template session_id name s) as [[?|?] ?],
    (select_prompt_template session_id EmptyString s) as [[?|?] ?];
    repeat split; done.
Qed.

(** X12: an exception of the service that is not a [SessionException]
    leaves every such route as it was raised. *)
Theorem other_exceptions_pass_through (session_id name : string)
    (user_prompt : SessionPromptDTO) (e : exn) (s s1 s2 s3 s4 s5 : service) :
  (forall code msg, e <> SessionException code msg) ->
  get_sessions s = (Raise e, s1) ->
  send_prompt session_id (prompt_text user_prompt) s = (Raise e, s2) ->
  get_prompt_templates s = (Raise e, s3) ->
  select_prompt_template session_id name s = (Raise e, s4) ->
  get_session session_id s = (Raise e, s5) ->
  get_all_sessions SessionMetadataModel get_sessions s = (Raise e, s1)
  /\ prompt PromptResponseModel send_prompt session_id user_prompt s = (Raise e, s2)
  /\ get_all_prompt_templates PromptTemplate get_prompt_templates s = (Raise e, s3)
  /\ set_prompt_template select_prompt_template session_id name s = (Raise e, s4)
  /\ (forall include_history, session_route session_id include_history s = (Raise e, s5)).
Proof.
  intros He H1 H2 H3 H4 H5.
  unfold get_all_sessions, prompt, get_all_prompt_templates, set_prompt_template,
    get_session_by_session_id.
  rewrite !try_except_answer. io_unfold. rewrite H1, H2, H3, H4.
  repeat split; try by apply answer_other.
  intros include_history. rewrite try_except_answer. io_unfold. rewrite H5.
  by apply answer_other.
Qed.

(** X13: with [include_history] the chat history is asked for before the
    session is looked at: for a session that is [None], a
    [SessionException] of the history call is what the route answers with,
    and only when that call returns is the answer 404 "Session not found";
    without [include_history] the history is not asked for. *)
Theorem history_is_fetched_first (session_id code msg : string) (history : ChatHistory)
    (s s1 s2 s' s1' s2' : service) :
  get_session session_id s = (Return None, s1) ->
  get_session_chat_history session_id s1 = (Raise (SessionException code msg), s2) ->
  get_session session_id s' = (Return None, s1') ->
  get_session_chat_history session_id s1' = (Return history, s2') ->
  session_route session_id true s = (Raise (HTTPException (spec_status code) msg), s2)
  /\ session_route session_id true s' = (Raise (HTTPException 404 "Session not found"), s2')
  /\ session_route session_id false s = (Raise (HTTPException 404 "Session not found"), s1).
Proof.
  intros Hs Hh Hs' Hh'. unfold get_session_by_session_id.
  rewrite !try_except_answer. io_unfold. rewrite Hs, Hh, Hs', Hh'. done.
Qed.

(** X14: with [include_history], for a session that exists the response is
    built from the session with its chat history replaced by the one
    fetched, in the state the history call left; without it, from the
    session as the service gave it. *)
Theorem history_is_attached (session_id : string) (data : SessionMetadataModel)
    (history : ChatHistory) (with_history without : SessionResponseModel)
    (s s1 s2 s3 s3' : service) :
  get_session session_id s = (Return (Some data), s1) ->
  get_session_chat_history session_id s1 = (Return history, s2) ->
  new_SessionResponseModel (Some (set_chat_history data history)) s2
    = (Return with_history, s3) ->
  new_SessionResponseModel (Some data) s1 = (Return without, s3') ->
  session_route session_id true s = (Return with_history, s3)
  /\ session_route session_id false s = (Return without, s3').
Proof.
  intros Hs Hh Hr Hr'. unfold get_session_by_session_id.
  rewrite !try_except_answer. io_unfold. rewrite Hs, Hh, Hr, Hr'. done.
Qed.

(** X15: the route that creates a session answers with the session as the
    service gives it when asked again by the id of the new session; a
    [SessionException] of the creation is answered with its status, in the
    state the creation left. *)
Theorem create_answers_with_the_session_read_back (session_dto failing : SessionCreateDTO)
    (new_session : SessionMetadataModel) (read_back : option SessionMetadataModel)
    (response : SessionResponseModel) (code msg : string) (s s1 s2 s3 s1' : service) :
  create_session session_dto s = (Return new_session, s1) ->
  get_session (session_id_of new_session) s1 = (Return read_back, s2) ->
  new_SessionResponseModel read_back s2 = (Return response, s3) ->
  create_session failing s = (Raise (SessionException code msg), s1') ->
  create_route session_dto s = (Return response, s3)
  /\ create_route failing s = (Raise (HTTPException (spec_status code) msg), s1').
Proof.
  intros Hc Hg Hr Hf. unfold create.
  rewrite !try_except_answer. io_unfold. rewrite Hc, Hg, Hr, Hf. done.
Qed.

End more.

End RedteamMore.

(** ** More about status_updater/moonshot_ui_webhook.py *)

Module WebhookMore.

Import Json Webhook WebhookSetup.

Section more.

Context {state net disk : Type}.
Variable update_progress_status : value -> state -> state.
Variable requests_post : string -> value -> net -> outcome Response * net.
Variable json_error : exn.

Abbreviation on_update :=
  (on_progress_update update_progress_status requests_post json_error).

Ltac run_update :=
  unfold on_progress_update, mbind, io_bind, bind, try_except, logger_log,
    benchmark_test_state_update, post, raise_for_status, response_json,
    mret, io_ret, ret, raise; simpl.

(** X16: a response with a status from 400 to 599 is not fatal either:
    the call logs, at level CRITICAL, the status, "Client Error" below 500
    and "Server Error" from 500 on, the reason and the URL, and returns;
    the line of success is not logged. *)
Theorem error_status_is_logged (self : MoonshotUIWebhook) (progress_data : value)
    (w : world state net disk) (r : Response) (n' : net) :
  requests_post (url self) progress_data (network w) = (Return r, n') ->
  400 ≤ status_code r < 600 ->
  on_update self progress_data w
  = (Return (),
     World (update_progress_status progress_data (benchmark_test_state w))
           (log w ++ [(DEBUG, JsonDump (dump progress_data));
                      (CRITICAL,
                       Text ("Failed to send progress data: "
                             +:+ pretty (status_code r)
                             +:+ (if bool_decide (status_code r < 500)
                                  then " Client Error: " else " Server Error: ")
                             +:+ reason r +:+ " for url: " +:+ response_url r))])
           n' (storage w)).
Proof.
  intros Hpost Hstatus. run_update. rewrite Hpost. simpl.
  case_bool_decide as H4.
  - simpl. rewrite bool_decide_eq_true_2 by lia. by rewrite <- app_assoc.
  - rewrite bool_decide_eq_true_2 by lia. simpl.
    rewrite bool_decide_eq_false_2 by lia. by rewrite <- app_assoc.
Qed.

(** X17: when the post is answered with a status outside 400 to 599 and
    a JSON body, the call logs the decoded body at level DEBUG and the line
    of success at level INFO, in this order, and returns. *)
Theorem success_is_logged (self : MoonshotUIWebhook) (progress_data decoded : value)
    (w : world state net disk) (r : Response) (n' : net) :
  requests_post (url self) progress_data (network w) = (Return r, n') ->
  ~ 400 ≤ status_code r < 600 ->
  body r = Some decoded ->
  on_update self progress_data w
  = (Return (),
     World (update_progress_status progress_data (benchmark_test_state w))
           (log w ++ [(DEBUG, JsonDump (dump progress_data));
                      (DEBUG, Object decoded);
                      (INFO, Text "Progress data successfully sent to the server.")])
           n' (storage w)).
Proof.
  intros Hpost Hstatus Hbody. run_update. rewrite Hpost. simpl.
  rewrite !bool_decide_eq_false_2 by lia. simpl. rewrite Hbody. simpl.
  by rewrite <- !app_assoc.
Qed.

(** X18: an exception of the post that is not a [RequestException]
    leaves the call as it was raised; the progress state keeps the update
    made before the post, and nothing is logged after the dump of the
    data. *)
Theorem other_post_failure_propagates (self : MoonshotUIWebhook) (progress_data : value)
    (w : world state net disk) (e : exn) (n' : net) :
  requests_post (url self) progress_data (network w) = (Raise e, n') ->
  (forall info, e <> RequestException info) ->
  on_update self progress_data w
  = (Raise e,
     World (update_progress_status progress_data (benchmark_test_state w))
           (log w ++ [(DEBUG, JsonDump (dump progress_data))])
           n' (storage w)).
Proof.
  intros Hpost He. run_update. rewrite Hpost. simpl.
  destruct e; try done. by destruct (He info).
Qed.

(** X19: whatever happens, a call posts once, to the URL of the webhook
    and with the progress data; the log keeps what it held, gains the dump
    of the data first and at most two records after it. *)
Theorem one_post_and_a_growing_log (self : MoonshotUIWebhook) (progress_data : value)
    (w : world state net disk) :
  network (on_update self progress_data w).2
    = (requests_post (url self) progress_data (network w)).2
  /\ exists rest : list (level * message),
       log (on_update self progress_data w).2
         = log w ++ (DEBUG, JsonDump (dump progress_data)) :: rest
       /\ (length rest ≤ 2)%nat.
Proof.
  run_update.
  destruct (requests_post (url self) progress_data (network w)) as [[r|e] n0]; simpl.
  - repeat case_bool_decide; simpl.
    1,2: split; [done|]; eexists; split; [by rewrite <- app_assoc|simpl; lia].
    destruct (body r); simpl.
    + split; [done|]. eexists. split; [by rewrite <- !app_assoc|simpl; lia].
    + destruct json_error; simpl; split; try done;
        eexists; (split; [by rewrite <- ?app_assoc|simpl; lia]).
  - destruct e; simpl; split; try done;
      eexists; (split; [by rewrite <- ?app_assoc|simpl; lia]).
Qed.

(** X20: when the post is answered with a status outside 400 to 599 but
    a body that is not JSON, what happens is decided by the class of the
    exception [json()] raises: a [RequestException] is logged at level
    CRITICAL and the call returns; any other exception leaves the call,
    although the data reached the server. *)
Theorem undecodable_reply (self : MoonshotUIWebhook) (progress_data : value)
    (w : world state net disk) (r : Response) (n' : net) :
  requests_post (url self) progress_data (network w) = (Return r, n') ->
  ~ 400 ≤ status_code r < 600 ->
  body r = None ->
  on_update self progress_data w
  = match json_error with
    | RequestException info =>
        (Return (),
         World (update_progress_status progress_data (benchmark_test_state w))
               (log w ++ [(DEBUG, JsonDump (dump progress_data));
                          (CRITICAL, Text ("Failed to send progress data: " +:+ info))])
               n' (storage w))
    | other =>
        (Raise other,
         World (update_progress_status progress_data (benchmark_test_state w))
               (log w ++ [(DEBUG, JsonDump (dump progress_data))])
               n' (storage w))
    end.
Proof.
  intros Hpost Hstatus Hbody. run_update. rewrite Hpost. simpl.
  rewrite !bool_decide_eq_false_2 by lia. simpl. rewrite Hbody. simpl.
  destruct json_error; simpl; try done. by rewrite <- app_assoc.
Qed.

(** X21: a webhook constructed from the [.env] mapping posts to the URL
    bound to MOONSHOT_UI_CALLBACK_URL, to the default URL of the local
    server when the key is absent, and to the text "None" when the key is
    present without a value. *)
Theorem post_goes_to_configured_url (dotenv_values : gmap string (option string))
    (progress_data : value) (w : world state net disk) :
  network (on_update (MoonshotUIWebhook_init dotenv_values) progress_data w).2
  = (requests_post
       (match dotenv_values !! "MOONSHOT_UI_CALLBACK_URL" with
        | Some (Some configured) => configured
        | Some None => "None"
        | None => "http://localhost:3000/api/v1/benchmarks/status"
        end)
       progress_data (network w)).2.
Proof.
  assert (Hurl : url (MoonshotUIWebhook_init dotenv_values)
                 = match dotenv_values !! "MOONSHOT_UI_CALLBACK_URL" with
                   | Some (Some configured) => configured
                   | Some None => "None"
                   | None => "http://localhost:3000/api/v1/benchmarks/status"
                   end).
  { unfold MoonshotUIWebhook_init. simpl.
    by destruct (dotenv_values !! "MOONSHOT_UI_CALLBACK_URL") as [[?|]|]. }
  rewrite <- Hurl. generalize (MoonshotUIWebhook_init dotenv_values). intros self.
  run_update.
  destruct (requests_post (url self) progress_data (network w)) as [[r|e] n0]; simpl.
  - repeat case_bool_decide; simpl; try done.
    destruct (body r); simpl; [done|]. by destruct json_error.
  - by destruct e.
Qed.

End more.

End WebhookMore.

(** ** The further properties at work *)

Module MoreRuns.

Import Json Path Storage Scenario Scenario2.

Lemma other_objects_untouched_witness :
  EnvironmentVars !! "recipe" = Some "data/recipes"
  /\ has_slash "r2" = false /\ has_slash "r1" = false /\ has_slash "json" = false
  /\ has_dot "json" = false
  /\ ("r2", "json") <> ("r1", "json")
  /\ (read_object EnvironmentVars "recipe" "r1" "json"
        (create_object EnvironmentVars "recipe" "r2" named "json" repeated_member).2).1
     = (read_object EnvironmentVars "recipe" "r1" "json" repeated_member).1.
Proof.
  do 5 (split; [reflexivity|]). split; [discriminate|].
  exact (proj1 (StorageMore.other_objects_untouched EnvironmentVars
                  "recipe" "data/recipes" "r2" "json" named "r1" "json" repeated_member
                  eq_refl eq_refl eq_refl eq_refl eq_refl eq_refl eq_refl
                  ltac:(discriminate))).
Defined.

Lemma read_back_is_stable_witness :
  EnvironmentVars !! "recipe" = Some "data/recipes"
  /\ read_object EnvironmentVars "recipe" "r1" "json" repeated_member
     = (Return (PDict [(KStr "name", PStr "new")]), repeated_member)
  /\ ((create_object EnvironmentVars "recipe" "r1" (PDict [(KStr "name", PStr "new")]) "json";;
       read_object EnvironmentVars "recipe" "r1" "json") repeated_member).1
     = Return (PDict [(KStr "name", PStr "new")]).
Proof.
  split; [reflexivity|]. split; [reflexivity|].
  exact (proj2 (StorageMore.read_back_is_stable EnvironmentVars
                  "recipe" "data/recipes" "r1" "json" (PDict [(KStr "name", PStr "new")])
                  repeated_member repeated_member eq_refl eq_refl)).
Defined.

Lemma open_needs_a_recognised_type_witness :
  EnvironmentVars !! "dataset" = None
  /\ create_database_connection EnvironmentVars nat
       (fun _ w => (Return (Some 1%nat), cut_short)) String.rev "dataset" "s1" "db" fresh
     = (Raise (AttributeError "dataset"), fresh).
Proof.
  split; [reflexivity|].
  exact (StorageMore.open_needs_a_recognised_type EnvironmentVars nat
           (fun _ w => (Return (Some 1%nat), cut_short)) String.rev "dataset" "s1" "db" fresh
           eq_refl).
Defined.

Lemma list_yields_exactly_witness :
  EnvironmentVars !! "cookbook" = Some "data/cookbooks"
  /\ has_magic "data/cookbooks" = false /\ ends_with_slash "data/cookbooks" = false
  /\ has_magic "json" = false /\ has_slash "json" = false
  /\ exists l : list string,
       (it ← get_objects EnvironmentVars no_class no_other "cookbook" "json"; consume it)
         others_only = (Return l, others_only)
       /\ NoDup l.
Proof.
  do 5 (split; [reflexivity|]).
  destruct (StorageMore.list_yields_exactly EnvironmentVars no_class no_other
              "cookbook" "data/cookbooks" "json" others_only
              eq_refl eq_refl eq_refl eq_refl eq_refl) as (l & Hl & Hnd & _).
  exists l. split; [exact Hl|exact Hnd].
Defined.


Lemma hidden_object_not_listed_witness :
  EnvironmentVars !! "recipe" = Some "data/recipes"
  /\ has_slash ".draft" = false
  /\ Posix.ordinary_name ".draft.json" = true
  /\ (String.length (filepath "data/recipes" ".draft" "json") < Posix.PATH_MAX)%nat
  /\ (exists rest, ".draft" = String "." rest)
  /\ exists (before after : list string) (w1 : os_state unit),
       (it ← get_objects EnvironmentVars no_class no_other "recipe" "json"; consume it)
         others_only = (Return before, others_only)
       /\ (create_object EnvironmentVars "recipe" ".draft" named "json";;
           it ← get_objects EnvironmentVars no_class no_other "recipe" "json"; consume it)
            others_only = (Return after, w1)
       /\ is_object_exists EnvironmentVars "recipe" ".draft" "json" w1 = (Return true, w1)
       /\ (filepath "data/recipes" ".draft" "json" ∉ after)
       /\ forall p, p ∈ after <-> p ∈ before.
Proof.
  assert (Hlen : (String.length (filepath "data/recipes" ".draft" "json")
                  < Posix.PATH_MAX)%nat).
  { apply Nat.ltb_lt. vm_compute. reflexivity. }
  split; [reflexivity|]. split; [reflexivity|]. split; [reflexivity|].
  split; [exact Hlen|]. split; [by exists "draft"|].
  exact (StorageMore.hidden_object_not_listed EnvironmentVars no_class no_other
           "recipe" "data/recipes" ".draft" "json" named others_only
           eq_refl eq_refl eq_refl eq_refl eq_refl eq_refl eq_refl Hlen
           (or_intror (ex_intro _ "draft" eq_refl))).
Defined.

Lemma delete_removes_from_list_witness :
  EnvironmentVars !! "cookbook" = Some "data/cookbooks"
  /\ is_Some (files others_only !! filepath "data/cookbooks" "a" "json")
  /\ exists (before after : list string) (w1 : os_state unit),
       (it ← get_objects EnvironmentVars no_class no_other "cookbook" "json"; consume it)
         others_only = (Return before, others_only)
       /\ (delete_object EnvironmentVars "cookbook" "a" "json";;
           it ← get_objects EnvironmentVars no_class no_other "cookbook" "json"; consume it)
            others_only = (Return after, w1)
       /\ forall p, p ∈ after <-> p ∈ before /\ p <> filepath "data/cookbooks" "a" "json".
Proof.
  split; [reflexivity|]. split; [eexists; reflexivity|].
  exact (StorageMore.delete_removes_from_list EnvironmentVars no_class no_other
           "cookbook" "data/cookbooks" "json" "a" "json" others_only
           eq_refl eq_refl eq_refl eq_refl eq_refl eq_refl eq_refl
           (ex_intro _ (File (JsonText (JObject [])) 0) eq_refl)).
Defined.

Lemma other_exceptions_pass_through_witness :
  (forall code msg, ValueError "service is down" <> SessionException code msg)
  /\ broken (A := list (option string)) 0%nat = (Raise (ValueError "service is down"), 1%nat)
  /\ Redteam.get_all_sessions string broken 0%nat
     = (Raise (ValueError "service is down"), 1%nat)
  /\ Redteam.set_prompt_template (fun _ _ => broken) "s1" "t1" 0%nat
     = (Raise (ValueError "service is down"), 1%nat).
Proof.
  split; [discriminate|]. split; [reflexivity|].
  destruct (RedteamMore.other_exceptions_pass_through string (list string)
              string string (option string) attach respond
              broken (fun _ => broken) (fun _ => broken) (fun _ _ => broken)
              broken (fun _ _ => broken)
              "s1" "t1" {| Redteam.prompt_text := "hello" |} (ValueError "service is down")
              0%nat 1%nat 1%nat 1%nat 1%nat 1%nat
              ltac:(discriminate) eq_refl eq_refl eq_refl eq_refl eq_refl)
    as (H1 & _ & _ & H4 & _).
  split; [exact H1|exact H4].
Defined.

Lemma history_is_fetched_first_witness :
  no_session "s1" 1%nat = (Return None, 2%nat)
  /\ history_flaky "s1" 2%nat
     = (Raise (SessionException "ValidationError" "history is corrupt"), 3%nat)
  /\ no_session "s1" 0%nat = (Return None, 1%nat)
  /\ history_flaky "s1" 1%nat = (Return ["hello"; "s1"], 2%nat)
  /\ Redteam.get_session_by_session_id string (list string) (option string)
       attach respond no_session history_flaky "s1" true 1%nat
     = (Raise (HTTPException 400 "history is corrupt"), 3%nat)
  /\ Redteam.get_session_by_session_id string (list string) (option string)
       attach respond no_session history_flaky "s1" true 0%nat
     = (Raise (HTTPException 404 "Session not found"), 2%nat).
Proof.
  do 4 (split; [reflexivity|]).
  destruct (RedteamMore.history_is_fetched_first string (list string) (option string)
              attach respond no_session history_flaky
              "s1" "ValidationError" "history is corrupt" ["hello"; "s1"]
              1%nat 2%nat 3%nat 0%nat 1%nat 2%nat eq_refl eq_refl eq_refl eq_refl)
    as (H1 & H2 & _).
  split; [exact H1|exact H2].
Defined.

Lemma history_is_attached_witness :
  found_session "s1" 0%nat = (Return (Some "s1"), 1%nat)
  /\ history_of "s1" 1%nat = (Return ["hello"; "s1"], 2%nat)
  /\ respond (Some (attach "s1" ["hello"; "s1"])) 2%nat
     = (Return (Some "s1 with history"), 3%nat)
  /\ respond (Some "s1") 1%nat = (Return (Some "s1"), 2%nat)
  /\ Redteam.get_session_by_session_id string (list string) (option string)
       attach respond found_session history_of "s1" true 0%nat
     = (Return (Some "s1 with history"), 3%nat)
  /\ Redteam.get_session_by_session_id string (list string) (option string)
       attach respond found_session history_of "s1" false 0%nat
     = (Return (Some "s1"), 2%nat).
Proof.
  do 4 (split; [reflexivity|]).
  exact (RedteamMore.history_is_attached string (list string) (option string)
           attach respond found_session history_of
           "s1" "s1" ["hello"; "s1"] (Some "s1 with history") (Some "s1")
           0%nat 1%nat 2%nat 3%nat 2%nat eq_refl eq_refl eq_refl eq_refl).
Defined.

Lemma create_answers_with_the_session_read_back_witness :
  creates "alpha" 0%nat = (Return "session-alpha", 1%nat)
  /\ found_session "session-alpha" 1%nat = (Return (Some "session-alpha"), 2%nat)
  /\ respond (Some "session-alpha") 2%nat = (Return (Some "session-alpha"), 3%nat)
  /\ creates EmptyString 0%nat
     = (Raise (SessionException "ValidationError" "name is required"), 1%nat)
  /\ Redteam.create string string (option string) (fun data => data)
       respond found_session creates "alpha" 0%nat
     = (Return (Some "session-alpha"), 3%nat)
  /\ Redteam.create string string (option string) (fun data => data)
       respond found_session creates EmptyString 0%nat
     = (Raise (HTTPException 400 "name is required"), 1%nat).
Proof.
  do 4 (split; [reflexivity|]).
  exact (RedteamMore.create_answers_with_the_session_read_back string string (option string)
           (fun data => data) respond found_session creates
           "alpha" EmptyString "session-alpha" (Some "session-alpha") (Some "session-alpha")
           "ValidationError" "name is required"
           0%nat 1%nat 2%nat 3%nat 1%nat eq_refl eq_refl eq_refl eq_refl).
Defined.

Lemma error_status_is_logged_witness :
  answers server_error (Webhook.url callback) named (Webhook.network idle)
    = (Return server_error, 1%nat)
  /\ 400 ≤ Webhook.status_code server_error < 600
  /\ (Webhook.on_progress_update cons (answers server_error) (ValueError "not JSON")
        callback named idle).1 = Return ().
Proof.
  split; [reflexivity|]. split; [simpl; lia|].
  exact (f_equal fst
           (WebhookMore.error_status_is_logged cons (answers server_error) (ValueError "not JSON")
              callback named idle server_error 1%nat eq_refl ltac:(simpl; lia))).
Defined.

Lemma success_is_logged_witness :
  answers accepted (Webhook.url callback) named (Webhook.network idle) = (Return accepted, 1%nat)
  /\ ~ 400 ≤ Webhook.status_code accepted < 600
  /\ Webhook.body accepted = Some (PDict [(KStr "ok", PBool true)])
  /\ Webhook.on_progress_update cons (answers accepted) (ValueError "not JSON")
       callback named idle
     = (Return (),
        Webhook.World [named]
          [(Webhook.DEBUG, Webhook.JsonDump (dump named));
           (Webhook.DEBUG, Webhook.Object (PDict [(KStr "ok", PBool true)]));
           (Webhook.INFO, Webhook.Text "Progress data successfully sent to the server.")]
          1%nat ()).
Proof.
  split; [reflexivity|]. split; [simpl; lia|]. split; [reflexivity|].
  exact (WebhookMore.success_is_logged cons (answers accepted) (ValueError "not JSON")
           callback named (PDict [(KStr "ok", PBool true)]) idle accepted 1%nat
           eq_refl ltac:(simpl; lia) eq_refl).
Defined.

Lemma other_post_failure_propagates_witness :
  misused (Webhook.url callback) named (Webhook.network idle)
    = (Raise (ValueError "Invalid URL"), 1%nat)
  /\ (forall info, ValueError "Invalid URL" <> RequestException info)
  /\ Webhook.on_progress_update cons misused (ValueError "not JSON") callback named idle
     = (Raise (ValueError "Invalid URL"),
        Webhook.World [named] [(Webhook.DEBUG, Webhook.JsonDump (dump named))] 1%nat ()).
Proof.
  split; [reflexivity|]. split; [discriminate|].
  exact (WebhookMore.other_post_failure_propagates cons misused (ValueError "not JSON")
           callback named idle (ValueError "Invalid URL") 1%nat eq_refl ltac:(discriminate)).
Defined.

Lemma undecodable_reply_witness :
  answers accepted_as_page (Webhook.url callback) named (Webhook.network idle)
    = (Return accepted_as_page, 1%nat)
  /\ ~ 400 ≤ Webhook.status_code accepted_as_page < 600
  /\ Webhook.body accepted_as_page = None
  /\ Webhook.on_progress_update cons (answers accepted_as_page) (ValueError "not JSON")
       callback named idle
     = (Raise (ValueError "not JSON"),
        Webhook.World [named] [(Webhook.DEBUG, Webhook.JsonDump (dump named))] 1%nat ()).
Proof.
  split; [reflexivity|]. split; [simpl; lia|]. split; [reflexivity|].
  exact (WebhookMore.undecodable_reply cons (answers accepted_as_page) (ValueError "not JSON")
           callback named idle accepted_as_page 1%nat eq_refl ltac:(simpl; lia) eq_refl).
Defined.

(** Construction from a [.env] file without the key, with the key, and
    with the key left without a value. *)
Example webhook_urls :
  Webhook.url (WebhookSetup.MoonshotUIWebhook_init ∅)
    = "http://localhost:3000/api/v1/benchmarks/status"
  /\ Webhook.url (WebhookSetup.MoonshotUIWebhook_init
                    {[ "MOONSHOT_UI_CALLBACK_URL" := Some "http://ui:3000/status" ]})
     = "http://ui:3000/status"
  /\ Webhook.url (WebhookSetup.MoonshotUIWebhook_init {[ "MOONSHOT_UI_CALLBACK_URL" := None ]})
     = "None".
Proof. vm_compute. done. Qed.

End MoreRuns.

(** ** Equality of values *)

Module EqFacts.

Import Json.

Lemma SFeqb_refl x : is_nan x = false -> SFeqb x x = true.
Proof.
  unfold SFeqb. destruct x as [s|s| |s m e]; simpl; intros Hx; try done.
  - by destruct s.
  - rewrite Z.compare_refl.
    change (PosDef.Pos.compare_cont Eq m m) with (Pos.compare m m).
    rewrite Pos.compare_refl. by destruct s.
Qed.

Lemma dict_get_NoDup k v entries :
  NoDup (map fst entries) -> (k, v) ∈ entries -> dict_get k entries = Some v.
Proof.
  induction entries as [|[k' v'] entries IH]; simpl; intros Hnd Hin.
  - by apply elem_of_nil in Hin.
  - apply NoDup_cons in Hnd as [Hk' Hnd]. unfold key_eqb.
    apply elem_of_cons in Hin as [Heq|Hin].
    + injection Heq as <- <-. by rewrite bool_decide_eq_true_2.
    + rewrite bool_decide_eq_false_2; [by apply IH|].
      intros ->. apply Hk'. apply list_elem_of_fmap. by exists (k, v).
Qed.

(** Python's [==] holds between a value of JSON's own forms and itself,
    unless a NaN occurs in it. *)
Lemma py_eq_refl v : json_native v = true -> nan_free v = true -> py_eq v v = true.
Proof.
  induction v as [| | | | |items IH|items IH|entries IH]
    using value_nested_ind; simpl; intros Hn Hf; try done.
  - by apply bool_decide_eq_true_2.
  - by apply bool_decide_eq_true_2.
  - apply SFeqb_refl. by apply negb_true_iff.
  - by apply bool_decide_eq_true_2.
  - induction IH as [|x l Hx Hl IHl]; simpl in *; [done|].
    apply andb_true_iff in Hn as [Hx1 Hl1]. apply andb_true_iff in Hf as [Hx2 Hl2].
    rewrite Hx by done. simpl. by apply IHl.
  - apply andb_true_iff in Hn as [Hn Hvals].
    apply andb_true_iff in Hn as [_ Hnd]. apply bool_decide_eq_true in Hnd.
    rewrite bool_decide_eq_true_2 by done. simpl.
    match goal with
    | |- ?all_in entries = true =>
        assert (Hgen : forall part,
                  Forall (fun kv : key * value =>
                    dict_get kv.1 entries = Some kv.2 /\ py_eq kv.2 kv.2 = true) part ->
                  all_in part = true)
    end.
    { intros part Hall. induction Hall as [|[k v] l [Hget Heq] Hl IHl]; [done|].
      simpl in *. rewrite Hget, Heq. simpl. exact IHl. }
    apply Hgen, Forall_forall. intros [k v] Hin. simpl. split.
    + by apply dict_get_NoDup.
    + rewrite Forall_forall in IH. apply (IH (k, v)); [done| |].
      * rewrite forallb_forall in Hvals. apply (Hvals (k, v)). by apply list_elem_of_In.
      * rewrite forallb_forall in Hf. apply (Hf (k, v)). by apply list_elem_of_In.
Qed.

End EqFacts.

(** ** Facts about path resolution *)

Module PosixFacts.

Import Json Path Posix PathFacts.

#[local] Arguments String.append : simpl nomatch.

Lemma string_length_app a b :
  String.length (a +:+ b) = (String.length a + String.length b)%nat.
Proof. induction a as [|c a IH]; simpl; [done|]. by rewrite IH. Qed.

Lemma split_slash_nonempty s : split_slash s <> [].
Proof.
  destruct s as [|c s]; simpl; [done|].
  destruct (is_slash c); [done|]. by destruct (split_slash s).
Qed.

Lemma split_slash_app a b :
  split_slash (a +:+ "/" +:+ b) = split_slash a ++ split_slash b.
Proof.
  induction a as [|c a IH]; simpl in *; [done|].
  rewrite IH. destruct (is_slash c); [done|].
  pose proof (split_slash_nonempty a). by destruct (split_slash a).
Qed.

Lemma split_slash_plain s : has_slash s = false -> split_slash s = [s].
Proof.
  unfold has_slash. induction s as [|c s IH]; simpl; [done|]. intros H.
  apply orb_false_iff in H as [-> Hs]. by rewrite (IH Hs).
Qed.

(** A component has no slash. *)
Lemma split_slash_no_slash s c : c ∈ split_slash s -> has_slash c = false.
Proof.
  revert c. induction s as [|a s IH]; simpl; intros c Hc.
  - apply list_elem_of_singleton in Hc. by subst c.
  - destruct (is_slash a) eqn:Ha.
    + apply elem_of_cons in Hc as [->|Hc]; [done|by apply IH].
    + pose proof (split_slash_nonempty s) as Hne.
      destruct (split_slash s) as [|h t]; [done|].
      apply elem_of_cons in Hc as [->|Hc].
      * change (is_slash a || has_slash h = false). rewrite Ha. apply IH. left.
      * apply IH. by right.
Qed.

Lemma split_slash_has_char f s c :
  has_char f s = false -> c ∈ split_slash s -> has_char f c = false.
Proof.
  revert c. induction s as [|a s IH]; simpl; intros c Hs Hc.
  - apply list_elem_of_singleton in Hc. by subst c.
  - apply orb_false_iff in Hs as [Ha Hs]. destruct (is_slash a).
    + apply elem_of_cons in Hc as [->|Hc]; [done|by apply IH].
    + pose proof (split_slash_nonempty s) as Hne.
      destruct (split_slash s) as [|h t]; [done|].
      apply elem_of_cons in Hc as [->|Hc].
      * simpl. rewrite Ha. apply IH; [done|left].
      * apply IH; [done|by right].
Qed.

Lemma split_join_slash parts :
  parts <> [] -> Forall (fun c => has_slash c = false) parts ->
  split_slash (join_slash parts) = parts.
Proof.
  intros Hne Hall. induction Hall as [|c parts Hc Hall IH]; [done|].
  destruct parts as [|c' parts].
  - by apply split_slash_plain.
  - change (join_slash (c :: c' :: parts)) with (c +:+ "/" +:+ join_slash (c' :: parts)).
    rewrite split_slash_app, (split_slash_plain _ Hc), IH; done.
Qed.

Lemma slen_split_slash s : slen (split_slash s) = S (String.length s).
Proof.
  induction s as [|c s IH]; simpl; [done|].
  destruct (is_slash c); simpl; [by rewrite IH|].
  pose proof (split_slash_nonempty s) as Hne.
  destruct (split_slash s) as [|h t]; [done|]. simpl in *. lia.
Qed.

Lemma slen_join_slash parts :
  parts <> [] -> S (String.length (join_slash parts)) = slen parts.
Proof.
  intros Hne. induction parts as [|c parts IH]; [done|].
  destruct parts as [|c' parts].
  - simpl. lia.
  - change (join_slash (c :: c' :: parts)) with (c +:+ "/" +:+ join_slash (c' :: parts)).
    assert (Hrec := IH ltac:(done)). rewrite !string_length_app.
    set (j := join_slash (c' :: parts)) in *. simpl in *. lia.
Qed.

Lemma slen_filter (P : string -> Prop) `{!forall x, Decision (P x)} comps :
  (slen (filter P comps) <= slen comps)%nat.
Proof.
  induction comps as [|c comps IH]; simpl; [done|].
  rewrite filter_cons. case_decide; simpl; lia.
Qed.

Lemma pathlib_parts_slash c s :
  is_slash c = true -> pathlib_parts (String c s) = pathlib_parts s.
Proof.
  intros Hc. unfold pathlib_parts.
  change (split_slash (String c s))
    with (if is_slash c then EmptyString :: split_slash s
          else match split_slash s with [] => [String c EmptyString] | h :: t => String c h :: t end).
  rewrite Hc. apply filter_cons_False. intros [H _]. by apply H.
Qed.

Lemma slen_pathlib_parts s :
  (slen (pathlib_parts s) + leading_slashes s <= S (String.length s))%nat.
Proof.
  induction s as [|c s IH].
  - vm_compute. lia.
  - destruct (is_slash c) eqn:Hc.
    + rewrite (pathlib_parts_slash _ _ Hc). simpl. rewrite Hc. lia.
    + simpl leading_slashes. rewrite Hc, Nat.add_0_r.
      pose proof (slen_filter (fun x => x <> EmptyString /\ x <> ".")
                    (split_slash (String c s))) as Hle.
      rewrite slen_split_slash in Hle. exact Hle.
Qed.

Lemma pathlib_root_length s : (String.length (pathlib_root s) <= leading_slashes s)%nat.
Proof.
  unfold pathlib_root. destruct (leading_slashes s) as [|[|[|n]]]; simpl; lia.
Qed.

Lemma pathlib_parts_spec s c :
  c ∈ pathlib_parts s <-> c ∈ split_slash s /\ c <> EmptyString /\ c <> ".".
Proof. unfold pathlib_parts. rewrite list_elem_of_filter. tauto. Qed.

Lemma join_slash_nonempty parts :
  parts <> [] -> Forall (fun c => c <> EmptyString) parts -> join_slash parts <> EmptyString.
Proof.
  intros Hne Hall. destruct Hall as [|c parts Hc Hall]; [done|].
  destruct parts; simpl; [done|]. by destruct c.
Qed.

(** What [Path] gives when a component is left. *)
Lemma Path_parts s :
  pathlib_parts s <> [] ->
  Path s = pathlib_root s +:+ join_slash (pathlib_parts s).
Proof.
  intros Hne. unfold Path.
  assert (Hj : join_slash (pathlib_parts s) <> EmptyString).
  { apply join_slash_nonempty; [done|]. apply Forall_forall. intros c Hc.
    apply pathlib_parts_spec in Hc. tauto. }
  destruct (pathlib_root s +:+ join_slash (pathlib_parts s)) eqn:Heq; [|done].
  destruct (pathlib_root s); [|done]. simpl in Heq. congruence.
Qed.

Lemma Path_length s :
  pathlib_parts s <> [] -> (String.length (Path s) <= String.length s)%nat.
Proof.
  intros Hne. rewrite (Path_parts _ Hne), string_length_app.
  pose proof (slen_join_slash _ Hne). pose proof (slen_pathlib_parts s).
  pose proof (pathlib_root_length s). lia.
Qed.

Lemma has_char_join_slash f parts :
  f "/"%char = false -> Forall (fun c => has_char f c = false) parts ->
  has_char f (join_slash parts) = false.
Proof.
  intros Hf Hall. induction Hall as [|c parts Hc Hall IH]; [done|].
  destruct parts as [|c' parts]; [done|].
  change (join_slash (c :: c' :: parts)) with (c +:+ "/" +:+ join_slash (c' :: parts)).
  rewrite !has_char_app, Hc, IH. simpl. by rewrite Hf.
Qed.

Lemma Path_has_nul s : pathlib_parts s <> [] -> has_nul s = false -> has_nul (Path s) = false.
Proof.
  intros Hne Hs. rewrite (Path_parts _ Hne). unfold has_nul. rewrite has_char_app.
  rewrite has_char_join_slash; [|done|].
  - rewrite orb_false_r. unfold pathlib_root.
    by destruct (leading_slashes s) as [|[|[|n]]].
  - apply Forall_forall. intros c Hc. apply pathlib_parts_spec in Hc as [Hc _].
    by apply (split_slash_has_char _ s).
Qed.

End PosixFacts.

Module WalkFacts.

Import Json Path Posix PathFacts PosixFacts.

#[local] Arguments String.append : simpl nomatch.

Lemma is_directory_spec d place :
  is_directory d place = true <-> exists c, node_at d place = Some (Directory c).
Proof.
  unfold is_directory. destruct (node_at d place) as [[c|data c]|]; split;
    try done; eauto; by intros [? ?].
Qed.

Lemma is_directory_root d : is_directory d [] = true.
Proof. done. Qed.

Lemma enter_inr d place c l : enter d place c = inr l -> is_directory d place = true.
Proof.
  unfold enter, is_directory. by destruct (node_at d place) as [[?|? ?]|].
Qed.

Lemma enter_directory d place c :
  is_directory d place = true ->
  enter d place c =
    if bool_decide (c = EmptyString \/ c = ".") then inr place
    else if bool_decide (c = "..") then inr (removelast place)
    else if (NAME_MAX <? String.length c)%nat then inl ENAMETOOLONG
    else inr (place ++ [c]).
Proof.
  unfold enter, is_directory. by destruct (node_at d place) as [[?|? ?]|].
Qed.

Lemma enter_stays d place c :
  is_directory d place = true -> c = EmptyString \/ c = "." -> enter d place c = inr place.
Proof.
  intros Hd Hc. rewrite (enter_directory _ _ _ Hd). by rewrite bool_decide_eq_true_2.
Qed.

Lemma enter_name d place c :
  is_directory d place = true -> is_dots c = false -> (String.length c <= NAME_MAX)%nat ->
  enter d place c = inr (place ++ [c]).
Proof.
  intros Hd Hc Hlen. rewrite (enter_directory _ _ _ Hd).
  unfold is_dots in Hc. apply bool_decide_eq_false in Hc.
  rewrite bool_decide_eq_false_2 by tauto. rewrite bool_decide_eq_false_2 by tauto.
  by rewrite (proj2 (Nat.ltb_ge _ _) Hlen).
Qed.

(** Resolution looks only at which places are directories. *)
Lemma enter_keeps d d' place c l :
  (forall x, is_directory d x = true -> is_directory d' x = true) ->
  enter d place c = inr l -> enter d' place c = inr l.
Proof.
  intros Hk He. pose proof (enter_inr _ _ _ _ He) as Hd.
  rewrite (enter_directory _ _ _ Hd) in He. by rewrite (enter_directory _ _ _ (Hk _ Hd)).
Qed.

Lemma walk_keeps d d' place comps l :
  (forall x, is_directory d x = true -> is_directory d' x = true) ->
  walk d place comps = inr l -> walk d' place comps = inr l.
Proof.
  intros Hk. revert place. induction comps as [|c comps IH]; simpl; intros place Hw; [done|].
  destruct (enter d place c) as [e|place'] eqn:He; [done|].
  rewrite (enter_keeps _ _ _ _ _ Hk He). by apply IH.
Qed.

Lemma walk_app d place a b :
  walk d place (a ++ b) =
    match walk d place a with
    | inl e => inl e
    | inr l => walk d l b
    end.
Proof.
  revert place. induction a as [|c a IH]; simpl; intros place; [done|].
  by destruct (enter d place c).
Qed.

Lemma forallb_empty_snoc init last :
  last <> EmptyString ->
  forallb (fun x => bool_decide (x = EmptyString)) (init ++ [last]) = false.
Proof.
  intros Hl. rewrite forallb_app. simpl. rewrite (bool_decide_eq_false_2 _ Hl).
  apply andb_false_r.
Qed.

Lemma walk_to_last_snoc d place init last :
  last <> EmptyString ->
  walk_to_last d place (init ++ [last]) =
    match walk d place init with
    | inl e => inl e
    | inr parent => inr (parent, last, false)
    end.
Proof.
  intros Hl. revert place. induction init as [|c init IH]; intros place; [done|].
  simpl. rewrite (forallb_empty_snoc _ _ Hl).
  by destruct (enter d place c).
Qed.

Lemma walk_to_last_inr d place comps parent last :
  walk_to_last d place comps = inr (parent, last, false) ->
  exists init, comps = init ++ [last] /\ walk d place init = inr parent.
Proof.
  revert place. induction comps as [|c comps IH]; simpl; intros place Hw; [done|].
  destruct (forallb _ comps) eqn:Hall.
  - injection Hw as <- <- Hnil. apply negb_false_iff, bool_decide_eq_true in Hnil.
    subst comps. by exists [].
  - destruct (enter d place c) as [e|place'] eqn:He; [done|].
    destruct (IH _ Hw) as (init & -> & Hinit). exists (c :: init). simpl. by rewrite He.
Qed.

(** Dropping the components that stay in place from a resolution that
    succeeds. *)
Lemma walk_filter d place comps l :
  walk d place comps = inr l ->
  walk d place (filter (fun x => x <> EmptyString /\ x <> ".") comps) = inr l.
Proof.
  revert place. induction comps as [|c comps IH]; simpl; intros place Hw; [done|].
  destruct (enter d place c) as [e|place'] eqn:He; [done|].
  rewrite filter_cons. case_decide as Hc.
  - simpl. rewrite He. by apply IH.
  - assert (Hstay : c = EmptyString \/ c = ".").
    { destruct (decide (c = EmptyString)); [by left|].
      destruct (decide (c = ".")); [by right|]. tauto. }
    rewrite (enter_stays _ _ _ (enter_inr _ _ _ _ He) Hstay) in He.
    injection He as <-. by apply IH.
Qed.

Lemma walk_root_empties d k : walk d [] (replicate k EmptyString) = inr [].
Proof.
  induction k as [|k IH]; [done|]. cbn [replicate walk].
  rewrite enter_stays; [done|done|by left].
Qed.

Lemma enter_errno d place c e :
  enter d place c = inl e -> e <> EISDIR.
Proof.
  unfold enter. destruct (node_at d place) as [[?|? ?]|]; try by intros [= <-].
  repeat case_bool_decide; try done. destruct (_ <? _)%nat; [by intros [= <-]|done].
Qed.

Lemma walk_errno d place comps e : walk d place comps = inl e -> e <> EISDIR.
Proof.
  revert place. induction comps as [|c comps IH]; simpl; intros place; [done|].
  destruct (enter d place c) as [e'|place'] eqn:He; [|by apply IH].
  intros [= <-]. by apply (enter_errno _ _ _ _ He).
Qed.

(** [stat] gives a directory as it gives a file. *)
Lemma stat_errno d path e :
  stat d path = inl e -> e = ENOENT \/ e = ENOTDIR \/ e = ENAMETOOLONG.
Proof.
  intros Hs. assert (He : e <> EISDIR); [|destruct e; tauto].
  revert Hs. unfold stat, resolve. case_bool_decide; [by intros [= <-]|].
  destruct (too_long path); [by intros [= <-]|].
  destruct (walk _ _ _) as [e'|place] eqn:Hw.
  - intros [= <-]. by apply (walk_errno _ _ _ _ Hw).
  - destruct (node_at d place); [done|]. by intros [= <-].
Qed.

(** *** [Path] *)

Lemma leading_slashes_absolute s : leading_slashes s <> O -> is_absolute s = true.
Proof. destruct s as [|c s]; simpl; [done|]. by destruct (is_slash c). Qed.

Lemma pathlib_parts_no_slash s : Forall (fun c => has_slash c = false) (pathlib_parts s).
Proof.
  apply Forall_forall. intros c Hc. apply pathlib_parts_spec in Hc as [Hc _].
  by apply (split_slash_no_slash s).
Qed.

Lemma split_slash_Path s :
  pathlib_parts s <> [] ->
  split_slash (Path s)
  = replicate (String.length (pathlib_root s)) EmptyString ++ pathlib_parts s.
Proof.
  intros Hne. rewrite (Path_parts _ Hne).
  pose proof (split_join_slash _ Hne (pathlib_parts_no_slash s)) as Hsplit.
  unfold pathlib_root. destruct (leading_slashes s) as [|[|[|n]]]; simpl.
  - done.
  - unfold is_slash. simpl. by rewrite Hsplit.
  - unfold is_slash. simpl. by rewrite Hsplit.
  - unfold is_slash. simpl. by rewrite Hsplit.
Qed.

Lemma is_absolute_join_slash parts :
  Forall (fun c => has_slash c = false) parts ->
  Forall (fun c => c <> EmptyString) parts ->
  is_absolute (join_slash parts) = false.
Proof.
  intros Hs Hn. destruct parts as [|[|a h] t]; [done| |].
  - by apply Forall_cons_1 in Hn as [? _].
  - apply Forall_cons_1 in Hs as [Hs _]. unfold has_slash in Hs. simpl in Hs.
    apply orb_false_iff in Hs as [Ha _]. by destruct t.
Qed.

Lemma is_absolute_Path s : pathlib_parts s <> [] -> is_absolute (Path s) = is_absolute s.
Proof.
  intros Hne. rewrite (Path_parts _ Hne).
  destruct s as [|c s]; [done|]. unfold pathlib_root. simpl.
  destruct (is_slash c) eqn:Hc.
  - by destruct (leading_slashes s) as [|[|n]].
  - simpl. apply is_absolute_join_slash; [apply pathlib_parts_no_slash|].
    apply Forall_forall. intros x Hx. apply pathlib_parts_spec in Hx. tauto.
Qed.

Lemma pathlib_parts_snoc s init last :
  split_slash s = init ++ [last] -> last <> EmptyString -> last <> "." ->
  pathlib_parts s = filter (fun x => x <> EmptyString /\ x <> ".") init ++ [last].
Proof.
  intros Hs H1 H2. unfold pathlib_parts. rewrite Hs, filter_app.
  by rewrite (filter_cons_True _ last) by done.
Qed.

Lemma is_dots_false c :
  is_dots c = false <-> c <> EmptyString /\ c <> "." /\ c <> "..".
Proof. unfold is_dots. rewrite bool_decide_eq_false. tauto. Qed.

(** *** Paths that name an entry of a directory *)

Lemma names_entry_Path d path parent last :
  names_entry d path parent last -> names_entry d (Path path) parent last.
Proof.
  intros (Hne & Hlong & Hnul & Hdots & Hlen & Hdir & init & Hsplit & Hwalk).
  pose proof (proj1 (is_dots_false _) Hdots) as (Hl1 & Hl2 & _).
  pose proof (pathlib_parts_snoc _ _ _ Hsplit Hl1 Hl2) as Hparts.
  assert (Hparts_ne : pathlib_parts path <> []).
  { rewrite Hparts. by destruct (filter _ init). }
  repeat split; try done.
  - rewrite (Path_parts _ Hparts_ne).
    pose proof (join_slash_nonempty (pathlib_parts path) Hparts_ne) as Hj.
    intros Heq. destruct (pathlib_root path); [|done]. simpl in Heq. apply Hj; [|done].
    apply Forall_forall. intros x Hx. apply pathlib_parts_spec in Hx. tauto.
  - pose proof (Path_length _ Hparts_ne). unfold too_long in *.
    apply Nat.leb_gt in Hlong. apply Nat.leb_gt. lia.
  - by apply Path_has_nul.
  - exists (replicate (String.length (pathlib_root path)) EmptyString
            ++ filter (fun x => x <> EmptyString /\ x <> ".") init).
    split.
    + by rewrite (split_slash_Path _ Hparts_ne), Hparts, app_assoc.
    + unfold start in *. rewrite (is_absolute_Path _ Hparts_ne), walk_app.
      destruct (is_absolute path) eqn:Habs.
      * rewrite walk_root_empties. by apply walk_filter.
      * assert (Hz : leading_slashes path = O).
        { destruct (leading_slashes path) eqn:Hk; [done|].
          rewrite leading_slashes_absolute in Habs; [done|]. by rewrite Hk. }
        unfold pathlib_root. rewrite Hz. simpl. by apply walk_filter.
Qed.

Lemma names_entry_keeps d d' path parent last :
  (forall x, is_directory d x = true -> is_directory d' x = true) ->
  cwd d' = cwd d ->
  names_entry d path parent last -> names_entry d' path parent last.
Proof.
  intros Hk Hcwd (Hne & Hlong & Hnul & Hdots & Hlen & Hdir & init & Hsplit & Hwalk).
  repeat split; try done; [by apply Hk|].
  exists init. split; [done|]. unfold start in *. rewrite Hcwd. by apply (walk_keeps d).
Qed.

Lemma names_entry_resolve d path parent last :
  names_entry d path parent last -> resolve d path = inr (parent ++ [last]).
Proof.
  intros (Hne & Hlong & Hnul & Hdots & Hlen & Hdir & init & Hsplit & Hwalk).
  unfold resolve. rewrite (bool_decide_eq_false_2 _ Hne), Hlong, Hsplit, walk_app, Hwalk.
  simpl. by rewrite enter_name.
Qed.

Lemma node_at_snoc d parent last : node_at d (parent ++ [last]) = tree d !! (parent ++ [last]).
Proof. unfold node_at. by destruct parent. Qed.

Lemma names_entry_stat d path parent last :
  names_entry d path parent last ->
  stat d path = match tree d !! (parent ++ [last]) with
                | Some n => inr n
                | None => inl ENOENT
                end.
Proof.
  intros Hn. unfold stat. by rewrite (names_entry_resolve _ _ _ _ Hn), node_at_snoc.
Qed.

Lemma names_entry_walk_to_last d path parent last :
  names_entry d path parent last ->
  walk_to_last d (start d path) (split_slash path) = inr (parent, last, false).
Proof.
  intros (Hne & Hlong & Hnul & Hdots & Hlen & Hdir & init & Hsplit & Hwalk).
  rewrite Hsplit, walk_to_last_snoc, Hwalk; [done|].
  by apply is_dots_false in Hdots as [? _].
Qed.

Lemma names_entry_creat d path parent last :
  names_entry d path parent last ->
  creat d path = match tree d !! (parent ++ [last]) with
                 | Some (Directory _) => inl EISDIR
                 | _ => inr (parent ++ [last])
                 end.
Proof.
  intros Hn. pose proof (names_entry_walk_to_last _ _ _ _ Hn) as Hw.
  destruct Hn as (Hne & Hlong & Hnul & Hdots & Hlen & Hdir & _).
  unfold creat. rewrite (bool_decide_eq_false_2 _ Hne), Hlong, Hw.
  apply is_directory_spec in Hdir as [c ->]. rewrite Hdots.
  by rewrite (proj2 (Nat.ltb_ge _ _) Hlen), node_at_snoc.
Qed.

Lemma names_entry_unlink_place d path parent last :
  names_entry d path parent last ->
  unlink_place d path = match tree d !! (parent ++ [last]) with
                        | None => inl ENOENT
                        | Some (Directory _) => inl EISDIR
                        | Some (Regular _ _) => inr (parent ++ [last])
                        end.
Proof.
  intros Hn. pose proof (names_entry_walk_to_last _ _ _ _ Hn) as Hw.
  destruct Hn as (Hne & Hlong & Hnul & Hdots & Hlen & Hdir & _).
  unfold unlink_place. rewrite (bool_decide_eq_false_2 _ Hne), Hlong, Hw.
  apply is_directory_spec in Hdir as [c ->]. rewrite Hdots.
  by rewrite (proj2 (Nat.ltb_ge _ _) Hlen), node_at_snoc.
Qed.

(** Where [open] for writing succeeds, the path names an entry. *)
Lemma creat_names_entry d path place :
  has_nul path = false -> creat d path = inr place ->
  exists parent last,
    names_entry d path parent last /\ place = parent ++ [last]
    /\ is_directory d place = false.
Proof.
  unfold creat. intros Hnul Hc.
  case_bool_decide as Hne; [done|].
  destruct (too_long path) eqn:Hlong; [done|].
  destruct (walk_to_last _ _ _) as [e|[[parent last] trailing]] eqn:Hw; [done|].
  destruct (node_at d parent) as [[c|data c]|] eqn:Hp; try done.
  destruct (is_dots last) eqn:Hdots; [done|].
  destruct trailing; [done|].
  destruct (NAME_MAX <? String.length last)%nat eqn:Hlen; [done|].
  apply Nat.ltb_ge in Hlen.
  destruct (walk_to_last_inr _ _ _ _ _ Hw) as (init & Hsplit & Hwalk).
  exists parent, last.
  assert (Hdir : is_directory d parent = true) by (unfold is_directory; by rewrite Hp).
  unfold is_directory.
  destruct (node_at d (parent ++ [last])) as [[c'|data c']|] eqn:Hk;
    [done| |]; injection Hc as <-; rewrite ?Hk;
    (split; [|done]); repeat split; eauto.
Qed.

(** A name under a directory that the root path reaches. *)
Lemma is_absolute_app a b : a <> EmptyString -> is_absolute (a +:+ b) = is_absolute a.
Proof. by destruct a. Qed.

Lemma names_entry_ordinary d root name parent :
  has_nul root = false ->
  walk d (start d (root +:+ "/")) (split_slash root) = inr parent ->
  is_directory d parent = true ->
  ordinary_name name = true ->
  (String.length (root +:+ "/" +:+ name) < PATH_MAX)%nat ->
  names_entry d (root +:+ "/" +:+ name) parent name.
Proof.
  intros Hnul Hwalk Hdir Hord Hlen. unfold ordinary_name in Hord.
  apply andb_true_iff in Hord as [Hord Hname].
  apply andb_true_iff in Hord as [Hord Hdots].
  apply andb_true_iff in Hord as [Hslash Hnn].
  apply negb_true_iff in Hslash, Hnn, Hdots. apply Nat.leb_le in Hname.
  repeat split; try done.
  - by destruct root.
  - unfold too_long. by apply Nat.leb_gt.
  - unfold has_nul in *. rewrite !has_char_app, Hnul, Hnn. done.
  - exists (split_slash root). split.
    + by rewrite split_slash_app, (split_slash_plain _ Hslash).
    + unfold start in *.
      replace (is_absolute (root +:+ "/" +:+ name)) with (is_absolute (root +:+ "/")); [done|].
      by destruct root.
Qed.

End WalkFacts.

(** ** The document store over the file system of the operating system *)

Module DocumentStoreFacts.

Import Json Path Posix DocumentStore JsonFacts EqFacts PathFacts PosixFacts WalkFacts.

#[local] Arguments String.append : simpl nomatch.

(** *** What the system calls leave *)

Lemma removelast_snoc (place : list string) (c : string) : removelast (place ++ [c]) = place.
Proof. apply removelast_last. Qed.

Lemma put_put place a b d : put place a (put place b d) = put place a d.
Proof. unfold put, set_tree. simpl. by rewrite insert_insert_eq. Qed.

Lemma put_keeps place a d x :
  is_directory d place = false ->
  is_directory d x = true -> is_directory (put place a d) x = true.
Proof.
  unfold is_directory, node_at, put. simpl. intros Hp Hx.
  destruct x as [|c x]; [done|].
  destruct (decide (place = c :: x)) as [->|Hne].
  - by rewrite Hp in Hx.
  - by rewrite lookup_insert_ne.
Qed.

Lemma touch_keeps place d x :
  is_directory d x = true -> is_directory (touch place d) x = true.
Proof.
  unfold is_directory, node_at, touch. intros Hx.
  destruct x as [|c' x]; [by destruct place|].
  destruct place as [|c place]; simpl; [done|].
  destruct (decide (c :: place = c' :: x)) as [->|Hne].
  - by rewrite lookup_insert_eq.
  - by rewrite lookup_insert_ne.
Qed.

Lemma remove_keeps place d x :
  is_directory d place = false ->
  is_directory d x = true ->
  is_directory (set_tree (delete place (tree d)) d) x = true.
Proof.
  unfold is_directory, node_at, set_tree. simpl. intros Hp Hx.
  destruct x as [|c x]; [done|].
  destruct (decide (place = c :: x)) as [->|Hne].
  - by rewrite Hp in Hx.
  - by rewrite lookup_delete_ne.
Qed.

Lemma cwd_touch place d : cwd (touch place d) = cwd d.
Proof. by destruct place. Qed.

Lemma clock_touch place d : clock (touch place d) = clock d.
Proof. by destruct place. Qed.

Lemma tree_touch_snoc parent last d :
  tree (touch parent d) !! (parent ++ [last]) = tree d !! (parent ++ [last]).
Proof.
  destruct parent as [|c parent]; [done|]. simpl.
  apply lookup_insert_ne. intros Heq.
  apply (f_equal length) in Heq. simpl in Heq. rewrite length_app in Heq. simpl in Heq. lia.
Qed.

Lemma is_directory_snoc d parent last :
  is_directory d (parent ++ [last])
  = match tree d !! (parent ++ [last]) with Some (Directory _) => true | _ => false end.
Proof. unfold is_directory. by rewrite node_at_snoc. Qed.

Section facts.

Variable EnvironmentVars : gmap string string.
Variable json_document : string -> option json.

Ltac io_unfold :=
  unfold mbind, io_bind, mret, io_ret, bind, ret, raise, try_except.

Lemma getattr_recognised t root (d : disk) :
  EnvironmentVars !! t = Some root -> getattr EnvironmentVars t d = (Return root, d).
Proof. intros H. unfold getattr. by rewrite H. Qed.

(** The world [open(path, "w")] starts from: a new entry sets the times of
    its directory. *)
Abbreviation opened parent last d :=
  (match tree d !! (parent ++ [last]) with
   | None => touch parent d
   | Some _ => d
   end).

Lemma opened_keeps parent last d x :
  is_directory d x = true -> is_directory (opened parent last d) x = true.
Proof. intros Hx. destruct (tree d !! _); [done|]. by apply touch_keeps. Qed.

Lemma opened_cwd parent last d : cwd (opened parent last d) = cwd d.
Proof. destruct (tree d !! _); [done|]. apply cwd_touch. Qed.

Lemma opened_entry parent last d :
  tree (opened parent last d) !! (parent ++ [last]) = tree d !! (parent ++ [last]).
Proof. destruct (tree d !! _) eqn:H; [done|]. by rewrite tree_touch_snoc. Qed.

(** *** The operations on a path that names an entry *)

Lemma create_object_entry t root id ext (m : value) d parent last :
  EnvironmentVars !! t = Some root ->
  names_entry d (filepath root id ext) parent last ->
  is_directory d (parent ++ [last]) = false ->
  create_object EnvironmentVars t id m ext d
  = (Return (), put (parent ++ [last]) (Dumped (dump m)) (opened parent last d)).
Proof.
  intros Ht Hn Hd. unfold create_object. io_unfold. rewrite (getattr_recognised _ _ _ Ht).
  fold (filepath root id ext). unfold open_w.
  pose proof Hn as (_ & _ & -> & _). rewrite (names_entry_creat _ _ _ _ Hn).
  rewrite is_directory_snoc in Hd. unfold json_dump.
  destruct (tree d !! (parent ++ [last])) as [[c|data c]|] eqn:Hk; [done| |];
    rewrite node_at_snoc, Hk, ?removelast_snoc; by rewrite put_put.
Qed.

Lemma create_object_inv t root id ext (m : value) d d1 :
  EnvironmentVars !! t = Some root ->
  create_object EnvironmentVars t id m ext d = (Return (), d1) ->
  exists parent last,
    names_entry d (filepath root id ext) parent last
    /\ is_directory d (parent ++ [last]) = false
    /\ d1 = put (parent ++ [last]) (Dumped (dump m)) (opened parent last d).
Proof.
  intros Ht Hrun. assert (Hrun' := Hrun). revert Hrun'.
  unfold create_object. io_unfold. rewrite (getattr_recognised _ _ _ Ht).
  fold (filepath root id ext). unfold open_w.
  destruct (has_nul (filepath root id ext)) eqn:Hnul; [done|].
  destruct (creat d (filepath root id ext)) as [e|place] eqn:Hc; [done|].
  intros _. destruct (creat_names_entry _ _ _ Hnul Hc) as (parent & last & Hn & -> & Hd).
  exists parent, last. split; [done|]. split; [done|].
  rewrite (create_object_entry _ _ _ _ _ _ _ _ Ht Hn Hd) in Hrun. by injection Hrun.
Qed.

(** The path still names the entry after the object is written. *)
Lemma names_entry_written path parent last doc d :
  names_entry d path parent last ->
  is_directory d (parent ++ [last]) = false ->
  names_entry (put (parent ++ [last]) doc (opened parent last d)) path parent last.
Proof.
  intros Hn Hd. apply (names_entry_keeps d); [| |done].
  - intros x Hx. apply put_keeps; [|by apply opened_keeps].
    rewrite is_directory_snoc, opened_entry, <- is_directory_snoc. done.
  - unfold put. simpl. apply opened_cwd.
Qed.

Lemma written_entry parent last data d :
  tree (put (parent ++ [last]) data (opened parent last d)) !! (parent ++ [last])
  = Some (Regular data (clock d)).
Proof.
  unfold put. simpl. rewrite lookup_insert_eq. do 2 f_equal.
  destruct (tree d !! _); [done|]. apply clock_touch.
Qed.

Lemma read_object_entry t root id ext d parent last :
  EnvironmentVars !! t = Some root ->
  names_entry d (filepath root id ext) parent last ->
  read_object EnvironmentVars json_document t id ext d
  = match tree d !! (parent ++ [last]) with
    | None => (Raise (FileNotFoundError (filepath root id ext)), d)
    | Some (Directory _) => (Raise (IsADirectoryError (filepath root id ext)), d)
    | Some (Regular data _) =>
        match json_load json_document data d with
        | (Return obj_info, d') => (Return obj_info, d')
        | (Raise e, d') => (Raise e, d')
        end
    end.
Proof.
  intros Ht Hn. unfold read_object. io_unfold. rewrite (getattr_recognised _ _ _ Ht).
  fold (filepath root id ext). unfold open_r.
  pose proof Hn as (_ & _ & -> & _). rewrite (names_entry_stat _ _ _ _ Hn).
  by destruct (tree d !! (parent ++ [last])) as [[c|data c]|].
Qed.

Lemma is_object_exists_entry t root id ext d parent last :
  EnvironmentVars !! t = Some root ->
  names_entry d (filepath root id ext) parent last ->
  is_object_exists EnvironmentVars t id ext d
  = (Return (bool_decide (is_Some (tree d !! (parent ++ [last])))), d).
Proof.
  intros Ht Hn. unfold is_object_exists. io_unfold. rewrite (getattr_recognised _ _ _ Ht).
  fold (filepath root id ext). unfold path_exists.
  apply names_entry_Path in Hn.
  pose proof Hn as (_ & _ & -> & _). rewrite (names_entry_stat _ _ _ _ Hn).
  destruct (tree d !! (parent ++ [last])) as [n|].
  - rewrite bool_decide_eq_true_2; [done|by eexists].
  - rewrite bool_decide_eq_false_2; [done|]. by intros [? ?].
Qed.

Lemma delete_object_entry t root id ext d parent last :
  EnvironmentVars !! t = Some root ->
  names_entry d (filepath root id ext) parent last ->
  delete_object EnvironmentVars t id ext d
  = match tree d !! (parent ++ [last]) with
    | None => (Raise (RuntimeError ("No " +:+ t +:+ " found with ID: " +:+ id)), d)
    | Some (Directory _) => (Raise (IsADirectoryError (Path (filepath root id ext))), d)
    | Some (Regular _ _) =>
        (Return (), touch parent (set_tree (delete (parent ++ [last]) (tree d)) d))
    end.
Proof.
  intros Ht Hn. unfold delete_object. io_unfold. rewrite (getattr_recognised _ _ _ Ht).
  fold (filepath root id ext). unfold path_exists, path_unlink.
  apply names_entry_Path in Hn.
  pose proof Hn as (_ & _ & -> & _).
  rewrite (names_entry_stat _ _ _ _ Hn).
  pose proof (names_entry_unlink_place _ _ _ _ Hn) as Hu.
  destruct (tree d !! (parent ++ [last])) as [[c|data c]|]; simpl; rewrite ?Hu; try done.
  by rewrite removelast_snoc.
Qed.

Lemma get_creation_datetime_entry {datetime} (fromtimestamp : Z -> datetime)
    t root id ext d parent last :
  EnvironmentVars !! t = Some root ->
  names_entry d (filepath root id ext) parent last ->
  get_creation_datetime EnvironmentVars datetime fromtimestamp t id ext d
  = match tree d !! (parent ++ [last]) with
    | None => (Raise (FileNotFoundError (filepath root id ext)), d)
    | Some n => (Return (fromtimestamp (node_ctime n)), d)
    end.
Proof.
  intros Ht Hn. unfold get_creation_datetime. io_unfold.
  rewrite (getattr_recognised _ _ _ Ht).
  fold (filepath root id ext). unfold getctime.
  pose proof Hn as (_ & _ & -> & _). rewrite (names_entry_stat _ _ _ _ Hn).
  by destruct (tree d !! (parent ++ [last])).
Qed.

(** The path still names the entry after the file is removed. *)
Lemma names_entry_removed path parent last d :
  names_entry d path parent last ->
  is_directory d (parent ++ [last]) = false ->
  names_entry (touch parent (set_tree (delete (parent ++ [last]) (tree d)) d))
    path parent last.
Proof.
  intros Hn Hd. apply (names_entry_keeps d); [| |done].
  - intros x Hx. apply touch_keeps. by apply remove_keeps.
  - by rewrite cwd_touch.
Qed.

Lemma removed_entry parent last d :
  tree (touch parent (set_tree (delete (parent ++ [last]) (tree d)) d)) !! (parent ++ [last])
  = None.
Proof. rewrite tree_touch_snoc. simpl. apply lookup_delete_eq. Qed.

(** The objects of a type whose root resolves to a directory, under an
    ordinary name. *)
Lemma names_entry_object d root id ext parent :
  has_nul root = false ->
  walk d (start d (root +:+ "/")) (split_slash root) = inr parent ->
  is_directory d parent = true ->
  ordinary_name (id +:+ "." +:+ ext) = true ->
  (String.length (filepath root id ext) < PATH_MAX)%nat ->
  names_entry d (filepath root id ext) parent (id +:+ "." +:+ ext).
Proof. intros. by apply names_entry_ordinary. Qed.


(** When [create] returns: the root is an existing directory and the id
    and extension make an ordinary name that is not the name of a
    directory. *)
Lemma create_object_returns t root id ext (m : value) d parent :
  EnvironmentVars !! t = Some root ->
  has_nul root = false ->
  walk d (start d (root +:+ "/")) (split_slash root) = inr parent ->
  is_directory d parent = true ->
  ordinary_name (id +:+ "." +:+ ext) = true ->
  (String.length (filepath root id ext) < PATH_MAX)%nat ->
  is_directory d (parent ++ [id +:+ "." +:+ ext]) = false ->
  returns (create_object EnvironmentVars t id m ext d).1 = true.
Proof.
  intros Ht Hnul Hw Hd Hord Hlen Hk.
  pose proof (names_entry_object _ _ _ _ _ Hnul Hw Hd Hord Hlen) as Hn.
  by rewrite (create_object_entry _ _ _ _ _ _ _ _ Ht Hn Hk).
Qed.

(** *** Document store *)

(** C1 (amended): for a recognised type, an id and an extension for which
    [create(m)] returns, and a mapping [m] made of JSON's own forms (None,
    booleans, integers, floats, strings, lists, dictionaries keyed by
    distinct strings; no tuple), [read()] then returns [m], which Python's
    [==] finds equal to [m] when no NaN occurs in it; a [create(m0)] before
    it is overwritten in full, the world being the one that [create(m)]
    alone leaves; whatever the value written, [read()] returns what
    [json.load] makes of its dump; and [create] returns on every world
    where the root resolves to a directory and the id and extension make an
    ordinary name that is not the name of a directory. *)
Theorem create_then_read_back t root id ext (m0 m : value) (d d1 : disk) :
  EnvironmentVars !! t = Some root ->
  json_native m = true ->
  create_object EnvironmentVars t id m ext d = (Return (), d1) ->
  read_object EnvironmentVars json_document t id ext d1 = (Return m, d1)
  /\ (nan_free m = true -> py_eq m m = true)
  /\ (create_object EnvironmentVars t id m0 ext;;
      create_object EnvironmentVars t id m ext;;
      read_object EnvironmentVars json_document t id ext) d = (Return m, d1)
  /\ (forall (v : value) (d' : disk),
        create_object EnvironmentVars t id v ext d = (Return (), d') ->
        read_object EnvironmentVars json_document t id ext d' = (Return (reload v), d'))
  /\ (forall (d0 : disk) parent,
        has_nul root = false ->
        walk d0 (start d0 (root +:+ "/")) (split_slash root) = inr parent ->
        is_directory d0 parent = true ->
        ordinary_name (id +:+ "." +:+ ext) = true ->
        (String.length (filepath root id ext) < PATH_MAX)%nat ->
        is_directory d0 (parent ++ [id +:+ "." +:+ ext]) = false ->
        returns (create_object EnvironmentVars t id m ext d0).1 = true).
Proof.
  intros Ht Hm Hrun.
  assert (Hread : forall (v : value) (d' : disk),
            create_object EnvironmentVars t id v ext d = (Return (), d') ->
            read_object EnvironmentVars json_document t id ext d' = (Return (reload v), d')).
  { intros v d' Hv.
    destruct (create_object_inv _ _ _ _ _ _ _ Ht Hv) as (parent & last & Hn & Hd & ->).
    rewrite (read_object_entry _ _ _ _ _ _ _ Ht (names_entry_written _ _ _ _ _ Hn Hd)).
    by rewrite written_entry. }
  split; [|split; [|split; [|split]]].
  - rewrite (Hread _ _ Hrun). by rewrite (reload_native _ Hm).
  - by apply py_eq_refl.
  - destruct (create_object_inv _ _ _ _ _ _ _ Ht Hrun) as (parent & last & Hn & Hd & Hd1).
    io_unfold. rewrite (create_object_entry _ _ _ _ m0 _ _ _ Ht Hn Hd).
    pose proof (names_entry_written _ _ _ (Dumped (dump m0)) _ Hn Hd) as Hn0.
    assert (Hd0 : is_directory (put (parent ++ [last]) (Dumped (dump m0)) (opened parent last d))
                    (parent ++ [last]) = false).
    { by rewrite is_directory_snoc, written_entry. }
    rewrite (create_object_entry _ _ _ _ m _ _ _ Ht Hn0 Hd0).
    rewrite written_entry, put_put, <- Hd1.
    rewrite (Hread _ _ Hrun). by rewrite (reload_native _ Hm).
  - exact Hread.
  - intros d0 parent. by apply create_object_returns.
Qed.

(** C2 (amended): on a recognised type whose root resolves to a directory,
    and for an id and an extension that make an ordinary name of which the
    directory has no entry, [read()] raises [FileNotFoundError], [delete()]
    raises a [RuntimeError] whose message differs from those of the
    accessor guards, and [creationTime()] raises the [FileNotFoundError] of
    the operating system, each leaving the world as it was.  A file there
    whose bytes are not UTF-8 makes [read()] raise [UnicodeDecodeError], and
    one whose text is not a JSON document, [JSONDecodeError].  For any id
    and extension, [read()] and [creationTime()] raise the error of the
    class of what [stat] answers, and [delete()] raises the [RuntimeError]
    where [stat] of the normalised path answers that an entry or a
    directory on the way is missing. *)
Theorem absent_or_undecodable_fails {datetime} (fromtimestamp : Z -> datetime)
    t root id ext (d : disk) parent :
  EnvironmentVars !! t = Some root ->
  has_nul root = false ->
  walk d (start d (root +:+ "/")) (split_slash root) = inr parent ->
  is_directory d parent = true ->
  ordinary_name (id +:+ "." +:+ ext) = true ->
  (String.length (filepath root id ext) < PATH_MAX)%nat ->
  tree d !! (parent ++ [id +:+ "." +:+ ext]) = None ->
  read_object EnvironmentVars json_document t id ext d
    = (Raise (FileNotFoundError (filepath root id ext)), d)
  /\ delete_object EnvironmentVars t id ext d
     = (Raise (RuntimeError ("No " +:+ t +:+ " found with ID: " +:+ id)), d)
  /\ "No " +:+ t +:+ " found with ID: " +:+ id <> "db instance is not initialised."
  /\ "No " +:+ t +:+ " found with ID: " +:+ id <> "Database instance is not initialised."
  /\ get_creation_datetime EnvironmentVars datetime fromtimestamp t id ext d
     = (Raise (FileNotFoundError (filepath root id ext)), d)
  /\ (forall (raw : string) (ctime : Z),
        let d' := set_tree (<[parent ++ [id +:+ "." +:+ ext] := Regular (Bytes raw) ctime]>
                              (tree d)) d in
        read_object EnvironmentVars json_document t id ext d'
        = (if is_utf8 raw
           then match json_document raw with
                | Some doc => Return (load doc)
                | None => Raise (JSONDecodeError raw)
                end
           else Raise (UnicodeDecodeError raw), d'))
  /\ (forall id' ext' (d' : disk) (e : errno),
        has_nul (filepath root id' ext') = false ->
        stat d' (filepath root id' ext') = inl e ->
        read_object EnvironmentVars json_document t id' ext' d'
          = (Raise (os_error e (filepath root id' ext')), d')
        /\ get_creation_datetime EnvironmentVars datetime fromtimestamp t id' ext' d'
           = (Raise (os_error e (filepath root id' ext')), d'))
  /\ (forall id' ext' (d' : disk),
        has_nul (Path (filepath root id' ext')) = true
        \/ stat d' (Path (filepath root id' ext')) = inl ENOENT
        \/ stat d' (Path (filepath root id' ext')) = inl ENOTDIR ->
        delete_object EnvironmentVars t id' ext' d'
        = (Raise (RuntimeError ("No " +:+ t +:+ " found with ID: " +:+ id')), d')).
Proof.
  intros Ht Hnul Hw Hd Hord Hlen Hk.
  pose proof (names_entry_object _ _ _ _ _ Hnul Hw Hd Hord Hlen) as Hn.
  rewrite (read_object_entry _ _ _ _ _ _ _ Ht Hn), (delete_object_entry _ _ _ _ _ _ _ Ht Hn),
    (get_creation_datetime_entry _ _ _ _ _ _ _ _ Ht Hn), Hk.
  do 5 (split; [done|]). split; [|split].
  - intros raw ctime d'.
    assert (Hn' : names_entry d' (filepath root id ext) parent (id +:+ "." +:+ ext)).
    { apply (names_entry_keeps d); [|done|done].
      intros x Hx. unfold d', is_directory, node_at, set_tree in *. simpl.
      destruct x as [|c x]; [done|].
      destruct (decide (parent ++ [id +:+ "." +:+ ext] = c :: x)) as [Heq|Hne].
      - rewrite <- Heq in Hx. by rewrite Hk in Hx.
      - by rewrite lookup_insert_ne. }
    rewrite (read_object_entry _ _ _ _ _ _ _ Ht Hn'). unfold d' at 1. simpl.
    rewrite lookup_insert_eq. unfold json_load.
    destruct (is_utf8 raw); [|done]. by destruct (json_document raw).
  - intros id' ext' d' e Hnul' Hs.
    unfold read_object, get_creation_datetime. io_unfold.
    rewrite (getattr_recognised _ _ _ Ht). fold (filepath root id' ext').
    unfold open_r, getctime. by rewrite Hnul', Hs.
  - intros id' ext' d' Hcase.
    unfold delete_object. io_unfold.
    rewrite (getattr_recognised _ _ _ Ht). fold (filepath root id' ext').
    unfold path_exists.
    destruct (has_nul (Path (filepath root id' ext'))); [done|].
    by destruct Hcase as [?|[-> | ->]].
Qed.

Ltac settle :=
  simpl; try done; split; intros;
  repeat match goal with
         | H : _ /\ _ |- _ => destruct H
         | H : _ \/ _ |- _ => destruct H
         | H : exists _, _ |- _ => destruct H
         end;
  try done; eauto.

(** C4 (amended): on a recognised type [exists()] never changes the world.
    It returns true exactly when [stat] of the normalised path finds a file
    or a directory, false exactly when [stat] answers that the entry or a
    directory on the way is missing (or the path holds a NUL byte), and it
    raises, [OSError] of errno 36, exactly when a name on the path is
    longer than the system allows; nothing else happens.  Where the root
    resolves to a directory and the id and extension make an ordinary name,
    it returns whether the directory has an entry of that name. *)
Theorem exists_follows_stat t root id ext (d : disk) :
  EnvironmentVars !! t = Some root ->
  let p := Path (filepath root id ext) in
  (is_object_exists EnvironmentVars t id ext d).2 = d
  /\ ((is_object_exists EnvironmentVars t id ext d).1 = Return true
      <-> has_nul p = false /\ exists n, stat d p = inr n)
  /\ ((is_object_exists EnvironmentVars t id ext d).1 = Return false
      <-> has_nul p = true \/ stat d p = inl ENOENT \/ stat d p = inl ENOTDIR)
  /\ ((is_object_exists EnvironmentVars t id ext d).1 = Raise (OSError 36 p)
      <-> has_nul p = false /\ stat d p = inl ENAMETOOLONG)
  /\ (returns (is_object_exists EnvironmentVars t id ext d).1 = false ->
      (is_object_exists EnvironmentVars t id ext d).1 = Raise (OSError 36 p))
  /\ (forall parent,
        has_nul root = false ->
        walk d (start d (root +:+ "/")) (split_slash root) = inr parent ->
        is_directory d parent = true ->
        ordinary_name (id +:+ "." +:+ ext) = true ->
        (String.length (filepath root id ext) < PATH_MAX)%nat ->
        is_object_exists EnvironmentVars t id ext d
        = (Return (bool_decide (is_Some (tree d !! (parent ++ [id +:+ "." +:+ ext])))), d)).
Proof.
  intros Ht p. split; [|split; [|split; [|split; [|split]]]].
  6: { intros parent Hnul Hw Hd Hord Hlen.
       apply (is_object_exists_entry t root id ext d parent _ Ht).
       by apply names_entry_object. }
  all: unfold is_object_exists; io_unfold; rewrite (getattr_recognised _ _ _ Ht);
    fold (filepath root id ext); fold p; unfold path_exists;
    destruct (has_nul p); simpl; [settle|];
    destruct (stat d p) as [e|n] eqn:Hs; [|settle];
    destruct (stat_errno _ _ _ Hs) as [-> | [-> | ->]]; simpl; settle.
Qed.


End facts.

End DocumentStoreFacts.

(** ** More about the document store *)

Module DocumentStoreMore.

Import Json Path Posix DocumentStore JsonFacts PathFacts PosixFacts WalkFacts DocumentStoreFacts.

Section more.

Variable EnvironmentVars : gmap string string.
Variable json_document : string -> option json.

Ltac io_unfold :=
  unfold mbind, io_bind, mret, io_ret, bind, ret, raise, try_except.

(** X2: an object is its path and nothing more: when [id1.ext1] and
    [id2.ext2] are the same text, what a [create] that returns stored under
    one pair is read under the other, and deleting it under the other
    removes it. *)
Theorem same_file_name_same_object t root id1 ext1 id2 ext2 (m : value) (d d1 : disk) :
  EnvironmentVars !! t = Some root ->
  id1 +:+ "." +:+ ext1 = id2 +:+ "." +:+ ext2 ->
  create_object EnvironmentVars t id1 m ext1 d = (Return (), d1) ->
  read_object EnvironmentVars json_document t id2 ext2 d1 = (Return (reload m), d1)
  /\ exists d2 : disk,
       delete_object EnvironmentVars t id2 ext2 d1 = (Return (), d2)
       /\ is_object_exists EnvironmentVars t id1 ext1 d2 = (Return false, d2).
Proof.
  intros Ht Hname Hrun.
  assert (Hp : filepath root id1 ext1 = filepath root id2 ext2).
  { unfold filepath. by rewrite Hname. }
  destruct (create_object_inv _ _ _ _ _ _ _ _ Ht Hrun) as (parent & last & Hn & Hd & Hd1).
  pose proof (names_entry_written _ _ _ (Dumped (dump m)) _ Hn Hd) as Hn1.
  rewrite <- Hd1 in Hn1.
  assert (Hk1 : tree d1 !! (parent ++ [last]) = Some (Regular (Dumped (dump m)) (clock d))).
  { rewrite Hd1. apply written_entry. }
  assert (Hdir1 : is_directory d1 (parent ++ [last]) = false).
  { by rewrite is_directory_snoc, Hk1. }
  pose proof (names_entry_removed _ _ _ _ Hn1 Hdir1) as Hn2.
  assert (Hn1' := Hn1). rewrite Hp in Hn1'.
  split.
  - by rewrite (read_object_entry _ _ _ _ _ _ _ _ _ Ht Hn1'), Hk1.
  - eexists. split.
    + rewrite (delete_object_entry _ _ _ _ _ _ _ _ Ht Hn1'), Hk1. reflexivity.
    + rewrite (is_object_exists_entry _ _ _ _ _ _ _ _ Ht Hn2), removed_entry.
      rewrite bool_decide_eq_false_2; [done|]. by intros [? ?].
Qed.

(** X3: where the root resolves to a directory and the id and extension
    make an ordinary name that is not the name of a directory, [exists()]
    tells how the other operations on the object end: the creation time is
    returned and [delete()] returns exactly when it is true, and [read()]
    raises [FileNotFoundError] exactly when it is false. *)
Theorem exists_decides_the_others {datetime} (fromtimestamp : Z -> datetime)
    t root id ext (d : disk) parent :
  EnvironmentVars !! t = Some root ->
  has_nul root = false ->
  walk d (start d (root +:+ "/")) (split_slash root) = inr parent ->
  is_directory d parent = true ->
  ordinary_name (id +:+ "." +:+ ext) = true ->
  (String.length (filepath root id ext) < PATH_MAX)%nat ->
  is_directory d (parent ++ [id +:+ "." +:+ ext]) = false ->
  exists b : bool,
    is_object_exists EnvironmentVars t id ext d = (Return b, d)
    /\ returns (get_creation_datetime EnvironmentVars datetime fromtimestamp t id ext d).1 = b
    /\ returns (delete_object EnvironmentVars t id ext d).1 = b
    /\ (b = false
        <-> (read_object EnvironmentVars json_document t id ext d).1
            = Raise (FileNotFoundError (filepath root id ext))).
Proof.
  intros Ht Hnul Hw Hd Hord Hlen Hk.
  pose proof (names_entry_object _ _ _ _ _ Hnul Hw Hd Hord Hlen) as Hn.
  eexists. split; [apply (is_object_exists_entry _ _ _ _ _ _ _ _ Ht Hn)|].
  rewrite (get_creation_datetime_entry _ _ _ _ _ _ _ _ _ Ht Hn),
    (delete_object_entry _ _ _ _ _ _ _ _ Ht Hn),
    (read_object_entry _ _ _ _ _ _ _ _ _ Ht Hn).
  rewrite is_directory_snoc in Hk.
  destruct (tree d !! (parent ++ [id +:+ "." +:+ ext])) as [[c|data c]|]; [done| |].
  - rewrite bool_decide_eq_true_2 by (by eexists). simpl. repeat split; try done.
    unfold json_load. destruct data as [doc|raw]; simpl; [done|].
    destruct (is_utf8 raw); [|done]. by destruct (json_document raw).
  - rewrite bool_decide_eq_false_2 by (by intros [? ?]). simpl. repeat split; done.
Qed.

(** X4: where the root resolves to a directory and the id and extension
    make an ordinary name that is not the name of a directory, deleting an
    object twice in a row never returns: the sequence ends with the
    [RuntimeError] of a missing object, and the directory has no entry of
    that name afterwards. *)
Theorem delete_twice_raises t root id ext (d : disk) parent :
  EnvironmentVars !! t = Some root ->
  has_nul root = false ->
  walk d (start d (root +:+ "/")) (split_slash root) = inr parent ->
  is_directory d parent = true ->
  ordinary_name (id +:+ "." +:+ ext) = true ->
  (String.length (filepath root id ext) < PATH_MAX)%nat ->
  is_directory d (parent ++ [id +:+ "." +:+ ext]) = false ->
  exists d' : disk,
    (delete_object EnvironmentVars t id ext;;
     delete_object EnvironmentVars t id ext) d
    = (Raise (RuntimeError ("No " +:+ t +:+ " found with ID: " +:+ id)), d')
    /\ tree d' !! (parent ++ [id +:+ "." +:+ ext]) = None
    /\ is_object_exists EnvironmentVars t id ext d' = (Return false, d').
Proof.
  intros Ht Hnul Hw Hd Hord Hlen Hk.
  pose proof (names_entry_object _ _ _ _ _ Hnul Hw Hd Hord Hlen) as Hn.
  pose proof (names_entry_removed _ _ _ _ Hn Hk) as Hn2.
  io_unfold. rewrite (delete_object_entry _ _ _ _ _ _ _ _ Ht Hn).
  rewrite is_directory_snoc in Hk.
  destruct (tree d !! (parent ++ [id +:+ "." +:+ ext])) as [[c|data c]|] eqn:Hentry; [done| |].
  - rewrite (delete_object_entry _ _ _ _ _ _ _ _ Ht Hn2), removed_entry.
    eexists. split; [done|]. split; [apply removed_entry|].
    rewrite (is_object_exists_entry _ _ _ _ _ _ _ _ Ht Hn2), removed_entry.
    rewrite bool_decide_eq_false_2; [done|]. by intros [? ?].
  - exists d. split; [done|]. split; [done|].
    rewrite (is_object_exists_entry _ _ _ _ _ _ _ _ Ht Hn), Hentry.
    rewrite bool_decide_eq_false_2; [done|]. by intros [? ?].
Qed.

End more.

End DocumentStoreMore.

(** ** Runs of the document store in the served directory *)

Module StoreRuns.

Import Json Path Posix DocumentStore Scenario3.

(** The scenario of the specification. *)
Example served_recipe_lifecycle :
  ((create_object environment "recipe" "r1" r1 "json";;
    read_object environment json_document "recipe" "r1" "json") served).1 = Return r1
  /\ ((create_object environment "recipe" "r1" r1 "json";;
       is_object_exists environment "recipe" "r1" "json") served).1 = Return true
  /\ ((create_object environment "recipe" "r1" r1 "json";;
       delete_object environment "recipe" "r1" "json";;
       is_object_exists environment "recipe" "r1" "json") served).1 = Return false
  /\ (create_object environment "recipe" "sub/x" r1 "json" served).1
     = Raise (FileNotFoundError "data/recipes/sub/x.json").
Proof. vm_compute. done. Qed.

Lemma create_then_read_back_witness :
  environment !! "recipe" = Some "data/recipes"
  /\ json_native r1 = true
  /\ returns (create_object environment "recipe" "r1" r1 "json" served).1 = true
  /\ read_object environment json_document "recipe" "r1" "json"
       (create_object environment "recipe" "r1" r1 "json" served).2
     = (Return r1, (create_object environment "recipe" "r1" r1 "json" served).2).
Proof.
  split; [reflexivity|]. split; [reflexivity|]. split; [reflexivity|].
  apply (DocumentStoreFacts.create_then_read_back environment json_document
           "recipe" "data/recipes" "r1" "json" with_tuple r1 served _
           eq_refl eq_refl).
  vm_compute. reflexivity.
Defined.

(** C1, as stated, fails: a mapping with a tuple is JSON-serializable, and
    what is read back holds a list, which Python's [==] tells from the
    tuple. *)
Lemma roundtrip_fails_on_tuple :
  exists (r : value) (d1 : disk),
    create_object environment "recipe" "r1" with_tuple "json" served = (Return (), d1)
    /\ read_object environment json_document "recipe" "r1" "json" d1 = (Return r, d1)
    /\ r = PDict [(KStr "name", PList [PInt 1; PInt 2])]
    /\ py_eq r with_tuple = false.
Proof.
  do 2 eexists. split; [vm_compute; reflexivity|].
  split; [vm_compute; reflexivity|]. split; reflexivity.
Qed.

Lemma absent_or_undecodable_fails_witness :
  environment !! "recipe" = Some "data/recipes"
  /\ has_nul "data/recipes" = false
  /\ walk served (start served "data/recipes/") (split_slash "data/recipes") = inr recipes
  /\ is_directory served recipes = true
  /\ ordinary_name "r1.json" = true
  /\ (String.length (filepath "data/recipes" "r1" "json") < PATH_MAX)%nat
  /\ tree served !! (recipes ++ ["r1.json"]) = None
  /\ read_object environment json_document "recipe" "r1" "json" served
     = (Raise (FileNotFoundError "data/recipes/r1.json"), served)
  /\ delete_object environment "recipe" "r1" "json" served
     = (Raise (RuntimeError "No recipe found with ID: r1"), served)
  /\ get_creation_datetime environment Z (fun z : Z => z) "recipe" "r1" "json" served
     = (Raise (FileNotFoundError "data/recipes/r1.json"), served).
Proof.
  assert (Hlen : (String.length (filepath "data/recipes" "r1" "json") < PATH_MAX)%nat).
  { apply Nat.ltb_lt. vm_compute. reflexivity. }
  do 5 (split; [reflexivity|]). split; [exact Hlen|]. split; [reflexivity|].
  destruct (DocumentStoreFacts.absent_or_undecodable_fails environment json_document
              (fun z : Z => z) "recipe" "data/recipes" "r1" "json" served recipes
              eq_refl eq_refl eq_refl eq_refl eq_refl Hlen eq_refl)
    as (H1 & H2 & _ & _ & H3 & _).
  split; [exact H1|]. split; [exact H2|exact H3].
Defined.

(** C2, as stated, fails.  With a regular file [r1.json] in the directory,
    the object of id [r1.json/x] does not exist, and [read()] and
    [creationTime()] raise [NotADirectoryError], which is no
    [FileNotFoundError]; the path of id [r1] and extension [json/] cannot be
    read, and yet [delete()] returns and removes [r1.json]; and a file whose
    bytes are not text makes [read()] raise [UnicodeDecodeError]. *)
Lemma absent_is_not_always_not_found :
  let d := served_with "r1.json" (Dumped (JObject [])) in
  is_object_exists environment "recipe" "r1.json/x" "json" d = (Return false, d)
  /\ read_object environment json_document "recipe" "r1.json/x" "json" d
     = (Raise (NotADirectoryError "data/recipes/r1.json/x.json"), d)
  /\ get_creation_datetime environment Z (fun z : Z => z) "recipe" "r1.json/x" "json" d
     = (Raise (NotADirectoryError "data/recipes/r1.json/x.json"), d)
  /\ read_object environment json_document "recipe" "r1" "json/" d
     = (Raise (NotADirectoryError "data/recipes/r1.json/"), d)
  /\ (exists d', delete_object environment "recipe" "r1" "json/" d = (Return (), d')
                 /\ tree d' !! (recipes ++ ["r1.json"]) = None)
  /\ (let d := served_with "r1.json" (Bytes (String "255" EmptyString)) in
      read_object environment json_document "recipe" "r1" "json" d
      = (Raise (UnicodeDecodeError (String "255" EmptyString)), d)).
Proof.
  repeat split; try (vm_compute; reflexivity).
  eexists. split; vm_compute; reflexivity.
Qed.

Lemma exists_follows_stat_witness :
  environment !! "recipe" = Some "data/recipes"
  /\ (is_object_exists environment "recipe" "r1" "json" served).2 = served
  /\ ((is_object_exists environment "recipe" "r1" "json" served).1 = Return false
      <-> has_nul (Path (filepath "data/recipes" "r1" "json")) = true
          \/ stat served (Path (filepath "data/recipes" "r1" "json")) = inl ENOENT
          \/ stat served (Path (filepath "data/recipes" "r1" "json")) = inl ENOTDIR).
Proof.
  split; [reflexivity|].
  destruct (DocumentStoreFacts.exists_follows_stat environment
              "recipe" "data/recipes" "r1" "json" served eq_refl)
    as (H1 & _ & H2 & _).
  split; [exact H1|exact H2].
Defined.

(** C4, as stated, fails: [exists()] has an exception path.  For an id of
    300 characters the name is longer than the system allows, and [stat],
    and with it [exists()], raises. *)
Lemma exists_raises_on_long_name :
  is_object_exists environment "recipe" long_id "json" served
  = (Raise (OSError 36 ("data/recipes/" +:+ long_id +:+ ".json")), served).
Proof. vm_compute. reflexivity. Qed.



Lemma same_file_name_same_object_witness :
  environment !! "recipe" = Some "data/recipes"
  /\ "a.b" +:+ "." +:+ "c" = "a" +:+ "." +:+ "b.c"
  /\ returns (create_object environment "recipe" "a.b" r1 "c" served).1 = true
  /\ read_object environment json_document "recipe" "a" "b.c"
       (create_object environment "recipe" "a.b" r1 "c" served).2
     = (Return (reload r1), (create_object environment "recipe" "a.b" r1 "c" served).2).
Proof.
  split; [reflexivity|]. split; [reflexivity|]. split; [reflexivity|].
  apply (DocumentStoreMore.same_file_name_same_object environment json_document
           "recipe" "data/recipes" "a.b" "c" "a" "b.c" r1 served _ eq_refl eq_refl).
  vm_compute. reflexivity.
Defined.

Lemma exists_decides_the_others_witness :
  let d := served_with "r1.json" (Bytes "{") in
  environment !! "recipe" = Some "data/recipes"
  /\ has_nul "data/recipes" = false
  /\ walk d (start d "data/recipes/") (split_slash "data/recipes") = inr recipes
  /\ is_directory d recipes = true
  /\ ordinary_name "r1.json" = true
  /\ (String.length (filepath "data/recipes" "r1" "json") < PATH_MAX)%nat
  /\ is_directory d (recipes ++ ["r1.json"]) = false
  /\ exists b : bool,
       is_object_exists environment "recipe" "r1" "json" d = (Return b, d)
       /\ returns (get_creation_datetime environment Z (fun z : Z => z)
                     "recipe" "r1" "json" d).1 = b
       /\ returns (delete_object environment "recipe" "r1" "json" d).1 = b
       /\ (b = false
           <-> (read_object environment json_document "recipe" "r1" "json" d).1
               = Raise (FileNotFoundError (filepath "data/recipes" "r1" "json"))).
Proof.
  intros d.
  assert (Hlen : (String.length (filepath "data/recipes" "r1" "json") < PATH_MAX)%nat).
  { apply Nat.ltb_lt. vm_compute. reflexivity. }
  do 5 (split; [reflexivity|]). split; [exact Hlen|]. split; [reflexivity|].
  exact (DocumentStoreMore.exists_decides_the_others environment json_document
           (fun z : Z => z) "recipe" "data/recipes" "r1" "json" d recipes
           eq_refl eq_refl eq_refl eq_refl eq_refl Hlen eq_refl).
Defined.

Lemma delete_twice_raises_witness :
  let d := served_with "r1.json" (Dumped (JObject [])) in
  environment !! "recipe" = Some "data/recipes"
  /\ has_nul "data/recipes" = false
  /\ walk d (start d "data/recipes/") (split_slash "data/recipes") = inr recipes
  /\ is_directory d recipes = true
  /\ ordinary_name "r1.json" = true
  /\ (String.length (filepath "data/recipes" "r1" "json") < PATH_MAX)%nat
  /\ is_directory d (recipes ++ ["r1.json"]) = false
  /\ exists d' : disk,
       (delete_object environment "recipe" "r1" "json";;
        delete_object environment "recipe" "r1" "json") d
       = (Raise (RuntimeError ("No " +:+ "recipe" +:+ " found with ID: " +:+ "r1")), d')
       /\ tree d' !! (recipes ++ ["r1" +:+ "." +:+ "json"]) = None
       /\ is_object_exists environment "recipe" "r1" "json" d' = (Return false, d').
Proof.
  intros d.
  assert (Hlen : (String.length (filepath "data/recipes" "r1" "json") < PATH_MAX)%nat).
  { apply Nat.ltb_lt. vm_compute. reflexivity. }
  do 5 (split; [reflexivity|]). split; [exact Hlen|]. split; [reflexivity|].
  exact (DocumentStoreMore.delete_twice_raises environment
           "recipe" "data/recipes" "r1" "json" d recipes
           eq_refl eq_refl eq_refl eq_refl eq_refl Hlen eq_refl).
Defined.

End StoreRuns.
